(** * ParlAI conversations format: [parlai/utils/conversations.py]

    A shallow embedding of the [Metadata] and [Conversations] classes and
    the properties of their load / iterate / save contract.

    Python values that travel through the module (turn fields, the [opt]
    blob, parsed JSON lines) are modelled by the type [value]; dicts keep
    their insertion order, so they are association lists updated in place.
    A [string] is a Python [str] whose code points are below 256.  The
    file system is a finite map from paths to the text of regular files
    (opening a file for writing always succeeds), standard output is the
    list of printed lines, and a raised exception is a result of type
    [exn]; the clock reading of [save_metadata] is an argument.

    The three library routines the module calls ([os.path.splitext],
    [json.dumps], [json.loads]) are parameters of the two classes.  The
    module [PyLib] gives an instance of them, used to run the classes on
    concrete files and proved to satisfy what the statements assume of a
    JSON library.

    The display methods ([read], [read_metadata], [read_conv_idx],
    [read_rand_conv]) are in the module [Display]: they print, touch no
    file, and raise errors of their own type.  What an f-string prints of
    a value is a parameter there, and the element [random.choice] draws
    is an argument. *)

From Stdlib Require Import ZArith String Ascii List Bool Lia.
From stdpp Require Import base option list strings gmap.

Local Open Scope string_scope.
Local Open Scope list_scope.

(** ** Python values *)

#[local] Unset Elimination Schemes.
Inductive value : Type :=
| VNone
| VBool (b : bool)
| VInt (n : Z)
| VStr (s : string)
| VList (l : list value)
| VDict (d : list (string * value)).
#[local] Set Elimination Schemes.

(** A dict with string keys, in insertion order. *)
Abbreviation dict := (list (string * value)).

Section value_induction.
Variable P : value -> Prop.
Hypothesis HNone : P VNone.
Hypothesis HBool : forall b, P (VBool b).
Hypothesis HInt : forall n, P (VInt n).
Hypothesis HStr : forall s, P (VStr s).
Hypothesis HList : forall l, Forall P l -> P (VList l).
Hypothesis HDict : forall d, Forall (fun kv => P (snd kv)) d -> P (VDict d).

Fixpoint value_nested_ind (v : value) : P v :=
  match v with
  | VNone => HNone
  | VBool b => HBool b
  | VInt n => HInt n
  | VStr s => HStr s
  | VList l =>
      HList l ((fix go (l : list value) : Forall P l :=
                  match l with
                  | [] => @List.Forall_nil _ P
                  | x :: l' => @List.Forall_cons _ P x l' (value_nested_ind x) (go l')
                  end) l)
  | VDict d =>
      HDict d ((fix go (d : dict) : Forall (fun kv => P (snd kv)) d :=
                  match d with
                  | [] => @List.Forall_nil _ _
                  | kv :: d' =>
                      @List.Forall_cons _ (fun kv => P (snd kv)) kv d'
                        (value_nested_ind (snd kv)) (go d')
                  end) d)
  end.
End value_induction.

(** Python's [==] on the modelled values.  Turn ids are strings or [None],
    on which [==] is structural equality. *)
Fixpoint value_eqb (a b : value) : bool :=
  match a, b with
  | VNone, VNone => true
  | VBool x, VBool y => Bool.eqb x y
  | VInt x, VInt y => Z.eqb x y
  | VStr x, VStr y => String.eqb x y
  | VList l, VList m =>
      (fix go (l m : list value) : bool :=
         match l, m with
         | [], [] => true
         | x :: l', y :: m' => value_eqb x y && go l' m'
         | _, _ => false
         end) l m
  | VDict d, VDict e =>
      (fix go (d e : dict) : bool :=
         match d, e with
         | [], [] => true
         | kx :: d', ky :: e' =>
             String.eqb (fst kx) (fst ky) && value_eqb (snd kx) (snd ky) && go d' e'
         | _, _ => false
         end) d e
  | _, _ => false
  end.

(** [x in l] for a Python list [l]. *)
Definition py_in (x : value) (l : list value) : bool :=
  existsb (fun e => value_eqb e x) l.

(** ** Dict operations *)

(** [d.get(k)] as an option: the entry stored under [k]. *)
Fixpoint dict_get (d : dict) (k : string) : option value :=
  match d with
  | [] => None
  | (k', v) :: d' => if String.eqb k' k then Some v else dict_get d' k
  end.

(** [d.get(k, dflt)]. *)
Definition py_get (d : dict) (k : string) (dflt : value) : value :=
  match dict_get d k with
  | Some v => v
  | None => dflt
  end.

(** [d[k] = v]: an existing key keeps its position, a new key goes last. *)
Fixpoint dict_set (d : dict) (k : string) (v : value) : dict :=
  match d with
  | [] => [(k, v)]
  | (k', v') :: d' =>
      if String.eqb k' k then (k', v) :: d' else (k', v') :: dict_set d' k v
  end.

Definition dict_keys (d : dict) : list string := map fst d.

(** [del d[k]] when present; used to compare records up to one field. *)
Fixpoint dict_del (d : dict) (k : string) : dict :=
  match d with
  | [] => []
  | (k', v) :: d' => if String.eqb k' k then d' else (k', v) :: dict_del d' k
  end.

(** ** Strings *)

(** [s.split(c)] for a one-character separator. *)
Fixpoint split_on (c : ascii) (s : string) : list string :=
  match s with
  | EmptyString => [EmptyString]
  | String a s' =>
      if Ascii.eqb a c then EmptyString :: split_on c s'
      else match split_on c s' with
           | h :: t => String a h :: t
           | [] => [String a EmptyString]
           end
  end.

Definition split_commas (s : string) : list string := split_on "," s.

(** Characters at which [str.splitlines] breaks a line, among the code
    points a [string] holds: LF, VT, FF, CR, FS, GS, RS and NEL. *)
Definition is_linebreak (a : ascii) : bool :=
  match nat_of_ascii a with
  | 10 | 11 | 12 | 13 | 28 | 29 | 30 | 133 => true
  | _ => false
  end.

(** [s.splitlines()]: [cur] is the line read so far; a CR LF pair is one
    boundary; a final line without terminator is kept unless empty. *)
Fixpoint splitlines_aux (cur : string) (s : string) : list string :=
  match s with
  | EmptyString =>
      match cur with
      | EmptyString => []
      | _ => [cur]
      end
  | String a s' =>
      if is_linebreak a then
        match s' with
        | String b s'' =>
            if Ascii.eqb a "013" && Ascii.eqb b "010"
            then cur :: splitlines_aux EmptyString s''
            else cur :: splitlines_aux EmptyString s'
        | EmptyString => [cur]
        end
      else splitlines_aux (cur +:+ String a EmptyString) s'
  end.

Definition splitlines (s : string) : list string := splitlines_aux EmptyString s.

(** ** Exceptions, the world, and the monad of effectful methods *)

(** The exceptions the module can raise.  [JSONDecodeError] carries the
    error the JSON decoder built, of the decoder's own type [E]. *)
Inductive exn (E : Type) : Type :=
| RuntimeError (msg : string)
| JSONDecodeError (e : E)
| KeyError (k : string)
| TypeError
| IndexError.
Arguments RuntimeError {E} msg.
Arguments JSONDecodeError {E} e.
Arguments KeyError {E} k.
Arguments TypeError {E}.
Arguments IndexError {E}.

(** Regular files by path, and what has been printed so far. *)
Record world : Type := World {
  fs : gmap string string;
  stdout : list string
}.

(** A computation reads and updates the world and returns a value or
    raises; effects performed before a raise stay in the world. *)
Definition M (E A : Type) : Type := world -> (exn E + A) * world.

Definition ret {E A} (a : A) : M E A := fun w => (inr a, w).

Definition raise {E A} (e : exn E) : M E A := fun w => (inl e, w).

Definition bind {E A B} (m : M E A) (k : A -> M E B) : M E B :=
  fun w =>
    match m w with
    | (inr a, w') => k a w'
    | (inl e, w') => (inl e, w')
    end.

(** [try: m except RuntimeError: h]. *)
Definition catch_RuntimeError {E A} (m : M E A) (h : M E A) : M E A :=
  fun w =>
    match m w with
    | (inl (RuntimeError _), w') => h w'
    | r => r
    end.

Notation "x <- m ;; k" := (bind m (fun x => k))
  (at level 100, m at next level, right associativity).
Notation "m ;;; k" := (bind m (fun _ => k))
  (at level 100, right associativity).

(** [print(s)]. *)
Definition print {E} (s : string) : M E unit :=
  fun w => (inr tt, World (fs w) (stdout w ++ [s])).

(** [os.path.isfile(p)]. *)
Definition isfile {E} (p : string) : M E bool :=
  fun w => (inr (bool_decide (is_Some (fs w !! p))), w).

(** [open(p).read()] of a file known to exist; a missing file reads as
    empty here, the callers test [isfile] first. *)
Definition read_file {E} (p : string) : M E string :=
  fun w => (inr (default EmptyString (fs w !! p)), w).

(** [open(p, 'w')] followed by the writes that make up [s]: the file is
    created or truncated, never appended to. *)
Definition write_file {E} (p s : string) : M E unit :=
  fun w => (inr tt, World (<[p := s]> (fs w)) (stdout w)).

(** [l[i]] for a Python list, negative indices counting from the end;
    [None] is the bounds failure. *)
Definition py_index {A} (l : list A) (i : Z) : option A :=
  if (0 <=? i)%Z then nth_error l (Z.to_nat i)
  else if (- Z.of_nat (length l) <=? i)%Z
       then nth_error l (Z.to_nat (Z.of_nat (length l) + i))
       else None.

(** [v[k]] for a string key: only a dict can be subscripted by a string. *)
Definition py_subscript {E} (v : value) (k : string) : M E value :=
  match v with
  | VDict d =>
      match dict_get d k with
      | Some x => ret x
      | None => raise (KeyError k)
      end
  | _ => raise TypeError
  end.

(** ** class Metadata *)

Module Metadata.
Section Metadata.
Context {E : Type}.
Variable splitext : string -> string * string.
Variable dumps : value -> string.
Variable loads : string -> E + value.

(** The attributes [_load] sets on the object. *)
Record t : Type := Build {
  metadata_path : string;
  datetime : value;
  opt : value;
  self_chat : value;
  speakers : value;
  version_num : value;
  extra_data : dict
}.

Definition _get_path (datapath : string) : string :=
  fst (splitext datapath) +:+ ".metadata".

Definition version : string := "0.1".

Definition required_keys : list string :=
  ["date"; "opt"; "speakers"; "self_chat"; "version"].

Definition _load (datapath : string) : M E t :=
  let metadata_path := _get_path datapath in
  b <- isfile metadata_path ;;
  if negb b then
    raise (RuntimeError ("Metadata at path " +:+ metadata_path +:+ " not found. "
                         +:+ "Double check your path."))
  else
    s <- read_file metadata_path ;;
    match loads s with
    | inl e => raise (JSONDecodeError e)
    | inr metadata =>
        date <- py_subscript metadata "date" ;;
        opt <- py_subscript metadata "opt" ;;
        self_chat <- py_subscript metadata "self_chat" ;;
        speakers <- py_subscript metadata "speakers" ;;
        version_num <- py_subscript metadata "version" ;;
        let items := match metadata with VDict d => d | _ => [] end in
        let extra_data :=
          fold_left
            (fun extra kv =>
               if existsb (String.eqb (fst kv)) required_keys then extra
               else dict_set extra (fst kv) (snd kv))
            items [] in
        ret (Build metadata_path date opt self_chat speakers version_num extra_data)
    end.

(** The record [save_metadata] dumps; [now] is [str(datetime.datetime.now())]. *)
Definition metadata_record (now : string) (opt self_chat speakers : value)
    (kwargs : dict) : dict :=
  let metadata := [] in
  let metadata := dict_set metadata "date" (VStr now) in
  let metadata := dict_set metadata "opt" opt in
  let metadata := dict_set metadata "self_chat" self_chat in
  let metadata := dict_set metadata "speakers" speakers in
  let metadata := dict_set metadata "version" (VStr version) in
  fold_left (fun metadata kv => dict_set metadata (fst kv) (snd kv)) kwargs metadata.

Definition save_metadata (now : string) (datapath : string)
    (opt self_chat speakers : value) (kwargs : dict) : M E unit :=
  let metadata := metadata_record now opt self_chat speakers kwargs in
  let metadata_path := _get_path datapath in
  print ("[ Writing metadata to file " +:+ metadata_path +:+ " ]") ;;;
  write_file metadata_path (dumps (VDict metadata)).
End Metadata.
End Metadata.

(** ** class Conversations *)

Module Conversations.
Section Conversations.
Context {E : Type}.
Variable splitext : string -> string * string.
Variable dumps : value -> string.
Variable loads : string -> E + value.

Record t : Type := Build {
  conversations : list value;
  metadata : option Metadata.t;
  iterator_idx : Z
}.

Definition num_conversations (self : t) : Z :=
  Z.of_nat (length (conversations self)).

(** The loop over [lines], appending each parsed line. *)
Fixpoint parse_lines (lines : list string) (conversations : list value)
    : M E (list value) :=
  match lines with
  | [] => ret conversations
  | line :: lines' =>
      match loads line with
      | inl e => raise (JSONDecodeError e)
      | inr c => parse_lines lines' (conversations ++ [c])
      end
  end.

Definition _load_conversations (datapath : string) : M E (list value) :=
  b <- isfile datapath ;;
  if negb b then
    raise (RuntimeError ("Conversations at path " +:+ datapath +:+ " not found. "
                         +:+ "Double check your path."))
  else
    s <- read_file datapath ;;
    parse_lines (splitlines s) [].

Definition _load_metadata (datapath : string) : M E (option Metadata.t) :=
  catch_RuntimeError
    (m <- Metadata._load splitext loads datapath ;; ret (Some m))
    (print "Metadata does not exist. Please double check your datapath." ;;;
     ret None).

Definition __init__ (datapath : string) : M E t :=
  conversations <- _load_conversations datapath ;;
  metadata <- _load_metadata datapath ;;
  ret (Build conversations metadata 0).

Definition __getitem__ (self : t) (index : Z) : M E value :=
  match py_index (conversations self) index with
  | Some c => ret c
  | None => raise IndexError
  end.

Definition reset (self : t) : t :=
  Build (conversations self) (metadata self) 0.

(** Returns the value handed back and the object after the call. *)
Definition __next__ (self : t) : M E (value * t) :=
  if (num_conversations self <=? iterator_idx self)%Z then
    print "You reached the end of the conversations." ;;;
    ret (VNone, reset self)
  else
    conv <- __getitem__ self (iterator_idx self) ;;
    ret (conv, Build (conversations self) (metadata self) (iterator_idx self + 1)).

Definition _get_path (datapath : string) : string :=
  fst (splitext datapath) +:+ ".jsonl".

Definition default_save_keys : string := "text,labels,eval_labels".
Definition default_context_ids : string := "context".

(** Lines 257-260: the turn record built for [ex]. *)
Definition make_turn (save_keys : string) (ex : dict) (ex_id : value) : dict :=
  let turn :=
    fold_left (fun turn key => dict_set turn key (py_get ex key (VStr "")))
              (split_commas save_keys) [] in
  dict_set turn "id" ex_id.

(** Body of [for ex in act_pair]; the state is [speakers], [new_pair]
    and [convo['context']]. *)
Definition save_ex (context_ids : list value) (save_keys : string)
    (st : list value * list dict * list dict) (ex : dict)
    : list value * list dict * list dict :=
  let '(speakers, new_pair, context) := st in
  let ex_id := py_get ex "id" VNone in
  let is_context := py_in ex_id context_ids in
  let speakers :=
    if is_context then speakers
    else if negb (py_in ex_id speakers) then speakers ++ [ex_id] else speakers in
  let turn := make_turn save_keys ex ex_id in
  if negb is_context then (speakers, new_pair ++ [turn], context)
  else (speakers, new_pair, context ++ [turn]).

(** Body of [for act_pair in ep]; the state is [speakers],
    [convo['dialog']] and [convo['context']]. *)
Definition save_pair (context_ids : list value) (save_keys : string)
    (st : list value * list (list dict) * list dict) (act_pair : list dict)
    : list value * list (list dict) * list dict :=
  let '(speakers, dialog, context) := st in
  let '(speakers, new_pair, context) :=
    fold_left (save_ex context_ids save_keys) act_pair (speakers, [], context) in
  match new_pair with
  | [] => (speakers, dialog, context)
  | _ => (speakers, dialog ++ [new_pair], context)
  end.

(** The dict [convo] once the episode is processed. *)
Definition convo_record (dialog : list (list dict)) (context : list dict)
    (to_save : string) : value :=
  VDict [("dialog", VList (map (fun pair => VList (map VDict pair)) dialog));
         ("context", VList (map VDict context));
         ("metadata_path", VStr (Metadata._get_path splitext to_save))].

(** Body of [for ep in act_list]; the state is [speakers] and what has
    been written to [f]. *)
Definition save_episode (context_ids : list value) (save_keys to_save : string)
    (st : list value * string) (ep : list (list dict)) : list value * string :=
  let '(speakers, written) := st in
  match ep with
  | [] => (speakers, written)
  | _ =>
      let '(speakers, dialog, context) :=
        fold_left (save_pair context_ids save_keys) ep (speakers, [], []) in
      let json_convo := dumps (convo_record dialog context to_save) in
      (speakers, written +:+ (json_convo +:+ String "010" EmptyString))
  end.

(** [now] is the clock reading [Metadata.save_metadata] takes.  A
    [speakers] entry in [kwargs] collides with the keyword the call
    passes. *)
Definition save_conversations (now : string)
    (act_list : list (list (list dict))) (datapath : string) (opt : value)
    (save_keys context_ids : string) (self_chat : value) (kwargs : dict)
    : M E unit :=
  let to_save := _get_path datapath in
  let context_ids := map VStr (split_commas context_ids) in
  let '(speakers, written) :=
    fold_left (save_episode context_ids save_keys to_save) act_list ([], EmptyString) in
  write_file to_save written ;;;
  print (" [ Conversations saved to file: " +:+ to_save +:+ " ]") ;;;
  if existsb (String.eqb "speakers") (dict_keys kwargs) then raise TypeError
  else Metadata.save_metadata splitext dumps now to_save opt self_chat
         (VList speakers) kwargs.
End Conversations.
End Conversations.

(** ** The display methods

    [Metadata.read], [Conversations.read_metadata],
    [Conversations.read_conv_idx] and [Conversations.read_rand_conv]
    print to the standard output.  They can fail with [AttributeError],
    which no other method raises, and with none of the errors of the
    files or of the JSON decoder. *)

Module Display.

Inductive exn : Type :=
| KeyError (k : string)
| TypeError
| IndexError
| AttributeError.

Definition D (A : Type) : Type := world -> (exn + A) * world.

Definition ret {A} (a : A) : D A := fun w => (inr a, w).

Definition raise {A} (e : exn) : D A := fun w => (inl e, w).

Definition bind {A B} (m : D A) (k : A -> D B) : D B :=
  fun w =>
    match m w with
    | (inr a, w') => k a w'
    | (inl e, w') => (inl e, w')
    end.

Local Notation "x <~ m ;; k" := (bind m (fun x => k))
  (at level 100, m at next level, right associativity).
Local Notation "m ;;~ k" := (bind m (fun _ => k))
  (at level 100, right associativity).

(** [print(s)]. *)
Definition print (s : string) : D unit :=
  fun w => (inr tt, World (fs w) (stdout w ++ [s])).

(** [for x in l: body(x)]. *)
Fixpoint for_each {A} (body : A -> D unit) (l : list A) : D unit :=
  match l with
  | [] => ret tt
  | x :: l' => body x ;;~ for_each body l'
  end.

(** [v.items()] and [v.keys()]: among the values of JSON only a dict has
    these methods. *)
Definition py_items (v : value) : D dict :=
  match v with
  | VDict d => ret d
  | _ => raise AttributeError
  end.

Definition py_keys (v : value) : D (list string) :=
  match v with
  | VDict d => ret (dict_keys d)
  | _ => raise AttributeError
  end.

(** [v[k]] for a string key. *)
Definition subscript (v : value) (k : string) : D value :=
  match v with
  | VDict d =>
      match dict_get d k with
      | Some x => ret x
      | None => raise (KeyError k)
      end
  | _ => raise TypeError
  end.

(** What [for x in v] runs over: the elements of a list, the characters
    of a string, the keys of a dict; nothing else is iterable. *)
Definition py_iter (v : value) : D (list value) :=
  match v with
  | VList l => ret l
  | VStr s => ret (map (fun c => VStr (String c EmptyString)) (list_ascii_of_string s))
  | VDict d => ret (map VStr (dict_keys d))
  | _ => raise TypeError
  end.

(** [l[idx]] on [self.conversations]. *)
Definition index (l : list value) (idx : Z) : D value :=
  match py_index l idx with
  | Some c => ret c
  | None => raise IndexError
  end.

Definition BAR : string := string_of_list_ascii (repeat "="%char 60).
Definition SMALL_BAR : string := string_of_list_ascii (repeat "-"%char 60).

Section Display.
(** What a replacement field of an f-string prints of a value:
    [format(v, '')]. *)
Variable py_format : value -> string.

(** [Metadata.read]. *)
Definition read (self : Metadata.t) : D unit :=
  print ("Metadata version " +:+ py_format (Metadata.version_num self)) ;;~
  print ("Saved at: " +:+ py_format (Metadata.datetime self)) ;;~
  print ("Self chat: " +:+ py_format (Metadata.self_chat self)) ;;~
  print ("Speakers: " +:+ py_format (Metadata.speakers self)) ;;~
  print "Opt:" ;;~
  items <~ py_items (Metadata.opt self) ;;
  for_each (fun kv => print (String "009" (fst kv +:+ ": " +:+ py_format (snd kv))))
           items ;;~
  for_each (fun kv => print (fst kv +:+ ": " +:+ py_format (snd kv)))
           (Metadata.extra_data self).

(** [Conversations.read_metadata]. *)
Definition read_metadata (self : Conversations.t) : D unit :=
  match Conversations.metadata self with
  | Some metadata => read metadata
  | None => ret tt
  end.

(** Body of [for turn in act_pair]. *)
Definition read_turn (turn : value) : D unit :=
  turn_id <~ subscript turn "id" ;;
  text <~ subscript turn "text" ;;
  print (py_format turn_id +:+ ": " +:+ py_format text).

(** Body of [for act_pair in convo['dialog']]. *)
Definition read_pair (act_pair : value) : D unit :=
  turns <~ py_iter act_pair ;;
  for_each read_turn turns.

(** [Conversations.read_conv_idx]. *)
Definition read_conv_idx (self : Conversations.t) (idx : Z) : D unit :=
  convo <~ index (Conversations.conversations self) idx ;;
  print BAR ;;~
  keys <~ py_keys convo ;;
  let high_level := List.filter (fun k => negb (String.eqb k "dialog")) keys in
  match high_level with
  | [] => ret tt
  | _ =>
      for_each (fun key => v <~ subscript convo key ;;
                           print (key +:+ ": " +:+ py_format v))
               high_level ;;~
      print SMALL_BAR
  end ;;~
  dialog <~ subscript convo "dialog" ;;
  pairs <~ py_iter dialog ;;
  for_each read_pair pairs ;;~
  print BAR.

(** [Conversations.read_rand_conv]; [choice] is the element that
    [random.choice] picks in [range(num_conversations)], which raises
    [IndexError] on an empty range. *)
Definition read_rand_conv (self : Conversations.t) (choice : Z) : D unit :=
  idx <~ (if (Conversations.num_conversations self =? 0)%Z then raise IndexError
          else ret choice) ;;
  read_conv_idx self idx.
End Display.
End Display.

(** ** An instance of the library routines

    [os.path.splitext] as in [posixpath], and a JSON encoder and decoder
    for [value] with the defaults of [json.dumps] (separators [", "] and
    [": "], every character outside printable ASCII escaped).  They make
    the development runnable on concrete files. *)

Module PyLib.

(** [s.rfind(c)], [-1] when absent; [i] is the index of the head. *)
Fixpoint rfind_from (c : ascii) (s : string) (i : Z) : Z :=
  match s with
  | EmptyString => (-1)%Z
  | String a s' =>
      let r := rfind_from c s' (i + 1)%Z in
      if (0 <=? r)%Z then r else if Ascii.eqb a c then i else (-1)%Z
  end.

Definition rfind (c : ascii) (s : string) : Z := rfind_from c s 0.

Definition slice (s : string) (lo hi : Z) : string :=
  substring (Z.to_nat lo) (Z.to_nat (hi - lo)) s.

(** The [while] loop of [genericpath._splitext]: is some character of
    [p[lo:hi]] not a dot? *)
Definition has_non_dot (p : string) (lo hi : Z) : bool :=
  existsb (fun a => negb (Ascii.eqb a "."))
          (list_ascii_of_string (slice p lo hi)).

Definition splitext (p : string) : string * string :=
  let sepIndex := rfind "/" p in
  let dotIndex := rfind "." p in
  if (sepIndex <? dotIndex)%Z && has_non_dot p (sepIndex + 1) dotIndex
  then (slice p 0 dotIndex, slice p dotIndex (Z.of_nat (String.length p)))
  else (p, EmptyString).

Definition hex_digit (n : nat) : ascii :=
  nth n (list_ascii_of_string "0123456789abcdef") "0"%char.

Definition escape_char (a : ascii) : string :=
  let n := nat_of_ascii a in
  if Ascii.eqb a "034" then String "\" (String "034" EmptyString)
  else if Ascii.eqb a "\" then "\\"
  else if Nat.eqb n 10 then "\n"
  else if Nat.eqb n 13 then "\r"
  else if Nat.eqb n 9 then "\t"
  else if Nat.eqb n 8 then "\b"
  else if Nat.eqb n 12 then "\f"
  else if (32 <=? n)%nat && (n <=? 126)%nat then String a EmptyString
  else "\u00" +:+ String (hex_digit (n / 16)) (String (hex_digit (n mod 16)) EmptyString).

Fixpoint escape (s : string) : string :=
  match s with
  | EmptyString => EmptyString
  | String a s' => escape_char a +:+ escape s'
  end.

Definition quote (s : string) : string :=
  String "034" (escape s +:+ String "034" EmptyString).

Fixpoint digits_of_pos (fuel : nat) (n : N) (acc : string) : string :=
  match fuel with
  | O => acc
  | S fuel' =>
      let d := ascii_of_nat (48 + N.to_nat (n mod 10)) in
      if (n <? 10)%N then String d acc
      else digits_of_pos fuel' (n / 10)%N (String d acc)
  end.

Definition dumps_int (n : Z) : string :=
  let m := Z.to_N (Z.abs n) in
  let ds := digits_of_pos (S (N.to_nat (N.log2 m))) m EmptyString in
  if (n <? 0)%Z then "-" +:+ ds else ds.

Fixpoint join (sep : string) (l : list string) : string :=
  match l with
  | [] => EmptyString
  | [x] => x
  | x :: l' => x +:+ sep +:+ join sep l'
  end.

Fixpoint dumps (v : value) : string :=
  match v with
  | VNone => "null"
  | VBool true => "true"
  | VBool false => "false"
  | VInt n => dumps_int n
  | VStr s => quote s
  | VList l => "[" +:+ join ", " (map dumps l) +:+ "]"
  | VDict d =>
      "{" +:+ join ", " (map (fun kv => quote (fst kv) +:+ ": " +:+ dumps (snd kv)) d)
      +:+ "}"
  end.

Definition is_ws (a : ascii) : bool :=
  match nat_of_ascii a with
  | 32 | 9 | 10 | 13 => true
  | _ => false
  end.

Fixpoint skip_ws (s : string) : string :=
  match s with
  | String a s' => if is_ws a then skip_ws s' else s
  | EmptyString => s
  end.

Definition digit_val (a : ascii) : option Z :=
  let n := nat_of_ascii a in
  if (48 <=? n)%nat && (n <=? 57)%nat then Some (Z.of_nat (n - 48)) else None.

Definition hex_val (a : ascii) : option nat :=
  let n := nat_of_ascii a in
  if (48 <=? n)%nat && (n <=? 57)%nat then Some (n - 48)
  else if (97 <=? n)%nat && (n <=? 102)%nat then Some (n - 87)
  else if (65 <=? n)%nat && (n <=? 70)%nat then Some (n - 55)
  else None.

Fixpoint parse_digits (acc : Z) (s : string) : Z * string :=
  match s with
  | String a s' =>
      match digit_val a with
      | Some d => parse_digits (10 * acc + d)%Z s'
      | None => (acc, s)
      end
  | EmptyString => (acc, s)
  end.

Definition parse_nat (s : string) : option (Z * string) :=
  match s with
  | String a _ =>
      match digit_val a with
      | Some _ => Some (parse_digits 0 s)
      | None => None
      end
  | EmptyString => None
  end.

Definition snoc (s : string) (a : ascii) : string := s +:+ String a EmptyString.

(** The characters after an opening quote, up to the closing one. *)
Fixpoint parse_chars (acc : string) (s : string) : option (string * string) :=
  match s with
  | EmptyString => None
  | String a s' =>
      if Ascii.eqb a "034" then Some (acc, s')
      else if Ascii.eqb a "\" then
        match s' with
        | String b s'' =>
            if Ascii.eqb b "u" then
              match s'' with
              | String h1 (String h2 (String h3 (String h4 s3))) =>
                  match hex_val h1, hex_val h2, hex_val h3, hex_val h4 with
                  | Some 0, Some 0, Some x, Some y =>
                      parse_chars (snoc acc (ascii_of_nat (16 * x + y))) s3
                  | _, _, _, _ => None
                  end
              | _ => None
              end
            else if Ascii.eqb b "n" then parse_chars (snoc acc "010") s''
            else if Ascii.eqb b "r" then parse_chars (snoc acc "013") s''
            else if Ascii.eqb b "t" then parse_chars (snoc acc "009") s''
            else if Ascii.eqb b "b" then parse_chars (snoc acc "008") s''
            else if Ascii.eqb b "f" then parse_chars (snoc acc "012") s''
            else if Ascii.eqb b "034" || Ascii.eqb b "\" || Ascii.eqb b "/"
            then parse_chars (snoc acc b) s''
            else None
        | EmptyString => None
        end
      else if (nat_of_ascii a <? 32)%nat then None
      else parse_chars (snoc acc a) s'
  end.

(** [expect p s]: what follows the prefix [p] of [s]. *)
Fixpoint expect (p s : string) : option string :=
  match p with
  | EmptyString => Some s
  | String a p' =>
      match s with
      | String b s' => if Ascii.eqb a b then expect p' s' else None
      | EmptyString => None
      end
  end.

Fixpoint parse_value (fuel : nat) (s : string) : option (value * string) :=
  match fuel with
  | O => None
  | S fuel' =>
      match skip_ws s with
      | EmptyString => None
      | String c r =>
          if Ascii.eqb c "n" then
            match expect "ull" r with
            | Some r' => Some (VNone, r')
            | None => None
            end
          else if Ascii.eqb c "t" then
            match expect "rue" r with
            | Some r' => Some (VBool true, r')
            | None => None
            end
          else if Ascii.eqb c "f" then
            match expect "alse" r with
            | Some r' => Some (VBool false, r')
            | None => None
            end
          else if Ascii.eqb c "034" then
            match parse_chars EmptyString r with
            | Some (str, r') => Some (VStr str, r')
            | None => None
            end
          else if Ascii.eqb c "-" then
            match parse_nat r with
            | Some (n, r') => Some (VInt (- n), r')
            | None => None
            end
          else if Ascii.eqb c "[" then
            match skip_ws r with
            | String c' r' =>
                if Ascii.eqb c' "]" then Some (VList [], r')
                else parse_elems fuel' r []
            | EmptyString => None
            end
          else if Ascii.eqb c "{" then
            match skip_ws r with
            | String c' r' =>
                if Ascii.eqb c' "}" then Some (VDict [], r')
                else parse_members fuel' r []
            | EmptyString => None
            end
          else
            match parse_nat (String c r) with
            | Some (n, r') => Some (VInt n, r')
            | None => None
            end
      end
  end
with parse_elems (fuel : nat) (s : string) (acc : list value)
    : option (value * string) :=
  match fuel with
  | O => None
  | S fuel' =>
      match parse_value fuel' s with
      | Some (v, r) =>
          match skip_ws r with
          | String c r' =>
              if Ascii.eqb c "," then parse_elems fuel' r' (acc ++ [v])
              else if Ascii.eqb c "]" then Some (VList (acc ++ [v]), r')
              else None
          | EmptyString => None
          end
      | None => None
      end
  end
with parse_members (fuel : nat) (s : string) (acc : dict)
    : option (value * string) :=
  match fuel with
  | O => None
  | S fuel' =>
      match skip_ws s with
      | String c r =>
          if Ascii.eqb c "034" then
            match parse_chars EmptyString r with
            | Some (k, r1) =>
                match skip_ws r1 with
                | String c1 r2 =>
                    if Ascii.eqb c1 ":" then
                      match parse_value fuel' r2 with
                      | Some (v, r3) =>
                          match skip_ws r3 with
                          | String c3 r4 =>
                              if Ascii.eqb c3 "," then
                                parse_members fuel' r4 (dict_set acc k v)
                              else if Ascii.eqb c3 "}" then
                                Some (VDict (dict_set acc k v), r4)
                              else None
                          | EmptyString => None
                          end
                      | None => None
                      end
                    else None
                | EmptyString => None
                end
            | None => None
            end
          else None
      | EmptyString => None
      end
  end.

(** The decoder's error keeps the document it was raised on. *)
Definition loads (s : string) : string + value :=
  match parse_value (2 * String.length s + 2) s with
  | Some (v, r) =>
      match skip_ws r with
      | EmptyString => inr v
      | _ => inl s
      end
  | None => inl s
  end.

End PyLib.

(** ** What the save loops compute

    The loops of [save_conversations] thread three accumulators; read
    per episode they are the functions below, which the properties relate
    to the loops themselves. *)

Definition nonempty {A : Type} (l : list A) : bool :=
  match l with
  | [] => false
  | _ => true
  end.

(** The text of a file made of the given lines, each newline-terminated. *)
Definition file_of_lines (lines : list string) : string :=
  fold_right (fun line rest => (line +:+ String "010" EmptyString) +:+ rest)
             EmptyString lines.

Definition no_linebreak (s : string) : bool :=
  forallb (fun a => negb (is_linebreak a)) (list_ascii_of_string s).

(** One step of the running list of distinct speakers. *)
Definition see (speakers : list value) (x : value) : list value :=
  if py_in x speakers then speakers else speakers ++ [x].

(** The turns of a loaded conversation, pair by pair, as
    [read_conv_idx] walks them. *)
Definition dialog_turns (convo : value) : list value :=
  match convo with
  | VDict d =>
      match dict_get d "dialog" with
      | Some (VList pairs) =>
          concat (map (fun pair => match pair with VList ts => ts | _ => [] end) pairs)
      | _ => []
      end
  | _ => []
  end.

Section save_reading.
Context {E : Type}.
Variable splitext : string -> string * string.
Variable dumps : value -> string.
Variable context_ids : list value.
Variables save_keys to_save : string.

Definition turn_id (ex : dict) : value := py_get ex "id" VNone.

Definition is_context (ex : dict) : bool := py_in (turn_id ex) context_ids.

Definition is_dialog (ex : dict) : bool := negb (is_context ex).

Definition turn_record (ex : dict) : dict :=
  Conversations.make_turn save_keys ex (turn_id ex).

Definition pair_dialog (act_pair : list dict) : list dict :=
  map turn_record (List.filter is_dialog act_pair).

Definition episode_dialog (ep : list (list dict)) : list (list dict) :=
  List.filter nonempty (map pair_dialog ep).

Definition episode_context (ep : list (list dict)) : list dict :=
  map turn_record (List.filter is_context (concat ep)).

Definition episode_record (ep : list (list dict)) : value :=
  Conversations.convo_record splitext (episode_dialog ep) (episode_context ep) to_save.

(** Ids of the dialog turns, in the order the loops meet them. *)
Definition speaker_ids (turns : list dict) : list value :=
  map turn_id (List.filter is_dialog turns).

(** The records written, one per episode that is not empty. *)
Definition records_written (act_list : list (list (list dict))) : list value :=
  map episode_record (List.filter nonempty act_list).

(** The list [speakers] when the loop over [act_list] ends: the argument
    handed to [Metadata.save_metadata]. *)
Definition speakers_passed (act_list : list (list (list dict))) : list value :=
  fst (fold_left (Conversations.save_episode splitext dumps context_ids save_keys to_save)
                 act_list ([], EmptyString)).

(** What has been written to the conversation file when the loop ends. *)
Definition text_written (act_list : list (list (list dict))) : string :=
  snd (fold_left (Conversations.save_episode splitext dumps context_ids save_keys to_save)
                 act_list ([], EmptyString)).
End save_reading.

(** ** Sample inputs *)

(** The episode of the worked example: a context-only pair, then a pair
    with one context turn and two speakers. *)
Definition example_episode : list (list dict) :=
  [ [ [("id", VStr "context"); ("text", VStr "room A")] ];
    [ [("id", VStr "context"); ("text", VStr "room A")];
      [("id", VStr "speaker_1"); ("text", VStr "hi")];
      [("id", VStr "speaker_2"); ("text", VStr "hello")] ] ].

(** A turn record under the default [save_keys]. *)
Definition default_turn (text id : string) : value :=
  VDict [("text", VStr text); ("labels", VStr ""); ("eval_labels", VStr "");
         ("id", VStr id)].

(** ** Driving the cursor *)

(** [k] successive calls of [__next__] on the object, with the values they
    return in call order and the object after the last call. *)
Fixpoint next_n {E : Type} (k : nat) (self : Conversations.t)
    : M E (list value * Conversations.t) :=
  match k with
  | O => ret ([], self)
  | S k' =>
      r <- Conversations.__next__ self ;;
      rest <- next_n k' (snd r) ;;
      ret (fst r :: fst rest, snd rest)
  end.

Inductive cursor_op : Type :=
| OpNext
| OpReset.

(** Any sequence of [__next__] and [reset] calls. *)
Fixpoint run_ops {E : Type} (ops : list cursor_op) (self : Conversations.t)
    : M E Conversations.t :=
  match ops with
  | [] => ret self
  | OpNext :: ops' =>
      r <- Conversations.__next__ self ;;
      run_ops ops' (snd r)
  | OpReset :: ops' => run_ops ops' (Conversations.reset self)
  end.

Definition end_notice : string := "You reached the end of the conversations.".

(** ** Predicates used in the statements *)

(** Every line parses, to the matching conversation. *)
Definition parses {E : Type} (loads : string -> E + value)
    (lines : list string) (convs : list value) : Prop :=
  Forall2 (fun line c => loads line = inr c) lines convs.

(** Two metadata records that differ at most in the value of their leading
    [date] entry. *)
Definition same_but_date (m1 m2 : dict) : Prop :=
  exists v1 v2 rest, m1 = ("date", v1) :: rest /\ m2 = ("date", v2) :: rest.

(** Checks a [Forall] over a concrete list by evaluating each element. *)
Ltac check_each :=
  match goal with
  | |- Forall ?P ?l =>
      let l' := eval vm_compute in l in
      change (Forall P l')
  end;
  repeat (apply List.Forall_cons; [repeat split; vm_compute; reflexivity | ]);
  apply List.Forall_nil.

(** A value as Python can hold it: no dict lists a key twice. *)
Fixpoint wf_value (v : value) : bool :=
  match v with
  | VList l => forallb wf_value l
  | VDict d =>
      bool_decide (NoDup (map fst d)) && forallb (fun kv => wf_value (snd kv)) d
  | _ => true
  end.

Definition wf_dict (d : dict) : bool := wf_value (VDict d).

(** Nodes of a value, counting each list or dict entry once more: the
    recursion depth the decoder of [PyLib] needs on its encoding. *)
Fixpoint value_size (v : value) : nat :=
  match v with
  | VList l => S (list_sum (map (fun x => S (value_size x)) l))
  | VDict d => S (list_sum (map (fun kv => S (value_size (snd kv))) d))
  | _ => 1
  end.

(** What may follow a number: anything but a digit. *)
Definition ends_number (s : string) : Prop :=
  match s with
  | String c _ => PyLib.digit_val c = None
  | EmptyString => True
  end.

(** What [save_conversations] and [_load_conversations] need of the JSON
    library: a well-formed value is read back from its encoding, which
    holds no line break. *)
Definition json_codec {E : Type} (dumps : value -> string)
    (loads : string -> E + value) : Prop :=
  forall v, wf_value v = true ->
            loads (dumps v) = inr v /\ no_linebreak (dumps v) = true.

(** An act list as Python can hold it. *)
Definition wf_act_list (act_list : list (list (list dict))) : bool :=
  forallb (forallb (forallb wf_dict)) act_list.

Definition values_wf (d : dict) : bool :=
  forallb (fun kv => wf_value (snd kv)) d.

(** An encoding starts with a character that is neither blank nor a
    closing bracket. *)
Definition opens_value (s : string) : Prop :=
  exists c r, s = String c r /\ PyLib.is_ws c = false /\
              Ascii.eqb c "]" = false /\ Ascii.eqb c "}" = false.

(** The decoder reads an encoding of [v] back, with enough fuel, whatever
    follows it. *)
Definition reads_back (v : value) : Prop :=
  forall fuel rest,
    value_size v <= fuel -> ends_number rest ->
    PyLib.parse_value fuel (PyLib.dumps v +:+ rest) = Some (v, rest).

(** ** Readings used by the further properties *)

(** The loop of lines 46-48 of [Metadata._load]: the entries of the
    parsed record kept in [extra_data]. *)
Definition extra_items (items : dict) : dict :=
  fold_left
    (fun extra kv =>
       if existsb (String.eqb (fst kv)) Metadata.required_keys then extra
       else dict_set extra (fst kv) (snd kv))
    items [].

(** The entries a record holds under keys other than the five standard
    ones. *)
Definition optional_items (items : dict) : dict :=
  List.filter (fun kv => negb (existsb (String.eqb (fst kv)) Metadata.required_keys))
              items.

(** The keys [Metadata._load] subscripts, in the order of lines 40-44. *)
Definition read_order : list string :=
  ["date"; "opt"; "self_chat"; "speakers"; "version"].

(** The record [save_metadata] starts from, before the extra fields. *)
Definition standard_fields (now : string) (opt self_chat speakers : value) : dict :=
  [("date", VStr now); ("opt", opt); ("self_chat", self_chat);
   ("speakers", speakers); ("version", VStr Metadata.version)].

(** A display computation changes no file and keeps what was printed
    before it. *)
Definition only_prints {A : Type} (m : Display.D A) : Prop :=
  forall w, fs (snd (m w)) = fs w /\
            exists out, stdout (snd (m w)) = stdout w ++ out.

(** Every error a display computation can raise satisfies [P]. *)
Definition raises_only {A : Type} (P : Display.exn -> Prop) (m : Display.D A) : Prop :=
  forall w e, fst (m w) = inl e -> P e.

(** The errors of the loop over the turns of [read_conv_idx]. *)
Definition turn_error (e : Display.exn) : Prop :=
  e = Display.TypeError \/ e = Display.KeyError "id" \/ e = Display.KeyError "text".

(** * Properties *)

(** ** The library models on small inputs *)

Example split_commas_default :
  split_commas "text,labels,eval_labels" = ["text"; "labels"; "eval_labels"].
Proof. reflexivity. Qed.

Example split_commas_empty : split_commas "" = [""] /\ split_commas "a,,b" = ["a"; ""; "b"].
Proof. split; reflexivity. Qed.

Example splitlines_boundaries :
  splitlines ("ab" +:+ String "013" (String "010" ("cd" +:+ String "010" EmptyString)))
  = ["ab"; "cd"]
  /\ splitlines (String "010" "x") = [""; "x"]
  /\ splitlines "" = [].
Proof. repeat split; reflexivity. Qed.

Example py_index_from_the_end :
  py_index [VInt 1; VInt 2; VInt 3] (-1) = Some (VInt 3)
  /\ py_index [VInt 1; VInt 2; VInt 3] (-4) = None
  /\ py_index [VInt 1; VInt 2; VInt 3] 3 = None.
Proof. repeat split; reflexivity. Qed.

Example splitext_posix :
  PyLib.splitext "data/x.tar.gz" = ("data/x.tar", ".gz")
  /\ PyLib.splitext "data.d/.hidden" = ("data.d/.hidden", "")
  /\ PyLib.splitext "data.d/x" = ("data.d/x", "").
Proof. repeat split; reflexivity. Qed.

Example loads_nested :
  PyLib.loads "[1, [true, null], -20, {}]" =
  inr (VList [VInt 1; VList [VBool true; VNone]; VInt (-20); VDict []]).
Proof. vm_compute. reflexivity. Qed.

Example loads_malformed :
  PyLib.loads "oops" = inl "oops" /\ PyLib.loads "" = inl "" /\ PyLib.loads "[1] 2" = inl "[1] 2".
Proof. vm_compute. repeat split. Qed.

Example dumps_loads_escapes :
  PyLib.loads (PyLib.dumps (VDict [("k", VStr (String "034" (String "010" (String "233" "\/"))))]))
  = inr (VDict [("k", VStr (String "034" (String "010" (String "233" "\/"))))])
  /\ no_linebreak (PyLib.dumps (VStr (String "010" (String "013" (String "133" ""))))) = true.
Proof. vm_compute. split; reflexivity. Qed.

(** ** Values, dicts and strings *)

Lemma value_eqb_eq (a b : value) : value_eqb a b = true <-> a = b.
Proof.
  revert b. induction a as [ | x | x | x | l IH | d IH ] using value_nested_ind;
    intros [ | y | y | y | m | e ]; simpl; try (split; [discriminate | congruence]);
    try (split; reflexivity).
  - rewrite Bool.eqb_true_iff. split; congruence.
  - rewrite Z.eqb_eq. split; congruence.
  - rewrite String.eqb_eq. split; congruence.
  - revert m. induction IH as [ | x l Hx _ IHl ]; intros [ | y m ];
      try (split; [discriminate | congruence]); [split; reflexivity | ].
    rewrite andb_true_iff, Hx, IHl. split.
    + intros [-> H]. congruence.
    + intros H. injection H as -> ->. split; reflexivity.
  - revert e. induction IH as [ | [k x] d Hx _ IHd ]; intros [ | [k' y] e ];
      try (split; [discriminate | congruence]); [split; reflexivity | ].
    simpl in *. rewrite !andb_true_iff, String.eqb_eq, Hx, IHd. split.
    + intros [[-> ->] H]. congruence.
    + intros H. injection H as -> -> ->. repeat split; reflexivity.
Qed.

Lemma py_in_In (x : value) (l : list value) : py_in x l = true <-> In x l.
Proof.
  unfold py_in. rewrite existsb_exists. split.
  - intros (e & He & Heq). apply value_eqb_eq in Heq. now subst.
  - intros H. exists x. split; [exact H | now apply value_eqb_eq].
Qed.

Lemma py_in_false (x : value) (l : list value) : py_in x l = false <-> ~ In x l.
Proof.
  rewrite <- py_in_In. destruct (py_in x l); split; congruence.
Qed.

Lemma append_cons (x : ascii) (a b : string) :
  String x a +:+ b = String x (a +:+ b).
Proof. reflexivity. Qed.

Lemma append_nil_l (a : string) : EmptyString +:+ a = a.
Proof. reflexivity. Qed.

Lemma append_assoc (a b c : string) : (a +:+ b) +:+ c = a +:+ (b +:+ c).
Proof.
  induction a as [ | x a IH ]; [reflexivity | ].
  rewrite !append_cons. f_equal. exact IH.
Qed.

Lemma append_nil_r (a : string) : a +:+ EmptyString = a.
Proof.
  induction a as [ | x a IH ]; [reflexivity | ].
  rewrite append_cons. f_equal. exact IH.
Qed.

Lemma dict_get_set_eq (d : dict) (k : string) (v : value) :
  dict_get (dict_set d k v) k = Some v.
Proof.
  induction d as [ | [k' v'] d IH ]; simpl.
  - now rewrite String.eqb_refl.
  - destruct (String.eqb k' k) eqn:Hk; simpl; rewrite Hk; [reflexivity | exact IH].
Qed.

Lemma dict_get_set_ne (d : dict) (k k' : string) (v : value) :
  k <> k' -> dict_get (dict_set d k v) k' = dict_get d k'.
Proof.
  intros Hne. induction d as [ | [k0 v0] d IH ]; simpl.
  - apply String.eqb_neq in Hne. now rewrite Hne.
  - destruct (String.eqb k0 k) eqn:Hk; simpl.
    + apply String.eqb_eq in Hk. subst k0.
      apply String.eqb_neq in Hne. now rewrite Hne.
    + now rewrite IH.
Qed.

Lemma dict_keys_set (d : dict) (k : string) (v : value) :
  dict_keys (dict_set d k v) =
  if existsb (String.eqb k) (dict_keys d) then dict_keys d else dict_keys d ++ [k].
Proof.
  unfold dict_keys.
  induction d as [ | [k' v'] d IH ]; simpl; [reflexivity | ].
  rewrite (String.eqb_sym k k').
  destruct (String.eqb k' k) eqn:Hk; simpl; [reflexivity | ].
  rewrite IH.
  now destruct (existsb (String.eqb k) (map fst d)).
Qed.

Lemma existsb_eqb_In (k : string) (l : list string) :
  existsb (String.eqb k) l = true <-> In k l.
Proof.
  rewrite existsb_exists. split.
  - intros (x & Hx & Heq). apply String.eqb_eq in Heq. now subst.
  - intros H. exists k. split; [exact H | apply String.eqb_refl].
Qed.

Lemma dict_keys_set_In (d : dict) (k k' : string) (v : value) :
  In k' (dict_keys (dict_set d k v)) <-> In k' (dict_keys d) \/ k' = k.
Proof.
  rewrite dict_keys_set.
  destruct (existsb (String.eqb k) (dict_keys d)) eqn:Hex.
  - apply existsb_eqb_In in Hex. split; [tauto | ]. intros [H | ->]; assumption.
  - rewrite in_app_iff. simpl. intuition.
Qed.

Lemma dict_keys_set_NoDup (d : dict) (k : string) (v : value) :
  NoDup (dict_keys d) -> NoDup (dict_keys (dict_set d k v)).
Proof.
  intros Hnd. rewrite dict_keys_set.
  destruct (existsb (String.eqb k) (dict_keys d)) eqn:Hex; [exact Hnd | ].
  apply NoDup_app. split; [exact Hnd | ]. split.
  - intros x Hx Hk. apply list_elem_of_In in Hx, Hk. destruct Hk as [-> | []].
    apply existsb_eqb_In in Hx. congruence.
  - apply NoDup_singleton.
Qed.

(** ** The save loops, read functionally *)

Section save_loops.
Variable splitext : string -> string * string.
Variable dumps : value -> string.
Variable context_ids : list value.
Variables save_keys to_save : string.

Lemma save_ex_step (ex : dict) (speakers : list value)
    (new_pair context : list dict) :
  Conversations.save_ex context_ids save_keys (speakers, new_pair, context) ex =
  if is_context context_ids ex
  then (speakers, new_pair, context ++ [turn_record save_keys ex])
  else (see speakers (turn_id ex), new_pair ++ [turn_record save_keys ex], context).
Proof.
  unfold Conversations.save_ex, is_context, turn_record, see. fold (turn_id ex).
  destruct (py_in (turn_id ex) context_ids); cbn [negb]; [reflexivity | ].
  now destruct (py_in (turn_id ex) speakers).
Qed.

Lemma fold_save_ex (act_pair : list dict) (speakers : list value)
    (new_pair context : list dict) :
  fold_left (Conversations.save_ex context_ids save_keys) act_pair
            (speakers, new_pair, context) =
  (fold_left see (speaker_ids context_ids act_pair) speakers,
   new_pair ++ pair_dialog context_ids save_keys act_pair,
   context ++ map (turn_record save_keys) (List.filter (is_context context_ids) act_pair)).
Proof.
  revert speakers new_pair context.
  induction act_pair as [ | ex act_pair IH ]; intros speakers new_pair context.
  - simpl. now rewrite !app_nil_r.
  - cbn [fold_left]. rewrite save_ex_step.
    unfold pair_dialog, speaker_ids, is_dialog in *. cbn [List.filter].
    destruct (is_context context_ids ex); cbn [negb map fold_left];
      rewrite IH, <- app_assoc; reflexivity.
Qed.

Lemma save_pair_step (act_pair : list dict) (speakers : list value)
    (dialog : list (list dict)) (context : list dict) :
  Conversations.save_pair context_ids save_keys (speakers, dialog, context) act_pair =
  (fold_left see (speaker_ids context_ids act_pair) speakers,
   dialog ++ List.filter nonempty [pair_dialog context_ids save_keys act_pair],
   context ++ map (turn_record save_keys) (List.filter (is_context context_ids) act_pair)).
Proof.
  unfold Conversations.save_pair. rewrite fold_save_ex. cbn [app List.filter].
  destruct (pair_dialog context_ids save_keys act_pair); cbn [nonempty];
    [now rewrite app_nil_r | reflexivity].
Qed.

Lemma speaker_ids_app (l1 l2 : list dict) :
  speaker_ids context_ids (l1 ++ l2) =
  speaker_ids context_ids l1 ++ speaker_ids context_ids l2.
Proof. unfold speaker_ids. now rewrite List.filter_app, map_app. Qed.

Lemma fold_save_pair (ep : list (list dict)) (speakers : list value)
    (dialog : list (list dict)) (context : list dict) :
  fold_left (Conversations.save_pair context_ids save_keys) ep
            (speakers, dialog, context) =
  (fold_left see (speaker_ids context_ids (concat ep)) speakers,
   dialog ++ episode_dialog context_ids save_keys ep,
   context ++ episode_context context_ids save_keys ep).
Proof.
  revert speakers dialog context.
  induction ep as [ | act_pair ep IH ]; intros speakers dialog context.
  - simpl. unfold episode_dialog, episode_context. simpl. now rewrite !app_nil_r.
  - cbn [fold_left concat]. rewrite save_pair_step, IH.
    rewrite speaker_ids_app, fold_left_app.
    unfold episode_dialog, episode_context.
    cbn [map concat]. rewrite List.filter_app, map_app, <- !app_assoc.
    change (pair_dialog context_ids save_keys act_pair :: map (pair_dialog context_ids save_keys) ep)
      with ([pair_dialog context_ids save_keys act_pair] ++ map (pair_dialog context_ids save_keys) ep).
    now rewrite List.filter_app.
Qed.

Lemma save_episode_step (ep : list (list dict)) (speakers : list value)
    (written : string) :
  Conversations.save_episode splitext dumps context_ids save_keys to_save
    (speakers, written) ep =
  (fold_left see (speaker_ids context_ids (concat ep)) speakers,
   written +:+ file_of_lines
     (map (fun ep => dumps (episode_record splitext context_ids save_keys to_save ep))
          (List.filter nonempty [ep]))).
Proof.
  unfold Conversations.save_episode. destruct ep as [ | act_pair ep ].
  - simpl. now rewrite append_nil_r.
  - rewrite fold_save_pair. cbn [List.filter nonempty map file_of_lines fold_right app].
    now rewrite append_nil_r.
Qed.

Lemma file_of_lines_app (l1 l2 : list string) :
  file_of_lines (l1 ++ l2) = file_of_lines l1 +:+ file_of_lines l2.
Proof.
  induction l1 as [ | x l1 IH ]; [reflexivity | ].
  cbn [app file_of_lines fold_right]. fold (file_of_lines (l1 ++ l2)).
  fold (file_of_lines l1). now rewrite IH, !append_assoc.
Qed.

Lemma fold_save_episode (act_list : list (list (list dict)))
    (speakers : list value) (written : string) :
  fold_left (Conversations.save_episode splitext dumps context_ids save_keys to_save)
            act_list (speakers, written) =
  (fold_left see (speaker_ids context_ids (concat (concat act_list))) speakers,
   written +:+ file_of_lines
     (map dumps (records_written splitext context_ids save_keys to_save act_list))).
Proof.
  revert speakers written.
  induction act_list as [ | ep act_list IH ]; intros speakers written.
  - simpl. now rewrite append_nil_r.
  - cbn [fold_left concat]. rewrite save_episode_step, IH.
    rewrite concat_app, speaker_ids_app, fold_left_app.
    unfold records_written.
    change (ep :: act_list) with ([ep] ++ act_list).
    rewrite List.filter_app, !map_app, file_of_lines_app, append_assoc.
    now rewrite !map_map.
Qed.

Lemma speakers_passed_eq (act_list : list (list (list dict))) :
  speakers_passed splitext dumps context_ids save_keys to_save act_list =
  fold_left see (speaker_ids context_ids (concat (concat act_list))) [].
Proof. unfold speakers_passed. now rewrite fold_save_episode. Qed.

Lemma text_written_eq (act_list : list (list (list dict))) :
  text_written splitext dumps context_ids save_keys to_save act_list =
  file_of_lines (map dumps (records_written splitext context_ids save_keys to_save act_list)).
Proof. unfold text_written. now rewrite fold_save_episode. Qed.
End save_loops.

(** ** The running list of speakers *)

Lemma fold_see_snoc (ids : list value) (x : value) (speakers : list value) :
  fold_left see (ids ++ [x]) speakers = see (fold_left see ids speakers) x.
Proof. now rewrite fold_left_app. Qed.

Lemma In_see (speakers : list value) (x y : value) :
  In y (see speakers x) <-> In y speakers \/ y = x.
Proof.
  unfold see. destruct (py_in x speakers) eqn:Hin.
  - apply py_in_In in Hin. split; [tauto | ]. intros [H | ->]; assumption.
  - rewrite in_app_iff. simpl. intuition.
Qed.

Lemma In_fold_see (ids speakers : list value) (y : value) :
  In y (fold_left see ids speakers) <-> In y speakers \/ In y ids.
Proof.
  revert speakers. induction ids as [ | x ids IH ]; intros speakers; simpl.
  - tauto.
  - rewrite IH, In_see. intuition.
Qed.

Lemma NoDup_see (speakers : list value) (x : value) :
  NoDup speakers -> NoDup (see speakers x).
Proof.
  intros Hnd. unfold see. destruct (py_in x speakers) eqn:Hin; [exact Hnd | ].
  apply py_in_false in Hin. apply NoDup_app. split; [exact Hnd | ]. split.
  - intros y Hy Hx. apply list_elem_of_In in Hy, Hx.
    destruct Hx as [-> | []]. contradiction.
  - apply NoDup_singleton.
Qed.

Lemma NoDup_fold_see (ids speakers : list value) :
  NoDup speakers -> NoDup (fold_left see ids speakers).
Proof.
  revert speakers. induction ids as [ | x ids IH ]; intros speakers Hnd; simpl.
  - exact Hnd.
  - apply IH, NoDup_see, Hnd.
Qed.

(** Each listed speaker stands where its first occurrence puts it: what
    precedes it in the list is what was met before it. *)
Lemma fold_see_first_seen (ids l1 l2 : list value) (s : value) :
  fold_left see ids [] = l1 ++ s :: l2 ->
  exists i1 i2, ids = i1 ++ s :: i2 /\ ~ In s i1 /\ (forall x, In x l1 <-> In x i1).
Proof.
  revert l1 l2 s. induction ids as [ | x ids IH ] using rev_ind; intros l1 l2 s Heq.
  - simpl in Heq. destruct l1; discriminate.
  - rewrite fold_see_snoc in Heq.
    pose proof (In_fold_see ids []) as Hmem.
    set (sp := fold_left see ids []) in *. unfold see in Heq.
    destruct (py_in x sp) eqn:Hin.
    + destruct (IH _ _ _ Heq) as (i1 & i2 & -> & Hs & Hl1).
      exists i1, (i2 ++ [x]). rewrite <- app_assoc. auto.
    + apply py_in_false in Hin.
      destruct l2 as [ | y l2 _ ] using rev_ind.
      * apply app_inj_tail in Heq as [Hsp ->].
        exists ids, []. split; [reflexivity | ]. split.
        -- intros Hs. apply Hin, Hmem. now right.
        -- intros z. rewrite <- Hsp, Hmem. simpl. tauto.
      * change (l1 ++ s :: l2 ++ [y]) with (l1 ++ (s :: l2) ++ [y]) in Heq.
        rewrite app_assoc in Heq. apply app_inj_tail in Heq as [Hsp ->].
        destruct (IH _ _ _ Hsp) as (i1 & i2 & -> & Hs & Hl1).
        exists i1, (i2 ++ [y]). rewrite <- app_assoc. auto.
Qed.

Lemma In_speaker_ids (context_ids : list value) (turns : list dict) (x : value) :
  In x (speaker_ids context_ids turns) <->
  exists ex, In ex turns /\ is_context context_ids ex = false /\ turn_id ex = x.
Proof.
  unfold speaker_ids, is_dialog. rewrite in_map_iff. split.
  - intros (ex & <- & Hex). apply filter_In in Hex as [Hex Hd].
    exists ex. apply negb_true_iff in Hd. auto.
  - intros (ex & Hex & Hc & <-). exists ex. split; [reflexivity | ].
    apply filter_In. split; [exact Hex | ]. now rewrite Hc.
Qed.

Lemma In_concat_concat {A : Type} (x : A) (lll : list (list (list A))) :
  In x (concat (concat lll)) <->
  exists ll l, In ll lll /\ In l ll /\ In x l.
Proof.
  rewrite in_concat. split.
  - intros (l & Hl & Hx). apply in_concat in Hl as (ll & Hll & Hl).
    exists ll, l. auto.
  - intros (ll & l & Hll & Hl & Hx). exists l. split; [ | exact Hx ].
    apply in_concat. exists ll. auto.
Qed.

(** ** Running [save_conversations] *)

Section save_run.
Context {E : Type}.
Variable splitext : string -> string * string.
Variable dumps : value -> string.

(** The computation [save_conversations] amounts to: one write of the
    text the loop produced, the notice, then the call of
    [Metadata.save_metadata] with the accumulated speakers. *)
Lemma save_conversations_calls (now : string)
    (act_list : list (list (list dict))) (datapath : string) (opt : value)
    (save_keys context_ids : string) (self_chat : value) (kwargs : dict) :
  let to_save := Conversations._get_path splitext datapath in
  let ctx := map VStr (split_commas context_ids) in
  Conversations.save_conversations (E := E) splitext dumps now act_list datapath
    opt save_keys context_ids self_chat kwargs =
  (write_file to_save (text_written splitext dumps ctx save_keys to_save act_list) ;;;
   print (" [ Conversations saved to file: " +:+ to_save +:+ " ]") ;;;
   if existsb (String.eqb "speakers") (dict_keys kwargs) then raise TypeError
   else Metadata.save_metadata splitext dumps now to_save opt self_chat
          (VList (speakers_passed splitext dumps ctx save_keys to_save act_list))
          kwargs).
Proof.
  intros to_save ctx. unfold Conversations.save_conversations, text_written, speakers_passed.
  fold to_save. fold ctx.
  now destruct (fold_left _ act_list _) as [speakers written].
Qed.
End save_run.

(** ** Paths *)

Lemma list_ascii_of_string_app (a b : string) :
  list_ascii_of_string (a +:+ b) = list_ascii_of_string a ++ list_ascii_of_string b.
Proof.
  induction a as [ | x a IH ]; [reflexivity | ].
  rewrite append_cons. simpl. now rewrite IH.
Qed.

(** A conversation file and a metadata file never share a path. *)
Lemma jsonl_ne_metadata (a b : string) : a +:+ ".jsonl" <> b +:+ ".metadata".
Proof.
  intros Heq.
  apply (f_equal (fun s => last (list_ascii_of_string s))) in Heq.
  rewrite !list_ascii_of_string_app in Heq.
  change (list_ascii_of_string ".jsonl")
    with (list_ascii_of_string ".json" ++ ["l"%char]) in Heq.
  change (list_ascii_of_string ".metadata")
    with (list_ascii_of_string ".metadat" ++ ["a"%char]) in Heq.
  rewrite !app_assoc, !last_snoc in Heq. discriminate.
Qed.

Section save_world.
Context {E : Type}.
Variable splitext : string -> string * string.
Variable dumps : value -> string.
Variables (now : string) (act_list : list (list (list dict))) (datapath : string).
Variables (opt : value) (save_keys context_ids : string) (self_chat : value).
Variable kwargs : dict.

Let to_save := Conversations._get_path splitext datapath.
Let ctx := map VStr (split_commas context_ids).
Let text := text_written splitext dumps ctx save_keys to_save act_list.
Let saved_notice := " [ Conversations saved to file: " +:+ to_save +:+ " ]".

(** The world once the conversation file is closed and announced. *)
Lemma save_conversations_clash (w : world) :
  existsb (String.eqb "speakers") (dict_keys kwargs) = true ->
  Conversations.save_conversations (E := E) splitext dumps now act_list datapath
    opt save_keys context_ids self_chat kwargs w =
  (inl TypeError, World (<[to_save := text]> (fs w)) (stdout w ++ [saved_notice])).
Proof.
  intros Hclash. rewrite save_conversations_calls. fold to_save ctx text saved_notice.
  cbv [bind write_file print raise fs stdout]. now rewrite Hclash.
Qed.

Lemma save_conversations_run (w : world) :
  existsb (String.eqb "speakers") (dict_keys kwargs) = false ->
  Conversations.save_conversations (E := E) splitext dumps now act_list datapath
    opt save_keys context_ids self_chat kwargs w =
  (inr tt,
   World (<[Metadata._get_path splitext to_save :=
             dumps (VDict (Metadata.metadata_record now opt self_chat
                             (VList (speakers_passed splitext dumps ctx save_keys
                                                     to_save act_list))
                             kwargs))]>
            (<[to_save := text]> (fs w)))
         ((stdout w ++ [saved_notice]) ++
          ["[ Writing metadata to file " +:+ Metadata._get_path splitext to_save +:+ " ]"])).
Proof.
  intros Hclash. rewrite save_conversations_calls. fold to_save ctx text saved_notice.
  cbv [bind write_file print raise Metadata.save_metadata fs stdout].
  now rewrite Hclash.
Qed.

(** Whether or not the metadata call goes through, the conversation file
    holds the text the loop wrote. *)
Lemma save_conversations_file (w : world) :
  fs (snd (Conversations.save_conversations (E := E) splitext dumps now act_list
             datapath opt save_keys context_ids self_chat kwargs w)) !! to_save =
  Some text.
Proof.
  destruct (existsb (String.eqb "speakers") (dict_keys kwargs)) eqn:Hclash.
  - rewrite save_conversations_clash by exact Hclash. cbn. apply lookup_insert_eq.
  - rewrite save_conversations_run by exact Hclash. cbn.
    rewrite lookup_insert_ne; [apply lookup_insert_eq | ].
    unfold Metadata._get_path, to_save, Conversations._get_path.
    intros Heq. symmetry in Heq. revert Heq. apply jsonl_ne_metadata.
Qed.
End save_world.

(** ** Claims about the speakers list *)

(** C3: the list of speakers that [save_conversations] hands to
    [Metadata.save_metadata] holds the id of every turn met during the
    call that is not a context turn, holds nothing else, has no
    duplicates, and lists the ids in the order they were first seen. *)
Theorem save_speakers_distinct_first_seen {E : Type}
    (splitext : string -> string * string) (dumps : value -> string)
    (now : string) (act_list : list (list (list dict))) (datapath : string)
    (opt : value) (save_keys context_ids : string) (self_chat : value)
    (kwargs : dict) :
  let to_save := Conversations._get_path splitext datapath in
  let ctx := map VStr (split_commas context_ids) in
  let speakers := speakers_passed splitext dumps ctx save_keys to_save act_list in
  let ids := speaker_ids ctx (concat (concat act_list)) in
  Conversations.save_conversations (E := E) splitext dumps now act_list datapath
    opt save_keys context_ids self_chat kwargs =
  (write_file to_save (text_written splitext dumps ctx save_keys to_save act_list) ;;;
   print (" [ Conversations saved to file: " +:+ to_save +:+ " ]") ;;;
   if existsb (String.eqb "speakers") (dict_keys kwargs) then raise TypeError
   else Metadata.save_metadata splitext dumps now to_save opt self_chat
          (VList speakers) kwargs)
  /\ (forall ep act_pair ex,
        In ep act_list -> In act_pair ep -> In ex act_pair ->
        is_context ctx ex = false -> In (turn_id ex) speakers)
  /\ (forall s, In s speakers ->
        exists ep act_pair ex,
          In ep act_list /\ In act_pair ep /\ In ex act_pair /\
          is_context ctx ex = false /\ turn_id ex = s)
  /\ NoDup speakers
  /\ (forall l1 s l2, speakers = l1 ++ s :: l2 ->
        exists i1 i2, ids = i1 ++ s :: i2 /\ ~ In s i1 /\
                      (forall x, In x l1 <-> In x i1)).
Proof.
  intros to_save ctx speakers ids.
  assert (Hsp : speakers = fold_left see ids []) by apply speakers_passed_eq.
  split; [apply save_conversations_calls | ].
  split; [ | split; [ | split ] ].
  - intros ep act_pair ex Hep Hpair Hex Hctx.
    rewrite Hsp. apply In_fold_see. right. apply In_speaker_ids.
    exists ex. split; [ | now split ].
    apply In_concat_concat. eauto.
  - intros s Hs. rewrite Hsp in Hs. apply In_fold_see in Hs as [[] | Hs].
    apply In_speaker_ids in Hs as (ex & Hex & Hctx & Hid).
    apply In_concat_concat in Hex as (ep & act_pair & Hep & Hpair & Hex).
    exists ep, act_pair, ex. auto.
  - rewrite Hsp. apply NoDup_fold_see, NoDup_nil_2.
  - intros l1 s l2 Heq. rewrite Hsp in Heq. now apply fold_see_first_seen in Heq.
Qed.

(** C2: saving the single episode
    [[{id: context, text: room A}], [{id: context, text: room A},
    {id: speaker_1, text: hi}, {id: speaker_2, text: hello}]] with
    [context_ids = "context"] and the default [save_keys] writes one
    conversation record whose [context] holds two entries with text
    "room A" and whose [dialog] holds one pair of two turns, speaker_1
    with "hi" then speaker_2 with "hello"; the speakers handed to the
    metadata save are [speaker_1; speaker_2]. *)
Theorem save_example_episode {E : Type}
    (splitext : string -> string * string) (dumps : value -> string)
    (now datapath : string) (opt self_chat : value) (w : world) :
  let to_save := Conversations._get_path splitext datapath in
  let metadata_path := Metadata._get_path splitext to_save in
  let record :=
    VDict [("dialog", VList [VList [default_turn "hi" "speaker_1";
                                    default_turn "hello" "speaker_2"]]);
           ("context", VList [default_turn "room A" "context";
                              default_turn "room A" "context"]);
           ("metadata_path", VStr metadata_path)] in
  let speakers := [VStr "speaker_1"; VStr "speaker_2"] in
  records_written splitext [VStr "context"] Conversations.default_save_keys to_save
                  [example_episode] = [record]
  /\ speakers_passed splitext dumps [VStr "context"] Conversations.default_save_keys
                     to_save [example_episode] = speakers
  /\ Conversations.save_conversations (E := E) splitext dumps now [example_episode]
       datapath opt Conversations.default_save_keys "context" self_chat [] w =
     (inr tt,
      World (<[metadata_path :=
                dumps (VDict (Metadata.metadata_record now opt self_chat
                                (VList speakers) []))]>
               (<[to_save := dumps record +:+ String "010" EmptyString]> (fs w)))
            ((stdout w ++ [" [ Conversations saved to file: " +:+ to_save +:+ " ]"]) ++
             ["[ Writing metadata to file " +:+ metadata_path +:+ " ]"])).
Proof.
  intros to_save metadata_path record speakers.
  assert (Hrec : records_written splitext [VStr "context"] Conversations.default_save_keys
                   to_save [example_episode] = [record]) by reflexivity.
  assert (Hsp : speakers_passed splitext dumps [VStr "context"]
                  Conversations.default_save_keys to_save [example_episode] = speakers)
    by reflexivity.
  split; [exact Hrec | ]. split; [exact Hsp | ].
  rewrite save_conversations_run by reflexivity.
  change (map VStr (split_commas "context")) with [VStr "context"].
  fold to_save. fold metadata_path.
  rewrite Hsp, text_written_eq, Hrec. cbn [map file_of_lines fold_right].
  now rewrite append_nil_r.
Qed.

(** ** Lines of a written file *)

Lemma splitlines_aux_line (l cur rest : string) :
  no_linebreak l = true ->
  splitlines_aux cur (l +:+ String "010" rest) =
  (cur +:+ l) :: splitlines_aux EmptyString rest.
Proof.
  revert cur. induction l as [ | a l IH ]; intros cur Hl.
  - rewrite append_nil_l, append_nil_r. cbn [splitlines_aux].
    change (is_linebreak "010") with true. cbn iota.
    destruct rest as [ | b rest ]; reflexivity.
  - unfold no_linebreak in Hl. cbn [list_ascii_of_string forallb] in Hl.
    apply andb_true_iff in Hl as [Ha Hl]. apply negb_true_iff in Ha.
    rewrite append_cons. cbn [splitlines_aux]. rewrite Ha.
    rewrite IH by exact Hl. now rewrite append_assoc.
Qed.

Lemma splitlines_file_of_lines (lines : list string) :
  Forall (fun l => no_linebreak l = true) lines ->
  splitlines (file_of_lines lines) = lines.
Proof.
  unfold splitlines. induction 1 as [ | l lines Hl _ IH ]; [reflexivity | ].
  cbn [file_of_lines fold_right]. fold (file_of_lines lines).
  rewrite append_assoc, append_cons, append_nil_l, splitlines_aux_line by exact Hl.
  now rewrite IH.
Qed.

(** ** Claims about what an episode contributes *)

Section episodes.
Variable context_ids : list value.
Variable save_keys : string.

Lemma all_context_filter (turns : list dict) :
  (forall ex, In ex turns -> is_context context_ids ex = true) ->
  List.filter (is_dialog context_ids) turns = [] /\
  List.filter (is_context context_ids) turns = turns.
Proof.
  induction turns as [ | ex turns IH ]; intros Hall; [split; reflexivity | ].
  destruct IH as [IH1 IH2]; [intros; apply Hall; now right | ].
  unfold is_dialog in *. cbn [List.filter]. rewrite (Hall ex) by now left.
  cbn [negb]. rewrite IH1, IH2. split; reflexivity.
Qed.

Lemma all_context_dialog (ep : list (list dict)) :
  (forall act_pair ex, In act_pair ep -> In ex act_pair ->
                       is_context context_ids ex = true) ->
  episode_dialog context_ids save_keys ep = [].
Proof.
  unfold episode_dialog. induction ep as [ | act_pair ep IH ]; intros Hall;
    [reflexivity | ].
  cbn [map List.filter]. unfold pair_dialog at 1.
  destruct (all_context_filter act_pair) as [-> _];
    [intros ex Hex; apply (Hall act_pair); [now left | exact Hex] | ].
  cbn [map nonempty]. apply IH. intros p ex Hp Hex. apply (Hall p); [now right | exact Hex].
Qed.

Lemma all_context_context (ep : list (list dict)) :
  (forall act_pair ex, In act_pair ep -> In ex act_pair ->
                       is_context context_ids ex = true) ->
  episode_context context_ids save_keys ep = map (turn_record save_keys) (concat ep).
Proof.
  intros Hall. unfold episode_context.
  destruct (all_context_filter (concat ep)) as [_ ->]; [ | reflexivity ].
  intros ex Hex. apply in_concat in Hex as (p & Hp & Hex). now apply (Hall p).
Qed.
End episodes.

Lemma records_written_app (splitext : string -> string * string)
    (context_ids : list value) (save_keys to_save : string)
    (l1 l2 : list (list (list dict))) :
  records_written splitext context_ids save_keys to_save (l1 ++ l2) =
  records_written splitext context_ids save_keys to_save l1 ++
  records_written splitext context_ids save_keys to_save l2.
Proof. unfold records_written. now rewrite List.filter_app, map_app. Qed.

(** C1, as the code has it: the conversation file holds one
    newline-terminated record per episode that is not the empty sequence,
    in episode order; an empty episode contributes no line and every other
    episode exactly one, whatever it produces; an episode whose every turn
    is a context turn has an empty dialog and one context entry per
    turn. *)
Theorem save_writes_one_line_per_nonempty_episode {E : Type}
    (splitext : string -> string * string) (dumps : value -> string)
    (now : string) (act_list : list (list (list dict))) (datapath : string)
    (opt : value) (save_keys context_ids : string) (self_chat : value)
    (kwargs : dict) (w : world) :
  let to_save := Conversations._get_path splitext datapath in
  let ctx := map VStr (split_commas context_ids) in
  let records := records_written splitext ctx save_keys to_save in
  let w' := snd (Conversations.save_conversations (E := E) splitext dumps now
                   act_list datapath opt save_keys context_ids self_chat kwargs w) in
  Forall (fun r => no_linebreak (dumps r) = true) (records act_list) ->
  (exists text,
      fs w' !! to_save = Some text /\
      splitlines text = map dumps (records act_list) /\
      length (splitlines text) = length (List.filter nonempty act_list))
  /\ (forall before ep after,
        act_list = before ++ ep :: after ->
        records act_list =
        records before ++
        match ep with
        | [] => []
        | _ => [episode_record splitext ctx save_keys to_save ep]
        end ++ records after)
  /\ (forall ep,
        (forall act_pair ex, In act_pair ep -> In ex act_pair ->
                             is_context ctx ex = true) ->
        episode_dialog ctx save_keys ep = [] /\
        episode_context ctx save_keys ep = map (turn_record save_keys) (concat ep) /\
        length (episode_context ctx save_keys ep) = length (concat ep)).
Proof.
  intros to_save ctx records w' Hlines. split; [ | split ].
  - exists (file_of_lines (map dumps (records act_list))).
    assert (Hsplit : splitlines (file_of_lines (map dumps (records act_list))) =
                     map dumps (records act_list)).
    { apply splitlines_file_of_lines. now apply Forall_map. }
    split; [ | split; [exact Hsplit | ] ].
    + unfold w', to_save. rewrite save_conversations_file. now rewrite text_written_eq.
    + rewrite Hsplit. unfold records, records_written. now rewrite !length_map.
  - intros before ep after ->. unfold records.
    rewrite records_written_app.
    change (ep :: after) with ([ep] ++ after). rewrite records_written_app.
    now destruct ep.
  - intros ep Hall. rewrite all_context_dialog, all_context_context by exact Hall.
    now rewrite length_map.
Qed.

Lemma save_writes_one_line_per_nonempty_episode_witness :
  exists text,
    fs (snd (Conversations.save_conversations (E := string) PyLib.splitext PyLib.dumps
               "2020-01-01 00:00:00" [example_episode; []; [[]]] "data/x.txt"
               (VDict []) Conversations.default_save_keys
               Conversations.default_context_ids (VBool false) [] (World ∅ [])))
      !! "data/x.jsonl" = Some text
    /\ length (splitlines text) = 2.
Proof.
  destruct (save_writes_one_line_per_nonempty_episode (E := string)
              PyLib.splitext PyLib.dumps "2020-01-01 00:00:00"
              [example_episode; []; [[]]] "data/x.txt" (VDict [])
              Conversations.default_save_keys Conversations.default_context_ids
              (VBool false) [] (World ∅ []))
    as [(text & Hfs & _ & Hlen) _].
  - check_each.
  - exists text. split; [exact Hfs | exact Hlen].
Defined.

(** C1 as stated fails: the episode [[[]]], a single pair without turns,
    yields no filtered pair and no context entry, yet it is written as a
    line of its own. *)
Lemma episode_without_turns_is_written :
  episode_dialog [VStr "context"] Conversations.default_save_keys [ [] ] = []
  /\ episode_context [VStr "context"] Conversations.default_save_keys [ [] ] = []
  /\ fs (snd (Conversations.save_conversations (E := string) PyLib.splitext
               PyLib.dumps "2020-01-01 00:00:00" [ [ [] ] ] "data.jsonl"
               (VDict []) Conversations.default_save_keys
               Conversations.default_context_ids (VBool false) [] (World ∅ [])))
       !! "data.jsonl" =
     Some (PyLib.dumps (VDict [("dialog", VList []); ("context", VList []);
                               ("metadata_path", VStr "data.metadata")])
           +:+ String "010" EmptyString)
  /\ length (splitlines
               (PyLib.dumps (VDict [("dialog", VList []); ("context", VList []);
                                    ("metadata_path", VStr "data.metadata")])
                +:+ String "010" EmptyString)) = 1.
Proof. vm_compute. repeat split. Qed.

(** ** Claims about the fields of a written turn *)

Section turn_fields.
Variable ex : dict.

Let project (turn : dict) (key : string) : dict :=
  dict_set turn key (py_get ex key (VStr "")).

Lemma project_keys (keys : list string) (turn : dict) (k : string) :
  In k (dict_keys (fold_left project keys turn)) <->
  In k (dict_keys turn) \/ In k keys.
Proof.
  revert turn. induction keys as [ | key keys IH ]; intros turn; simpl.
  - tauto.
  - rewrite IH. unfold project. rewrite dict_keys_set_In. intuition.
Qed.

Lemma project_NoDup (keys : list string) (turn : dict) :
  NoDup (dict_keys turn) -> NoDup (dict_keys (fold_left project keys turn)).
Proof.
  revert turn. induction keys as [ | key keys IH ]; intros turn Hnd; simpl.
  - exact Hnd.
  - apply IH. unfold project. now apply dict_keys_set_NoDup.
Qed.

Lemma project_get (keys : list string) (turn : dict) (k : string) :
  dict_get (fold_left project keys turn) k =
  if existsb (String.eqb k) keys then Some (py_get ex k (VStr ""))
  else dict_get turn k.
Proof.
  revert turn. induction keys as [ | key keys IH ]; intros turn; simpl.
  - reflexivity.
  - rewrite IH. destruct (existsb (String.eqb k) keys).
    + now rewrite orb_true_r.
    + rewrite orb_false_r. unfold project.
      destruct (String.eqb k key) eqn:Hk.
      * apply String.eqb_eq in Hk. subst key. apply dict_get_set_eq.
      * apply String.eqb_neq in Hk. apply dict_get_set_ne. congruence.
Qed.

Lemma make_turn_keys (save_keys : string) (ex_id : value) (k : string) :
  In k (dict_keys (Conversations.make_turn save_keys ex ex_id)) <->
  In k (split_commas save_keys) \/ k = "id".
Proof.
  unfold Conversations.make_turn. rewrite dict_keys_set_In.
  fold project. rewrite project_keys. simpl. tauto.
Qed.

Lemma make_turn_NoDup (save_keys : string) (ex_id : value) :
  NoDup (dict_keys (Conversations.make_turn save_keys ex ex_id)).
Proof.
  unfold Conversations.make_turn. apply dict_keys_set_NoDup.
  fold project. apply project_NoDup, NoDup_nil_2.
Qed.

Lemma make_turn_id (save_keys : string) (ex_id : value) :
  dict_get (Conversations.make_turn save_keys ex ex_id) "id" = Some ex_id.
Proof. apply dict_get_set_eq. Qed.

Lemma make_turn_key (save_keys : string) (ex_id : value) (k : string) :
  In k (split_commas save_keys) -> k <> "id" ->
  dict_get (Conversations.make_turn save_keys ex ex_id) k =
  Some (py_get ex k (VStr "")).
Proof.
  intros Hk Hne. unfold Conversations.make_turn.
  rewrite dict_get_set_ne by congruence. fold project. rewrite project_get.
  apply existsb_eqb_In in Hk. now rewrite Hk.
Qed.
End turn_fields.

(** The turn records of an episode's output come from its turns. *)
Lemma written_turn_source (context_ids : list value) (save_keys : string)
    (ep : list (list dict)) (t : dict) :
  In t (episode_context context_ids save_keys ep) \/
  (exists new_pair, In new_pair (episode_dialog context_ids save_keys ep) /\ In t new_pair) ->
  exists ex, In ex (concat ep) /\ t = turn_record save_keys ex.
Proof.
  intros [Ht | (new_pair & Hp & Ht)].
  - unfold episode_context in Ht. apply in_map_iff in Ht as (ex & <- & Hex).
    apply filter_In in Hex as [Hex _]. eauto.
  - unfold episode_dialog in Hp. apply filter_In in Hp as [Hp _].
    apply in_map_iff in Hp as (act_pair & <- & Hpair).
    unfold pair_dialog in Ht. apply in_map_iff in Ht as (ex & <- & Hex).
    apply filter_In in Hex as [Hex _]. exists ex. split; [ | reflexivity ].
    apply in_concat. eauto.
Qed.

(** C6, as the code has it: every turn record written for an episode,
    in its dialog or in its context, has exactly the keys named in
    [save_keys] plus [id], each once; a named key other than [id] holds
    the source turn's value, or the empty string when the source turn
    lacks it; [id] holds the source turn's id, [None] when it has none. *)
Theorem written_turn_has_uniform_fields (context_ids : list value)
    (save_keys : string) (ep : list (list dict)) (t : dict) :
  In t (episode_context context_ids save_keys ep) \/
  (exists new_pair, In new_pair (episode_dialog context_ids save_keys ep) /\ In t new_pair) ->
  exists ex,
    In ex (concat ep)
    /\ (forall k, In k (dict_keys t) <-> In k (split_commas save_keys) \/ k = "id")
    /\ NoDup (dict_keys t)
    /\ (forall k, In k (split_commas save_keys) -> k <> "id" ->
          dict_get t k = Some (match dict_get ex k with
                               | Some v => v
                               | None => VStr ""
                               end))
    /\ dict_get t "id" = Some (match dict_get ex "id" with
                               | Some v => v
                               | None => VNone
                               end).
Proof.
  intros Ht. apply written_turn_source in Ht as (ex & Hex & ->).
  exists ex. split; [exact Hex | ]. unfold turn_record.
  split; [intros k; apply make_turn_keys | ].
  split; [apply make_turn_NoDup | ].
  split; [intros k Hk Hne; now apply make_turn_key | apply make_turn_id].
Qed.

Lemma written_turn_has_uniform_fields_witness :
  exists ex,
    In ex (concat example_episode)
    /\ (forall k, In k ["text"; "labels"; "eval_labels"; "id"] <->
                  In k (split_commas Conversations.default_save_keys) \/ k = "id").
Proof.
  destruct (written_turn_has_uniform_fields [VStr "context"]
              Conversations.default_save_keys example_episode
              [("text", VStr "hi"); ("labels", VStr ""); ("eval_labels", VStr "");
               ("id", VStr "speaker_1")])
    as (ex & Hex & Hkeys & _).
  - right. vm_compute. eexists. split; [left; reflexivity | left; reflexivity].
  - exists ex. split; [exact Hex | exact Hkeys].
Defined.

(** C6 as stated fails when [save_keys] names [id] and the source turn has
    none: the named key is written with [None], not the empty string. *)
Lemma named_id_defaults_to_none :
  In "id" (split_commas "id,text")
  /\ dict_get [("text", VStr "hi")] "id" = None
  /\ turn_record "id,text" [("text", VStr "hi")] = [("id", VNone); ("text", VStr "hi")]
  /\ dict_get (turn_record "id,text" [("text", VStr "hi")]) "id" <> Some (VStr "")
  /\ fs (snd (Conversations.save_conversations (E := string) PyLib.splitext
               PyLib.dumps "2020-01-01 00:00:00" [ [ [ [("text", VStr "hi")] ] ] ]
               "data.jsonl" (VDict []) "id,text" Conversations.default_context_ids
               (VBool false) [] (World ∅ [])))
       !! "data.jsonl" =
     Some (PyLib.dumps
             (VDict [("dialog", VList [VList [VDict [("id", VNone); ("text", VStr "hi")]]]);
                     ("context", VList []);
                     ("metadata_path", VStr "data.metadata")])
           +:+ String "010" EmptyString).
Proof. vm_compute. repeat split; [now left | discriminate]. Qed.

(** ** Claims about indexed and sequential access *)

Section cursor.
Context {E : Type}.
Variable convs : list value.
Variable md : option Metadata.t.

Let n : Z := Z.of_nat (length convs).

Lemma py_index_nonneg (i : Z) :
  (0 <= i)%Z -> py_index convs i = nth_error convs (Z.to_nat i).
Proof. intros Hi. unfold py_index. now rewrite (proj2 (Z.leb_le 0 i) Hi). Qed.

Lemma py_index_negative (i : Z) :
  (- n <= i < 0)%Z -> py_index convs i = nth_error convs (Z.to_nat (n + i)).
Proof.
  intros [Hlo Hhi]. unfold py_index.
  rewrite (proj2 (Z.leb_gt 0 i) Hhi). fold n.
  now rewrite (proj2 (Z.leb_le (- n) i) Hlo).
Qed.

Lemma py_index_out (i : Z) :
  (i < - n \/ n <= i)%Z -> py_index convs i = None.
Proof.
  intros Hout. unfold py_index. fold n.
  destruct (Z.leb_spec 0 i) as [Hi | Hi].
  - apply nth_error_None. unfold n in Hout. lia.
  - destruct (Z.leb_spec (- n) i) as [Hlo | Hlo]; [lia | reflexivity].
Qed.

Lemma nth_error_in_range (i : nat) :
  (i < length convs)%nat -> exists c, nth_error convs i = Some c.
Proof.
  intros Hi. destruct (nth_error convs i) as [c | ] eqn:Hc; [eauto | ].
  apply nth_error_None in Hc. lia.
Qed.

Lemma next_in_range (i : Z) (c : value) (w : world) :
  (0 <= i < n)%Z -> nth_error convs (Z.to_nat i) = Some c ->
  Conversations.__next__ (E := E) (Conversations.Build convs md i) w =
  (inr (c, Conversations.Build convs md (i + 1)), w).
Proof.
  intros [Hlo Hhi] Hc.
  unfold Conversations.__next__, Conversations.num_conversations,
    Conversations.__getitem__.
  cbn [Conversations.conversations Conversations.iterator_idx Conversations.metadata].
  fold n. rewrite (proj2 (Z.leb_gt n i) Hhi).
  rewrite py_index_nonneg by exact Hlo. rewrite Hc. reflexivity.
Qed.

Lemma next_at_end (i : Z) (w : world) :
  (n <= i)%Z ->
  Conversations.__next__ (E := E) (Conversations.Build convs md i) w =
  (inr (VNone, Conversations.Build convs md 0),
   World (fs w) (stdout w ++ [end_notice])).
Proof.
  intros Hi.
  unfold Conversations.__next__, Conversations.num_conversations.
  cbn [Conversations.conversations Conversations.iterator_idx]. fold n.
  rewrite (proj2 (Z.leb_le n i) Hi). reflexivity.
Qed.

Lemma skipn_nth_error (i : nat) (c : value) :
  nth_error convs i = Some c -> skipn i convs = c :: skipn (S i) convs.
Proof.
  clear n. revert i. induction convs as [ | x l IH ]; intros [ | i ] Hc;
    try discriminate.
  - simpl in Hc. injection Hc as ->. reflexivity.
  - simpl in Hc. rewrite skipn_cons. rewrite (IH i Hc). reflexivity.
Qed.

(** [k] calls from cursor [i] stay silent and return the next [k]
    conversations when that many are left. *)
Lemma next_n_in_range (k i : nat) (w : world) :
  (i + k <= length convs)%nat ->
  next_n (E := E) k (Conversations.Build convs md (Z.of_nat i)) w =
  (inr (firstn k (skipn i convs), Conversations.Build convs md (Z.of_nat (i + k))), w).
Proof.
  revert i. induction k as [ | k IH ]; intros i Hk.
  - cbn. now rewrite Nat.add_0_r.
  - destruct (nth_error_in_range i) as [c Hc]; [lia | ].
    cbn [next_n]. unfold bind at 1.
    rewrite (next_in_range (Z.of_nat i) c); [ | unfold n; lia | now rewrite Nat2Z.id ].
    cbn [fst snd]. unfold bind at 1.
    replace (Z.of_nat i + 1)%Z with (Z.of_nat (S i)) by lia.
    rewrite IH by lia. cbn [fst snd ret].
    rewrite (skipn_nth_error i c Hc). cbn [firstn].
    now replace (S i + k)%nat with (i + S k)%nat by lia.
Qed.

Lemma run_ops_cursor (ops : list cursor_op) (i : Z) (w : world) :
  (0 <= i <= n)%Z ->
  exists (j : Z) (w' : world),
    run_ops (E := E) ops (Conversations.Build convs md i) w =
    (inr (Conversations.Build convs md j), w') /\ (0 <= j <= n)%Z.
Proof.
  revert i w. induction ops as [ | op ops IH ]; intros i w Hi.
  - exists i, w. split; [reflexivity | exact Hi].
  - destruct op; cbn [run_ops].
    + destruct (Z.lt_ge_cases i n) as [Hlt | Hge].
      * destruct (nth_error_in_range (Z.to_nat i)) as [c Hc]; [unfold n in Hlt; lia | ].
        unfold bind. rewrite (next_in_range i c) by (try exact Hc; lia).
        cbn [snd]. apply IH. lia.
      * unfold bind. rewrite next_at_end by exact Hge.
        cbn [snd]. apply IH. unfold n. lia.
    + unfold Conversations.reset.
      cbn [Conversations.conversations Conversations.metadata].
      apply IH. unfold n. lia.
Qed.
End cursor.

(** C10: on an archive of [n > 0] conversations, indexed access succeeds
    exactly for the indices in [[-n, n-1]]: index [i >= 0] returns the
    [i]-th conversation, index [-k] with [1 <= k <= n] returns the
    [(n-k)]-th, and any other index raises the bounds error. *)
Theorem getitem_accepts_negative_index {E : Type} (self : Conversations.t)
    (w : world) :
  let n := Conversations.num_conversations self in
  (0 < n)%Z ->
  (forall i, (0 <= i < n)%Z ->
     exists c, Conversations.__getitem__ (E := E) self i w = (inr c, w) /\
               nth_error (Conversations.conversations self) (Z.to_nat i) = Some c)
  /\ (forall k, (1 <= k <= n)%Z ->
     exists c, Conversations.__getitem__ (E := E) self (- k) w = (inr c, w) /\
               nth_error (Conversations.conversations self) (Z.to_nat (n - k)) = Some c)
  /\ (forall i, (i < - n \/ n <= i)%Z ->
     Conversations.__getitem__ (E := E) self i w = (inl IndexError, w)).
Proof.
  intros n Hn. unfold Conversations.__getitem__.
  unfold n, Conversations.num_conversations in *. split; [ | split ].
  - intros i Hi. rewrite py_index_nonneg by lia.
    destruct (nth_error_in_range (Conversations.conversations self) (Z.to_nat i))
      as [c Hc]; [lia | ].
    exists c. now rewrite Hc.
  - intros k Hk. rewrite py_index_negative by lia.
    replace (Z.of_nat (length (Conversations.conversations self)) + - k)%Z
      with (Z.of_nat (length (Conversations.conversations self)) - k)%Z by lia.
    destruct (nth_error_in_range (Conversations.conversations self)
                (Z.to_nat (Z.of_nat (length (Conversations.conversations self)) - k)))
      as [c Hc]; [lia | ].
    exists c. now rewrite Hc.
  - intros i Hi. now rewrite py_index_out by exact Hi.
Qed.

Lemma getitem_accepts_negative_index_witness :
  Conversations.__getitem__ (E := string)
    (Conversations.Build [VInt 10; VInt 20; VInt 30] None 0) (-1) (World ∅ []) =
  (inr (VInt 30), World ∅ [])
  /\ Conversations.__getitem__ (E := string)
       (Conversations.Build [VInt 10; VInt 20; VInt 30] None 0) (-4) (World ∅ []) =
     (inl IndexError, World ∅ []).
Proof.
  destruct (getitem_accepts_negative_index (E := string)
              (Conversations.Build [VInt 10; VInt 20; VInt 30] None 0) (World ∅ []))
    as (_ & Hneg & Hout).
  - reflexivity.
  - split.
    + destruct (Hneg 1%Z) as (c & Hget & Hc); [vm_compute; split; discriminate | ].
      change (- (1))%Z with (-1)%Z in Hget. rewrite Hget.
      vm_compute in Hc. injection Hc as <-. reflexivity.
    + apply Hout. left. reflexivity.
Defined.

Lemma next_n_S {E : Type} (k : nat) (self : Conversations.t) :
  next_n (E := E) (S k) self =
  (r <- Conversations.__next__ self ;;
   rest <- next_n k (snd r) ;;
   ret (fst r :: fst rest, snd rest)).
Proof. reflexivity. Qed.

(** One more call after [k] calls that went through. *)
Lemma next_n_snoc {E : Type} (k : nat) (self : Conversations.t) (w0 : world)
    (vs : list value) (self' : Conversations.t) (w1 : world) :
  next_n (E := E) k self w0 = (inr (vs, self'), w1) ->
  next_n (E := E) (S k) self w0 =
  match Conversations.__next__ (E := E) self' w1 with
  | (inr r, w2) => (inr (vs ++ [fst r], snd r), w2)
  | (inl e, w2) => (inl e, w2)
  end.
Proof.
  revert self w0 vs self' w1.
  induction k as [ | k IH ]; intros self w0 vs self' w1 Hrun.
  - cbn in Hrun. injection Hrun as <- <- <-. cbn [next_n]. unfold bind, ret.
    destruct (Conversations.__next__ self w0) as [[e | r] w2]; reflexivity.
  - rewrite (next_n_S (S k)). rewrite next_n_S in Hrun.
    unfold bind at 1 in Hrun. unfold bind at 1.
    destruct (Conversations.__next__ self w0) as [[e | r] w2]; [discriminate | ].
    unfold bind at 1 in Hrun. unfold bind at 1.
    destruct (next_n k (snd r) w2) as [[e | [vs0 self0]] w3] eqn:Hk; [discriminate | ].
    cbn [fst snd ret] in Hrun. injection Hrun as <- <- <-.
    rewrite (IH _ _ _ _ _ Hk).
    destruct (Conversations.__next__ self0 w3) as [[e | r'] w4]; reflexivity.
Qed.

(** C5: on an archive of [n] conversations with the cursor at 0, the
    first [k <= n] calls of [__next__] return the first [k] conversations
    in file order and leave the cursor at [k]; the call after the [n]-th
    returns [None], prints the notice and puts the cursor back to 0, so
    that the following call behaves like the first and returns
    conversation 0 when there is one; and whatever sequence of
    [__next__] and [reset] calls is made, none raises and the cursor stays
    within [[0, n]]. *)
Theorem next_iterates_in_file_order_and_wraps {E : Type} (convs : list value)
    (md : option Metadata.t) (w : world) :
  let n := length convs in
  let start := Conversations.Build convs md 0 in
  let w_end := World (fs w) (stdout w ++ [end_notice]) in
  (forall k, (k <= n)%nat ->
     next_n (E := E) k start w =
     (inr (firstn k convs, Conversations.Build convs md (Z.of_nat k)), w))
  /\ Conversations.__next__ (E := E) (Conversations.Build convs md (Z.of_nat n)) w =
     (inr (VNone, start), w_end)
  /\ next_n (E := E) (S n) start w = (inr (convs ++ [VNone], start), w_end)
  /\ (forall c rest, convs = c :: rest ->
        next_n (E := E) (S (S n)) start w =
        (inr (convs ++ [VNone; c], Conversations.Build convs md 1), w_end))
  /\ (forall ops, exists j w',
        run_ops (E := E) ops start w = (inr (Conversations.Build convs md j), w') /\
        (0 <= j <= Z.of_nat n)%Z).
Proof.
  intros n start w_end.
  assert (Hfirst : forall k w0, (k <= n)%nat ->
            next_n (E := E) k start w0 =
            (inr (firstn k convs, Conversations.Build convs md (Z.of_nat k)), w0)).
  { intros k w0 Hk. unfold start. change 0%Z with (Z.of_nat 0).
    rewrite next_n_in_range by (cbn; exact Hk). reflexivity. }
  assert (Hend : forall w0,
            Conversations.__next__ (E := E) (Conversations.Build convs md (Z.of_nat n)) w0 =
            (inr (VNone, start), World (fs w0) (stdout w0 ++ [end_notice]))).
  { intros w0. apply next_at_end. unfold n. lia. }
  assert (Hwrap : next_n (E := E) (S n) start w = (inr (convs ++ [VNone], start), w_end)).
  { rewrite (next_n_snoc n start w _ _ _ (Hfirst n w (Nat.le_refl n))).
    rewrite Hend. cbn [fst snd]. unfold n. now rewrite firstn_all. }
  split; [intros k Hk; now apply Hfirst | ].
  split; [apply Hend | ]. split; [exact Hwrap | ]. split.
  - intros c rest Hconvs. rewrite (next_n_snoc (S n) start w _ _ _ Hwrap).
    unfold start.
    rewrite (next_in_range convs md 0 c); [ | subst convs; cbn; lia | now subst convs ].
    cbn [fst snd]. now rewrite <- app_assoc.
  - intros ops. apply run_ops_cursor. lia.
Qed.

(** ** Claims about loading *)

Section loading.
Context {E : Type}.
Variable splitext : string -> string * string.
Variable loads : string -> E + value.

Lemma parse_lines_ok (lines : list string) (convs acc : list value) (w : world) :
  parses loads lines convs ->
  Conversations.parse_lines loads lines acc w = (inr (acc ++ convs), w).
Proof.
  intros Hp. revert acc. induction Hp as [ | line c lines convs Hline _ IH ];
    intros acc; cbn [Conversations.parse_lines].
  - now rewrite app_nil_r.
  - rewrite Hline, IH, <- app_assoc. reflexivity.
Qed.

Lemma parse_lines_bad (good rest : list string) (bad : string)
    (convs acc : list value) (e : E) (w : world) :
  parses loads good convs -> loads bad = inl e ->
  Conversations.parse_lines loads (good ++ bad :: rest) acc w =
  (inl (JSONDecodeError e), w).
Proof.
  intros Hp Hbad. revert acc. induction Hp as [ | line c lines convs Hline _ IH ];
    intros acc; cbn [Conversations.parse_lines app].
  - now rewrite Hbad.
  - rewrite Hline. apply IH.
Qed.

Lemma load_conversations_reads (datapath content : string) (w : world) :
  fs w !! datapath = Some content ->
  Conversations._load_conversations loads datapath w =
  Conversations.parse_lines loads (splitlines content) [] w.
Proof.
  intros Hfile. unfold Conversations._load_conversations, bind, isfile, read_file.
  rewrite Hfile. rewrite bool_decide_true by eauto.
  cbn [negb]. cbn beta. rewrite Hfile. reflexivity.
Qed.

Lemma load_metadata_absent (datapath : string) (w : world) :
  fs w !! Metadata._get_path splitext datapath = None ->
  Metadata._load splitext loads datapath w =
  (inl (RuntimeError ("Metadata at path " +:+ Metadata._get_path splitext datapath
                      +:+ " not found. " +:+ "Double check your path.")), w).
Proof.
  intros Hnone. unfold Metadata._load, bind, isfile. rewrite Hnone.
  rewrite bool_decide_false by (intros [x Hx]; discriminate). reflexivity.
Qed.
End loading.

(** C7, as the code has it: each line of an existing file is parsed on its
    own; when every line parses the result is the list of parsed lines in
    file order; when some line is malformed the load raises the decoder's
    error for the first such line, built from that line's text alone, and
    nothing is returned, neither by [_load_conversations] nor by the
    constructor. *)
Theorem load_aborts_on_first_malformed_line {E : Type}
    (splitext : string -> string * string) (loads : string -> E + value)
    (datapath content : string) (w : world) :
  fs w !! datapath = Some content ->
  (forall convs, parses loads (splitlines content) convs ->
     Conversations._load_conversations loads datapath w = (inr convs, w))
  /\ (forall good bad rest convs e,
        splitlines content = good ++ bad :: rest ->
        parses loads good convs -> loads bad = inl e ->
        Conversations._load_conversations loads datapath w =
        (inl (JSONDecodeError e), w)
        /\ Conversations.__init__ splitext loads datapath w =
           (inl (JSONDecodeError e), w)).
Proof.
  intros Hfile. split.
  - intros convs Hp. rewrite (load_conversations_reads loads datapath content w Hfile).
    now rewrite (parse_lines_ok loads _ convs).
  - intros good bad rest convs e Hsplit Hp Hbad.
    assert (Hload : Conversations._load_conversations loads datapath w =
                    (inl (JSONDecodeError e), w)).
    { rewrite (load_conversations_reads loads datapath content w Hfile), Hsplit.
      now apply parse_lines_bad with (convs := convs). }
    split; [exact Hload | ].
    unfold Conversations.__init__, bind. now rewrite Hload.
Qed.

Lemma load_aborts_on_first_malformed_line_witness :
  Conversations.__init__ PyLib.splitext PyLib.loads "x.jsonl"
    (World {[ "x.jsonl" := "{}" +:+ String "010" ("oops" +:+ String "010" "[1]") ]} []) =
  (inl (JSONDecodeError "oops"),
   World {[ "x.jsonl" := "{}" +:+ String "010" ("oops" +:+ String "010" "[1]") ]} []).
Proof.
  destruct (load_aborts_on_first_malformed_line PyLib.splitext PyLib.loads "x.jsonl"
              ("{}" +:+ String "010" ("oops" +:+ String "010" "[1]"))
              (World {[ "x.jsonl" := "{}" +:+ String "010" ("oops" +:+ String "010" "[1]") ]} []))
    as [_ Hbad].
  - vm_compute. reflexivity.
  - apply (Hbad ["{}"] "oops" ["[1]"] [VDict []] "oops").
    + vm_compute. reflexivity.
    + repeat constructor.
    + vm_compute. reflexivity.
Defined.

(** C7 as stated fails: the error raised for a malformed line does not
    say which line of the file it was.  The files [oops] and [{}], [oops]
    raise the same error, so no reading of the error yields the index of a
    malformed line in both. *)
Lemma load_error_does_not_locate_the_line :
  ~ exists line_of : exn string -> nat,
      forall content e,
        fst (Conversations._load_conversations PyLib.loads "x.jsonl"
               (World {[ "x.jsonl" := content ]} [])) = inl e ->
        exists bad err,
          nth_error (splitlines content) (line_of e) = Some bad /\
          PyLib.loads bad = inl err.
Proof.
  intros [line_of Hloc].
  destruct (Hloc ("oops" +:+ String "010" EmptyString) (JSONDecodeError "oops"))
    as (bad1 & err1 & Hnth1 & _); [vm_compute; reflexivity | ].
  destruct (Hloc ("{}" +:+ String "010" ("oops" +:+ String "010" EmptyString))
              (JSONDecodeError "oops"))
    as (bad2 & err2 & Hnth2 & Hbad2); [vm_compute; reflexivity | ].
  change (splitlines ("oops" +:+ String "010" EmptyString)) with ["oops"] in Hnth1.
  change (splitlines ("{}" +:+ String "010" ("oops" +:+ String "010" EmptyString)))
    with ["{}"; "oops"] in Hnth2.
  destruct (line_of (JSONDecodeError "oops")) as [ | [ | k ] ].
  - cbn in Hnth2. injection Hnth2 as <-. vm_compute in Hbad2. discriminate.
  - cbn in Hnth1. discriminate.
  - cbn in Hnth1. discriminate.
Qed.

(** C8: constructing the archive over an existing, well-formed
    conversation file whose metadata file is absent succeeds:
    [Metadata._load] raises its not-found [RuntimeError], the constructor
    catches it, prints the warning and leaves [metadata] at [None], and
    the conversations are all loaded and can be indexed. *)
Theorem init_without_metadata_file {E : Type}
    (splitext : string -> string * string) (loads : string -> E + value)
    (datapath content : string) (convs : list value) (w : world) :
  let metadata_path := Metadata._get_path splitext datapath in
  let warning := "Metadata does not exist. Please double check your datapath." in
  let w' := World (fs w) (stdout w ++ [warning]) in
  fs w !! datapath = Some content ->
  parses loads (splitlines content) convs ->
  fs w !! metadata_path = None ->
  Metadata._load splitext loads datapath w =
    (inl (RuntimeError ("Metadata at path " +:+ metadata_path +:+ " not found. "
                        +:+ "Double check your path.")), w)
  /\ Conversations.__init__ splitext loads datapath w =
     (inr (Conversations.Build convs None 0), w')
  /\ (forall i c, nth_error convs i = Some c ->
        Conversations.__getitem__ (E := E) (Conversations.Build convs None 0)
          (Z.of_nat i) w' = (inr c, w')).
Proof.
  intros metadata_path warning w' Hfile Hp Hnone.
  pose proof (load_metadata_absent splitext loads datapath w Hnone) as Hmeta.
  split; [exact Hmeta | ]. split.
  - unfold Conversations.__init__. unfold bind at 1.
    rewrite (load_conversations_reads loads datapath content w Hfile).
    rewrite (parse_lines_ok loads _ convs) by exact Hp. cbn [app].
    unfold bind at 1. unfold Conversations._load_metadata, catch_RuntimeError.
    unfold bind at 1. rewrite Hmeta. reflexivity.
  - intros i c Hc. unfold Conversations.__getitem__.
    cbn [Conversations.conversations].
    rewrite py_index_nonneg by lia. now rewrite Nat2Z.id, Hc.
Qed.

Lemma init_without_metadata_file_witness :
  Conversations.__init__ PyLib.splitext PyLib.loads "x.jsonl"
    (World {[ "x.jsonl" := "{}" +:+ String "010" "[1]" ]} []) =
  (inr (Conversations.Build [VDict []; VList [VInt 1]] None 0),
   World {[ "x.jsonl" := "{}" +:+ String "010" "[1]" ]}
         ["Metadata does not exist. Please double check your datapath."]).
Proof.
  destruct (init_without_metadata_file PyLib.splitext PyLib.loads "x.jsonl"
              ("{}" +:+ String "010" "[1]") [VDict []; VList [VInt 1]]
              (World {[ "x.jsonl" := "{}" +:+ String "010" "[1]" ]} []))
    as (_ & Hinit & _).
  - vm_compute. reflexivity.
  - change (splitlines ("{}" +:+ String "010" "[1]")) with ["{}"; "[1]"].
    repeat (apply List.Forall2_cons; [vm_compute; reflexivity | ]).
    apply List.Forall2_nil.
  - vm_compute. reflexivity.
  - exact Hinit.
Defined.

(** ** Claims about saving and loading back *)

Lemma concat_filter_nonempty {A : Type} (ll : list (list A)) :
  concat (List.filter nonempty ll) = concat ll.
Proof.
  induction ll as [ | l ll IH ]; [reflexivity | ].
  destruct l; cbn [List.filter nonempty concat app]; now rewrite IH.
Qed.

Lemma concat_map_filter {A B : Type} (f : A -> B) (g : A -> bool)
    (ll : list (list A)) :
  concat (map (fun l => map f (List.filter g l)) ll) =
  map f (List.filter g (concat ll)).
Proof.
  induction ll as [ | l ll IH ]; [reflexivity | ].
  cbn [map concat]. now rewrite IH, List.filter_app, map_app.
Qed.

Section dialog_of_record.
Variable splitext : string -> string * string.
Variable context_ids : list value.
Variables save_keys to_save : string.

Lemma episode_dialog_turns (ep : list (list dict)) :
  concat (episode_dialog context_ids save_keys ep) =
  map (turn_record save_keys) (List.filter (is_dialog context_ids) (concat ep)).
Proof.
  unfold episode_dialog. rewrite concat_filter_nonempty.
  unfold pair_dialog. apply concat_map_filter.
Qed.

Lemma dialog_turns_record (ep : list (list dict)) :
  dialog_turns (episode_record splitext context_ids save_keys to_save ep) =
  map VDict (map (turn_record save_keys)
                 (List.filter (is_dialog context_ids) (concat ep))).
Proof.
  unfold episode_record, Conversations.convo_record, dialog_turns.
  cbn [dict_get String.eqb Ascii.eqb Bool.eqb].
  rewrite List.map_map. cbn beta iota. rewrite <- episode_dialog_turns.
  now rewrite concat_map.
Qed.

Lemma dialog_turns_records (act_list : list (list (list dict))) :
  concat (map dialog_turns
            (records_written splitext context_ids save_keys to_save act_list)) =
  map VDict (map (turn_record save_keys)
                 (List.filter (is_dialog context_ids) (concat (concat act_list)))).
Proof.
  unfold records_written. rewrite List.map_map.
  induction act_list as [ | ep act_list IH ]; [reflexivity | ].
  cbn [concat]. rewrite concat_app, List.filter_app, !map_app, <- IH.
  destruct ep as [ | act_pair ep ]; [reflexivity | ].
  cbn [List.filter nonempty map concat]. now rewrite dialog_turns_record.
Qed.
End dialog_of_record.

(** Loading what was saved, for a codec that reads back each written
    record and writes it on one line. *)
Lemma save_then_load_records {E : Type}
    (splitext : string -> string * string) (dumps : value -> string)
    (loads : string -> E + value)
    (now : string) (act_list : list (list (list dict))) (datapath : string)
    (opt : value) (save_keys context_ids : string) (self_chat : value)
    (kwargs : dict) (w : world) :
  let to_save := Conversations._get_path splitext datapath in
  let ctx := map VStr (split_commas context_ids) in
  let records := records_written splitext ctx save_keys to_save act_list in
  let w' := snd (Conversations.save_conversations (E := E) splitext dumps now
                   act_list datapath opt save_keys context_ids self_chat kwargs w) in
  Forall (fun r => loads (dumps r) = inr r /\ no_linebreak (dumps r) = true) records ->
  Conversations._load_conversations loads to_save w' = (inr records, w')
  /\ concat (map dialog_turns records) =
     map VDict (map (turn_record save_keys)
                    (List.filter (is_dialog ctx) (concat (concat act_list))))
  /\ (forall ex, In ex (concat (concat act_list)) -> is_context ctx ex = false ->
        exists t,
          In (VDict t) (concat (map dialog_turns records))
          /\ dict_get t "id" = Some (turn_id ex)
          /\ (forall k v, In k (split_commas save_keys) ->
                dict_get ex k = Some v -> dict_get t k = Some v)
          /\ (forall k, In k (dict_keys t) ->
                In k (split_commas save_keys) \/ k = "id")).
Proof.
  intros to_save ctx records w' Hcodec.
  assert (Hturns : concat (map dialog_turns records) =
                   map VDict (map (turn_record save_keys)
                     (List.filter (is_dialog ctx) (concat (concat act_list)))))
    by apply dialog_turns_records.
  split; [ | split; [exact Hturns | ] ].
  - assert (Hfile : fs w' !! to_save = Some (file_of_lines (map dumps records))).
    { unfold w', to_save. rewrite save_conversations_file. now rewrite text_written_eq. }
    rewrite (load_conversations_reads loads to_save _ w' Hfile).
    rewrite splitlines_file_of_lines.
    + apply (parse_lines_ok loads _ records []).
      unfold parses. apply Forall2_fmap_l, Forall_Forall2_diag.
      eapply Forall_impl; [exact Hcodec | ]. now intros r [Hr _].
    + apply Forall_map. eapply Forall_impl; [exact Hcodec | ]. now intros r [_ Hr].
  - intros ex Hex Hctx. exists (turn_record save_keys ex). split; [ | split; [ | split ] ].
    + rewrite Hturns. apply in_map, in_map. apply filter_In.
      split; [exact Hex | ]. unfold is_dialog. now rewrite Hctx.
    + apply make_turn_id.
    + intros k v Hk Hv. unfold turn_record.
      destruct (String.eqb k "id") eqn:Hid.
      * apply String.eqb_eq in Hid. subst k. rewrite make_turn_id.
        unfold turn_id, py_get. now rewrite Hv.
      * apply String.eqb_neq in Hid. rewrite make_turn_key by assumption.
        unfold py_get. now rewrite Hv.
    + intros k Hk. now apply make_turn_keys in Hk.
Qed.


(** ** Claims about saving twice *)

Lemma same_but_date_set (m1 m2 : dict) (k : string) (v : value) :
  same_but_date m1 m2 -> same_but_date (dict_set m1 k v) (dict_set m2 k v).
Proof.
  intros (v1 & v2 & rest & -> & ->). cbn [dict_set].
  destruct (String.eqb "date" k).
  - exists v, v, rest. split; reflexivity.
  - exists v1, v2, (dict_set rest k v). split; reflexivity.
Qed.

Lemma same_but_date_fold (kwargs m1 m2 : dict) :
  same_but_date m1 m2 ->
  same_but_date (fold_left (fun m kv => dict_set m (fst kv) (snd kv)) kwargs m1)
                (fold_left (fun m kv => dict_set m (fst kv) (snd kv)) kwargs m2).
Proof.
  revert m1 m2. induction kwargs as [ | kv kwargs IH ]; intros m1 m2 Hm; simpl.
  - exact Hm.
  - apply IH, same_but_date_set, Hm.
Qed.

Lemma metadata_record_same_but_date (now1 now2 : string)
    (opt self_chat speakers : value) (kwargs : dict) :
  same_but_date (Metadata.metadata_record now1 opt self_chat speakers kwargs)
                (Metadata.metadata_record now2 opt self_chat speakers kwargs).
Proof.
  unfold Metadata.metadata_record. apply same_but_date_fold.
  exists (VStr now1), (VStr now2). eexists. split; reflexivity.
Qed.

Lemma same_but_date_del (m1 m2 : dict) :
  same_but_date m1 m2 -> dict_del m1 "date" = dict_del m2 "date".
Proof. now intros (v1 & v2 & rest & -> & ->). Qed.

Lemma same_but_date_get (m1 m2 : dict) (k : string) :
  same_but_date m1 m2 -> k <> "date" -> dict_get m1 k = dict_get m2 k.
Proof.
  intros (v1 & v2 & rest & -> & ->) Hk. cbn [dict_get].
  assert (Hne : String.eqb "date" k = false) by (apply String.eqb_neq; congruence).
  now rewrite Hne.
Qed.

(** C9: saving twice with the same inputs to the same path, at clock
    readings [now1] and [now2], leaves the same bytes in the conversation
    file after each save; the two metadata files hold records that agree
    on every field but [date], and are the same bytes when the clock
    readings agree. *)
Theorem save_twice_writes_same_bytes {E : Type}
    (splitext : string -> string * string) (dumps : value -> string)
    (now1 now2 : string) (act_list : list (list (list dict))) (datapath : string)
    (opt : value) (save_keys context_ids : string) (self_chat : value)
    (kwargs : dict) (w : world) :
  let to_save := Conversations._get_path splitext datapath in
  let metadata_path := Metadata._get_path splitext to_save in
  let save now :=
    Conversations.save_conversations (E := E) splitext dumps now act_list datapath
      opt save_keys context_ids self_chat kwargs in
  let w1 := snd (save now1 w) in
  let w2 := snd (save now2 w1) in
  (exists text, fs w1 !! to_save = Some text /\ fs w2 !! to_save = Some text)
  /\ (existsb (String.eqb "speakers") (dict_keys kwargs) = false ->
      fst (save now1 w) = inr tt /\ fst (save now2 w1) = inr tt /\
      exists m1 m2,
        fs w1 !! metadata_path = Some (dumps (VDict m1))
        /\ fs w2 !! metadata_path = Some (dumps (VDict m2))
        /\ dict_del m1 "date" = dict_del m2 "date"
        /\ (forall k, k <> "date" -> dict_get m1 k = dict_get m2 k)
        /\ (now1 = now2 -> m1 = m2)).
Proof.
  intros to_save metadata_path save w1 w2. split.
  - eexists. split; unfold w2, w1, save, to_save; apply save_conversations_file.
  - intros Hclash. unfold w2, w1, save.
    rewrite !save_conversations_run by exact Hclash. cbn [fst snd fs].
    split; [reflexivity | ]. split; [reflexivity | ].
    eexists. eexists. fold to_save. fold metadata_path.
    split; [apply lookup_insert_eq | ]. split; [apply lookup_insert_eq | ].
    split; [apply same_but_date_del, metadata_record_same_but_date | ].
    split; [intros k Hk; now apply same_but_date_get;
            [apply metadata_record_same_but_date | ] | ].
    now intros ->.
Qed.

(** ** The JSON instance reads back what it writes *)

Lemma parse_chars_escape_char (a : ascii) (acc r : string) :
  PyLib.parse_chars acc (PyLib.escape_char a +:+ r) =
  PyLib.parse_chars (PyLib.snoc acc a) r.
Proof. destruct a as [[] [] [] [] [] [] [] []]; reflexivity. Qed.

Lemma parse_chars_escape (s acc r : string) :
  PyLib.parse_chars acc (PyLib.escape s +:+ String "034" r) = Some (acc +:+ s, r).
Proof.
  revert acc. induction s as [ | a s IH ]; intros acc.
  - cbn. now rewrite append_nil_r.
  - cbn [PyLib.escape]. rewrite append_assoc, parse_chars_escape_char, IH.
    unfold PyLib.snoc. now rewrite append_assoc.
Qed.

Lemma parse_chars_quote (s r : string) :
  PyLib.parse_chars EmptyString (PyLib.escape s +:+ String "034" EmptyString +:+ r) =
  Some (s, r).
Proof.
  change (String "034" EmptyString +:+ r) with (String "034" r).
  now rewrite parse_chars_escape.
Qed.

(** Decimal digits. *)

Lemma digit_val_of_digit (n : N) :
  (n < 10)%N ->
  PyLib.digit_val (ascii_of_nat (48 + N.to_nat n)) = Some (Z.of_N n).
Proof.
  intros Hn.
  assert (Hcases : n = 0%N \/ n = 1%N \/ n = 2%N \/ n = 3%N \/ n = 4%N \/ n = 5%N \/
                   n = 6%N \/ n = 7%N \/ n = 8%N \/ n = 9%N) by lia.
  repeat (destruct Hcases as [-> | Hcases]; [reflexivity | ]). subst n. reflexivity.
Qed.

Lemma digits_of_pos_app (fuel : nat) (n : N) (acc rest : string) :
  PyLib.digits_of_pos fuel n acc +:+ rest = PyLib.digits_of_pos fuel n (acc +:+ rest).
Proof.
  revert n acc. induction fuel as [ | fuel IH ]; intros n acc; [reflexivity | ].
  cbn [PyLib.digits_of_pos]. destruct (n <? 10)%N; [reflexivity | ].
  now rewrite IH.
Qed.

Lemma parse_digits_of_pos (fuel : nat) (n : N) (acc : string) :
  (n < 10 ^ N.of_nat fuel)%N ->
  exists k : Z,
    (0 < k)%Z /\
    forall a, PyLib.parse_digits a (PyLib.digits_of_pos fuel n acc) =
              PyLib.parse_digits (a * k + Z.of_N n)%Z acc.
Proof.
  revert n acc. induction fuel as [ | fuel IH ]; intros n acc Hn.
  - exists 1%Z. split; [lia | ]. intros a. cbn [PyLib.digits_of_pos].
    cbn in Hn. f_equal. lia.
  - cbn [PyLib.digits_of_pos]. destruct (N.ltb_spec n 10) as [Hlt | Hge].
    + exists 10%Z. split; [lia | ]. intros a. cbn [PyLib.parse_digits].
      rewrite digit_val_of_digit by (rewrite N.mod_small; lia).
      rewrite N.mod_small by lia. f_equal. lia.
    + destruct (IH (n / 10)%N (String (ascii_of_nat (48 + N.to_nat (n mod 10))) acc))
        as (k & Hk & Hparse).
      { apply N.Div0.div_lt_upper_bound.
        rewrite Nat2N.inj_succ, N.pow_succ_r' in Hn. exact Hn. }
      exists (k * 10)%Z. split; [lia | ]. intros a. rewrite Hparse.
      cbn [PyLib.parse_digits].
      rewrite digit_val_of_digit by (apply N.mod_lt; lia).
      f_equal. rewrite (N.div_mod n 10) at 3 by lia.
      rewrite N2Z.inj_add, N2Z.inj_mul. change (Z.of_N 10) with 10%Z. ring.
Qed.

Lemma digits_of_pos_head (fuel : nat) (n : N) (acc : string) :
  (n < 10 ^ N.of_nat fuel)%N -> fuel <> O ->
  exists c s, PyLib.digits_of_pos fuel n acc = String c s /\
              exists d, PyLib.digit_val c = Some d.
Proof.
  revert n acc. induction fuel as [ | fuel IH ]; intros n acc Hn Hfuel;
    [congruence | ].
  cbn [PyLib.digits_of_pos]. destruct (N.ltb_spec n 10) as [Hlt | Hge].
  - eexists. eexists. split; [reflexivity | ].
    eexists. apply digit_val_of_digit. rewrite N.mod_small; lia.
  - assert (Hdiv : (n / 10 < 10 ^ N.of_nat fuel)%N).
    { apply N.Div0.div_lt_upper_bound.
      rewrite Nat2N.inj_succ, N.pow_succ_r' in Hn. exact Hn. }
    apply IH; [exact Hdiv | ]. intros ->. cbn in Hdiv.
    assert (1 <= n / 10)%N by (apply N.div_le_lower_bound; lia). lia.
Qed.

Lemma log2_fuel_enough (m : N) : (m < 10 ^ N.of_nat (S (N.to_nat (N.log2 m))))%N.
Proof.
  rewrite Nat2N.inj_succ, N2Nat.id.
  apply N.lt_le_trans with (2 ^ N.succ (N.log2 m))%N.
  - destruct m as [ | p ]; [reflexivity | ]. apply N.log2_spec. lia.
  - apply N.pow_le_mono_l. lia.
Qed.

Lemma parse_digits_end (a : Z) (rest : string) :
  ends_number rest -> PyLib.parse_digits a rest = (a, rest).
Proof.
  destruct rest as [ | c rest ]; [reflexivity | ].
  cbn [ends_number PyLib.parse_digits]. now intros ->.
Qed.

Lemma parse_nat_digits (m : N) (rest : string) :
  ends_number rest ->
  PyLib.parse_nat
    (PyLib.digits_of_pos (S (N.to_nat (N.log2 m))) m EmptyString +:+ rest) =
  Some (Z.of_N m, rest).
Proof.
  intros Hrest. rewrite digits_of_pos_app, append_nil_l.
  destruct (digits_of_pos_head _ m rest (log2_fuel_enough m)) as (c & s & Hhead & d & Hd);
    [congruence | ].
  destruct (parse_digits_of_pos _ m rest (log2_fuel_enough m)) as (k & _ & Hparse).
  unfold PyLib.parse_nat. rewrite Hhead, Hd, <- Hhead, Hparse.
  rewrite parse_digits_end by exact Hrest. reflexivity.
Qed.

Lemma digit_head_tests (c : ascii) (d : Z) :
  PyLib.digit_val c = Some d ->
  PyLib.is_ws c = false /\ Ascii.eqb c "]" = false /\ Ascii.eqb c "}" = false.
Proof.
  destruct c as [[] [] [] [] [] [] [] []]; intros H; vm_compute in H;
    try discriminate; repeat split.
Qed.

Lemma parse_value_digit_head (fuel : nat) (c : ascii) (s : string) (d : Z) :
  PyLib.digit_val c = Some d ->
  PyLib.parse_value (S fuel) (String c s) =
  match PyLib.parse_nat (String c s) with
  | Some (n, r') => Some (VInt n, r')
  | None => None
  end.
Proof.
  destruct c as [[] [] [] [] [] [] [] []]; intros H; vm_compute in H;
    try discriminate; reflexivity.
Qed.

Lemma parse_value_int (fuel : nat) (n : Z) (rest : string) :
  ends_number rest ->
  PyLib.parse_value (S fuel) (PyLib.dumps_int n +:+ rest) = Some (VInt n, rest).
Proof.
  intros Hrest. unfold PyLib.dumps_int.
  pose proof (parse_nat_digits (Z.to_N (Z.abs n)) rest Hrest) as Hnat.
  destruct (Z.ltb_spec n 0) as [Hneg | Hpos].
  - rewrite append_assoc.
    change ("-" +:+ ?x) with (String "-" x).
    cbn [PyLib.parse_value PyLib.skip_ws]. change (PyLib.is_ws "-") with false.
    cbn iota. change (Ascii.eqb "-" "n") with false.
    change (Ascii.eqb "-" "t") with false. change (Ascii.eqb "-" "f") with false.
    change (Ascii.eqb "-" "034") with false. change (Ascii.eqb "-" "-") with true.
    cbn iota. rewrite Hnat. do 2 f_equal. f_equal. lia.
  - destruct (digits_of_pos_head _ (Z.to_N (Z.abs n)) EmptyString
                (log2_fuel_enough (Z.to_N (Z.abs n))))
      as (c & s & Hhead & d & Hd); [congruence | ].
    rewrite Hhead, append_cons in *.
    rewrite (parse_value_digit_head fuel c _ d Hd), Hnat.
    do 2 f_equal. f_equal. lia.
Qed.

Lemma skip_ws_head (c : ascii) (s : string) :
  PyLib.is_ws c = false -> PyLib.skip_ws (String c s) = String c s.
Proof. intros Hc. cbn [PyLib.skip_ws]. now rewrite Hc. Qed.

Lemma parse_value_space (fuel : nat) (s : string) :
  PyLib.parse_value fuel (String " " s) = PyLib.parse_value fuel s.
Proof. destruct fuel; reflexivity. Qed.

Lemma parse_elems_space (fuel : nat) (s : string) (acc : list value) :
  PyLib.parse_elems fuel (String " " s) acc = PyLib.parse_elems fuel s acc.
Proof.
  destruct fuel; [reflexivity | ]. cbn [PyLib.parse_elems].
  now rewrite parse_value_space.
Qed.

Lemma parse_members_space (fuel : nat) (s : string) (acc : dict) :
  PyLib.parse_members fuel (String " " s) acc = PyLib.parse_members fuel s acc.
Proof. destruct fuel; reflexivity. Qed.

Lemma opens_value_app (s r : string) : opens_value s -> opens_value (s +:+ r).
Proof.
  intros (c & s' & -> & Hc). exists c, (s' +:+ r). split; [reflexivity | exact Hc].
Qed.

Lemma dumps_opens_value (v : value) : opens_value (PyLib.dumps v).
Proof.
  destruct v as [ | [] | n | s | l | d ]; cbn [PyLib.dumps];
    try (eexists; eexists; split; [reflexivity | repeat split]).
  unfold PyLib.dumps_int. destruct (n <? 0)%Z.
  - eexists. eexists. split; [reflexivity | repeat split].
  - destruct (digits_of_pos_head _ (Z.to_N (Z.abs n)) EmptyString
                (log2_fuel_enough (Z.to_N (Z.abs n))))
      as (c & s & Hhead & dgt & Hd); [congruence | ].
    exists c, s. split; [exact Hhead | ]. exact (digit_head_tests c dgt Hd).
Qed.

Lemma join_opens_value (f : string) (l : list string) :
  l <> [] -> Forall opens_value l -> opens_value (PyLib.join f l).
Proof.
  intros Hne Hall. destruct Hall as [ | x l Hx Hl ]; [congruence | ].
  destruct l; cbn [PyLib.join]; [exact Hx | now apply opens_value_app].
Qed.

Lemma join_cons (sep x y : string) (l : list string) :
  PyLib.join sep (x :: y :: l) = x +:+ sep +:+ PyLib.join sep (y :: l).
Proof. reflexivity. Qed.

Lemma parse_elems_join (l : list value) :
  Forall reads_back l -> l <> [] ->
  forall fuel acc rest,
    list_sum (map (fun x => S (value_size x)) l) <= fuel ->
    PyLib.parse_elems fuel (PyLib.join ", " (map PyLib.dumps l) +:+ String "]" rest) acc =
    Some (VList (acc ++ l), rest).
Proof.
  induction 1 as [ | x l Hx Hl IH ]; intros Hne fuel acc rest Hfuel; [congruence | ].
  cbn [map list_sum] in Hfuel. destruct fuel as [ | fuel ]; [cbn in Hfuel; lia | ].
  destruct l as [ | y l ].
  - cbn [map PyLib.join PyLib.parse_elems].
    rewrite (Hx fuel (String "]" rest)); [reflexivity | cbn in Hfuel; lia | reflexivity].
  - cbn [map]. cbn [map] in IH. rewrite join_cons.
    rewrite !append_assoc. cbn [PyLib.parse_elems].
    rewrite (Hx fuel); [ | cbn in Hfuel; lia | reflexivity ].
    change (", " +:+ ?X) with (String "," (String " " X)).
    cbn [PyLib.skip_ws]. change (PyLib.is_ws ",") with false. cbn iota.
    change (Ascii.eqb "," ",") with true. cbn iota.
    rewrite parse_elems_space.
    rewrite IH; [ | congruence | simpl in *; lia ].
    now rewrite <- app_assoc.
Qed.

Lemma dict_set_fresh (d : dict) (k : string) (v : value) :
  ~ In k (map fst d) -> dict_set d k v = d ++ [(k, v)].
Proof.
  induction d as [ | [k' v'] d IH ]; intros Hk; [reflexivity | ].
  cbn [dict_set]. cbn [map fst In] in Hk.
  assert (Hne : String.eqb k' k = false) by (apply String.eqb_neq; tauto).
  rewrite Hne, IH by tauto. reflexivity.
Qed.

Lemma entry_shape (k dv X : string) :
  (PyLib.quote k +:+ ": " +:+ dv) +:+ X =
  String "034" (PyLib.escape k +:+ String "034" (String ":" (String " " (dv +:+ X)))).
Proof.
  unfold PyLib.quote. rewrite !append_cons, !append_assoc. reflexivity.
Qed.

Lemma parse_members_join (d : dict) :
  Forall (fun kv => reads_back (snd kv)) d -> d <> [] ->
  forall fuel acc rest,
    NoDup (map fst (acc ++ d)) ->
    list_sum (map (fun kv => S (value_size (snd kv))) d) <= fuel ->
    PyLib.parse_members fuel
      (PyLib.join ", "
         (map (fun kv => PyLib.quote (fst kv) +:+ ": " +:+ PyLib.dumps (snd kv)) d)
       +:+ String "}" rest) acc =
    Some (VDict (acc ++ d), rest).
Proof.
  induction 1 as [ | [k v] d Hv Hd IH ]; intros Hne fuel acc rest Hnd Hfuel;
    [congruence | ].
  cbn [map list_sum snd] in Hfuel. destruct fuel as [ | fuel ]; [cbn in Hfuel; lia | ].
  assert (Hfresh : ~ In k (map fst acc)).
  { rewrite map_app in Hnd. apply NoDup_app in Hnd as (_ & Hdisj & _).
    intros Hin. apply (Hdisj k); [now apply list_elem_of_In | ].
    apply list_elem_of_In. now left. }
  assert (Hnd' : NoDup (map fst ((acc ++ [(k, v)]) ++ d))) by now rewrite <- app_assoc.
  cbn [snd] in Hv.
  destruct d as [ | kv d ].
  - cbn [map PyLib.join fst snd]. rewrite entry_shape.
    cbn [PyLib.parse_members PyLib.skip_ws]. change (PyLib.is_ws "034") with false.
    cbn iota. change (Ascii.eqb "034" "034") with true. cbn iota.
    rewrite parse_chars_escape, append_nil_l.
    cbn [PyLib.skip_ws]. change (PyLib.is_ws ":") with false. cbn iota.
    change (Ascii.eqb ":" ":") with true. cbn iota.
    rewrite parse_value_space.
    rewrite (Hv fuel (String "}" rest)); [ | cbn in Hfuel; lia | reflexivity ].
    cbn [PyLib.skip_ws]. change (PyLib.is_ws "}") with false. cbn iota.
    change (Ascii.eqb "}" ",") with false. change (Ascii.eqb "}" "}") with true.
    cbn iota. now rewrite dict_set_fresh.
  - cbn [map fst snd]. cbn [map] in IH. rewrite join_cons.
    rewrite append_assoc, entry_shape.
    cbn [PyLib.parse_members PyLib.skip_ws]. change (PyLib.is_ws "034") with false.
    cbn iota. change (Ascii.eqb "034" "034") with true. cbn iota.
    rewrite parse_chars_escape, append_nil_l.
    cbn [PyLib.skip_ws]. change (PyLib.is_ws ":") with false. cbn iota.
    change (Ascii.eqb ":" ":") with true. cbn iota.
    rewrite parse_value_space.
    rewrite (Hv fuel); [ | cbn in Hfuel; lia | reflexivity ].
    rewrite append_assoc.
    change (", " +:+ ?X) with (String "," (String " " X)).
    cbn [PyLib.skip_ws]. change (PyLib.is_ws ",") with false. cbn iota.
    change (Ascii.eqb "," ",") with true. cbn iota.
    rewrite parse_members_space, dict_set_fresh by exact Hfresh.
    rewrite IH; [ | congruence | exact Hnd' | simpl in *; lia ].
    now rewrite <- app_assoc.
Qed.

Lemma parse_value_open_list (fuel : nat) (R : string) :
  opens_value R ->
  PyLib.parse_value (S fuel) (String "[" R) = PyLib.parse_elems fuel R [].
Proof.
  intros (c & r & -> & Hws & Hclose & _).
  cbn [PyLib.parse_value PyLib.skip_ws]. change (PyLib.is_ws "[") with false.
  cbn iota. change (Ascii.eqb "[" "n") with false. change (Ascii.eqb "[" "t") with false.
  change (Ascii.eqb "[" "f") with false. change (Ascii.eqb "[" "034") with false.
  change (Ascii.eqb "[" "-") with false. change (Ascii.eqb "[" "[") with true.
  cbn iota. rewrite (skip_ws_head c r Hws), Hclose. reflexivity.
Qed.

Lemma parse_value_open_dict (fuel : nat) (R : string) :
  opens_value R ->
  PyLib.parse_value (S fuel) (String "{" R) = PyLib.parse_members fuel R [].
Proof.
  intros (c & r & -> & Hws & _ & Hclose).
  cbn [PyLib.parse_value PyLib.skip_ws]. change (PyLib.is_ws "{") with false.
  cbn iota. change (Ascii.eqb "{" "n") with false. change (Ascii.eqb "{" "t") with false.
  change (Ascii.eqb "{" "f") with false. change (Ascii.eqb "{" "034") with false.
  change (Ascii.eqb "{" "-") with false. change (Ascii.eqb "{" "[") with false.
  change (Ascii.eqb "{" "{") with true.
  cbn iota. rewrite (skip_ws_head c r Hws), Hclose. reflexivity.
Qed.

Lemma quote_opens_value (k r : string) : opens_value (PyLib.quote k +:+ r).
Proof.
  apply opens_value_app. unfold PyLib.quote.
  eexists. eexists. split; [reflexivity | repeat split].
Qed.

(** Every well-formed value is read back from its encoding. *)
Lemma dumps_reads_back (v : value) : wf_value v = true -> reads_back v.
Proof.
  induction v as [ | b | n | s | l IH | d IH ] using value_nested_ind;
    intros Hwf fuel rest Hfuel Hrest;
    (destruct fuel as [ | fuel ]; [cbn in Hfuel; lia | ]).
  - reflexivity.
  - destruct b; reflexivity.
  - cbn [PyLib.dumps]. now apply parse_value_int.
  - cbn [PyLib.dumps]. unfold PyLib.quote. rewrite append_cons, append_assoc.
    change (String "034" EmptyString +:+ rest) with (String "034" rest).
    cbn [PyLib.parse_value PyLib.skip_ws]. change (PyLib.is_ws "034") with false.
    cbn iota. change (Ascii.eqb "034" "n") with false.
    change (Ascii.eqb "034" "t") with false. change (Ascii.eqb "034" "f") with false.
    change (Ascii.eqb "034" "034") with true. cbn iota.
    now rewrite parse_chars_escape, append_nil_l.
  - cbn [wf_value] in Hwf. cbn [value_size] in Hfuel.
    assert (Hall : Forall reads_back l).
    { rewrite forallb_forall in Hwf. rewrite Forall_forall in IH.
      apply Forall_forall. intros x Hx.
      apply IH; [exact Hx | apply Hwf; now apply list_elem_of_In]. }
    destruct l as [ | x l ]; [reflexivity | ].
    cbn [PyLib.dumps].
    change ("[" +:+ ?X) with (String "[" X). rewrite append_cons, append_assoc.
    change ("]" +:+ rest) with (String "]" rest).
    rewrite parse_value_open_list.
    + apply parse_elems_join; [exact Hall | congruence | lia].
    + apply opens_value_app, join_opens_value; [discriminate | ].
      apply Forall_forall. intros s Hs. apply list_elem_of_In, in_map_iff in Hs.
      destruct Hs as (y & <- & _). apply dumps_opens_value.
  - cbn [wf_value] in Hwf. apply andb_true_iff in Hwf as [Hnd Hwf].
    apply bool_decide_eq_true in Hnd. cbn [value_size] in Hfuel.
    assert (Hall : Forall (fun kv => reads_back (snd kv)) d).
    { rewrite forallb_forall in Hwf. rewrite Forall_forall in IH.
      apply Forall_forall. intros kv Hkv.
      apply IH; [exact Hkv | apply Hwf; now apply list_elem_of_In]. }
    destruct d as [ | kv d ]; [reflexivity | ].
    cbn [PyLib.dumps].
    change ("{" +:+ ?X) with (String "{" X). rewrite append_cons, append_assoc.
    change ("}" +:+ rest) with (String "}" rest).
    rewrite parse_value_open_dict.
    + apply parse_members_join; [exact Hall | congruence | exact Hnd | lia].
    + apply opens_value_app, join_opens_value; [discriminate | ].
      apply Forall_forall. intros s Hs. apply list_elem_of_In, in_map_iff in Hs.
      destruct Hs as (y & <- & _). apply quote_opens_value.
Qed.

(** Fuel: the decoder is given twice the length of the document. *)

Lemma length_append (a b : string) :
  String.length (a +:+ b) = String.length a + String.length b.
Proof.
  induction a as [ | x a IH ]; [reflexivity | ].
  rewrite append_cons. cbn [String.length]. now rewrite IH.
Qed.

Lemma join_size_bound {A : Type} (sz : A -> nat) (enc : A -> string) (l : list A) :
  Forall (fun x => sz x <= 2 * String.length (enc x)) l ->
  list_sum (map (fun x => S (sz x)) l) <=
  2 * String.length (PyLib.join ", " (map enc l)) + 1.
Proof.
  induction 1 as [ | x l Hx Hl IH ]; [cbn; lia | ].
  destruct l as [ | y l ].
  - cbn [map list_sum PyLib.join]. simpl. lia.
  - cbn [map]. cbn [map] in IH. rewrite join_cons, !length_append.
    change (String.length ", ") with 2. simpl list_sum in *. lia.
Qed.

Lemma dumps_size_bound (v : value) :
  value_size v <= 2 * String.length (PyLib.dumps v).
Proof.
  induction v as [ | b | n | s | l IH | d IH ] using value_nested_ind.
  - cbn. lia.
  - destruct b; cbn; lia.
  - destruct (dumps_opens_value (VInt n)) as (c & r & -> & _). cbn. lia.
  - cbn [PyLib.dumps value_size]. unfold PyLib.quote. cbn [String.length]. lia.
  - cbn [PyLib.dumps value_size]. rewrite !length_append.
    pose proof (join_size_bound value_size PyLib.dumps l IH).
    change (String.length "[") with 1. change (String.length "]") with 1. lia.
  - cbn [PyLib.dumps value_size]. rewrite !length_append.
    pose proof (join_size_bound (fun kv => value_size (snd kv))
                  (fun kv => PyLib.quote (fst kv) +:+ ": " +:+ PyLib.dumps (snd kv)) d)
      as Hb.
    change (String.length "{") with 1. change (String.length "}") with 1.
    assert (Hd : Forall (fun kv : string * value =>
                   value_size (snd kv) <=
                   2 * String.length (PyLib.quote (fst kv) +:+ ": " +:+ PyLib.dumps (snd kv))) d).
    { eapply Forall_impl; [exact IH | ]. intros kv Hkv. cbn beta in *.
      rewrite !length_append. lia. }
    specialize (Hb Hd). lia.
Qed.

(** [PyLib.loads] inverts [PyLib.dumps] on well-formed values. *)
Lemma loads_dumps (v : value) :
  wf_value v = true -> PyLib.loads (PyLib.dumps v) = inr v.
Proof.
  intros Hwf. unfold PyLib.loads.
  pose proof (dumps_reads_back v Hwf (2 * String.length (PyLib.dumps v) + 2) EmptyString)
    as Hread.
  rewrite append_nil_r in Hread. rewrite Hread; [reflexivity | | exact I].
  pose proof (dumps_size_bound v). lia.
Qed.

(** The encoder writes on one line. *)

Lemma no_linebreak_app (a b : string) :
  no_linebreak (a +:+ b) = no_linebreak a && no_linebreak b.
Proof. unfold no_linebreak. now rewrite list_ascii_of_string_app, forallb_app. Qed.

Lemma no_linebreak_escape_char (a : ascii) : no_linebreak (PyLib.escape_char a) = true.
Proof. destruct a as [[] [] [] [] [] [] [] []]; reflexivity. Qed.

Lemma no_linebreak_escape (s : string) : no_linebreak (PyLib.escape s) = true.
Proof.
  induction s as [ | a s IH ]; [reflexivity | ].
  cbn [PyLib.escape]. now rewrite no_linebreak_app, no_linebreak_escape_char, IH.
Qed.

Lemma no_linebreak_quote (s : string) : no_linebreak (PyLib.quote s) = true.
Proof.
  unfold PyLib.quote. change (String "034" ?X) with (String "034" EmptyString +:+ X).
  now rewrite !no_linebreak_app, no_linebreak_escape.
Qed.

Lemma no_linebreak_digit (n : N) :
  is_linebreak (ascii_of_nat (48 + N.to_nat (n mod 10))) = false.
Proof.
  assert (Hlt : (n mod 10 < 10)%N) by (apply N.mod_lt; discriminate).
  revert Hlt. generalize (n mod 10)%N. intros m Hlt.
  assert (Hcases : m = 0%N \/ m = 1%N \/ m = 2%N \/ m = 3%N \/ m = 4%N \/ m = 5%N \/
                   m = 6%N \/ m = 7%N \/ m = 8%N \/ m = 9%N) by lia.
  repeat (destruct Hcases as [-> | Hcases]; [reflexivity | ]). now rewrite Hcases.
Qed.

Lemma no_linebreak_digits (fuel : nat) (n : N) (acc : string) :
  no_linebreak acc = true -> no_linebreak (PyLib.digits_of_pos fuel n acc) = true.
Proof.
  revert n acc. induction fuel as [ | fuel IH ]; intros n acc Hacc; [exact Hacc | ].
  cbn [PyLib.digits_of_pos].
  assert (Hstep : no_linebreak (String (ascii_of_nat (48 + N.to_nat (n mod 10))) acc) = true).
  { unfold no_linebreak in *. cbn [list_ascii_of_string forallb].
    now rewrite no_linebreak_digit, Hacc. }
  destruct (n <? 10)%N; [exact Hstep | now apply IH].
Qed.

Lemma no_linebreak_join (l : list string) :
  Forall (fun s => no_linebreak s = true) l -> no_linebreak (PyLib.join ", " l) = true.
Proof.
  induction 1 as [ | x l Hx Hl IH ]; [reflexivity | ].
  destruct l as [ | y l ]; [exact Hx | ].
  rewrite join_cons, !no_linebreak_app, Hx, IH. reflexivity.
Qed.

Lemma dumps_no_linebreak (v : value) : no_linebreak (PyLib.dumps v) = true.
Proof.
  induction v as [ | b | n | s | l IH | d IH ] using value_nested_ind.
  - reflexivity.
  - now destruct b.
  - cbn [PyLib.dumps]. unfold PyLib.dumps_int.
    destruct (n <? 0)%Z; rewrite ?no_linebreak_app; now rewrite no_linebreak_digits.
  - apply no_linebreak_quote.
  - cbn [PyLib.dumps]. rewrite !no_linebreak_app, no_linebreak_join; [reflexivity | ].
    apply Forall_map. exact IH.
  - cbn [PyLib.dumps]. rewrite !no_linebreak_app, no_linebreak_join; [reflexivity | ].
    apply Forall_map. eapply Forall_impl; [exact IH | ].
    intros kv Hkv. cbn beta in *.
    now rewrite !no_linebreak_app, no_linebreak_quote, Hkv.
Qed.

Lemma pylib_json_codec : json_codec PyLib.dumps PyLib.loads.
Proof.
  intros v Hwf. split; [now apply loads_dumps | apply dumps_no_linebreak].
Qed.

(** ** Written records are well-formed *)

Lemma wf_dict_values (d : dict) : wf_dict d = true -> values_wf d = true.
Proof.
  unfold wf_dict. cbn [wf_value]. intros H. now apply andb_true_iff in H as [_ H].
Qed.

Lemma dict_get_wf (d : dict) (k : string) (v : value) :
  values_wf d = true -> dict_get d k = Some v -> wf_value v = true.
Proof.
  unfold values_wf. induction d as [ | [k' v'] d IH ]; [discriminate | ].
  cbn [forallb dict_get snd]. intros Hd. apply andb_true_iff in Hd as [Hv Hd].
  destruct (String.eqb k' k); [now intros [= <-] | now apply IH].
Qed.

Lemma py_get_wf (d : dict) (k : string) (dflt : value) :
  values_wf d = true -> wf_value dflt = true -> wf_value (py_get d k dflt) = true.
Proof.
  intros Hd Hdflt. unfold py_get. destruct (dict_get d k) as [v | ] eqn:Hget;
    [now apply (dict_get_wf d k) | exact Hdflt].
Qed.

Lemma dict_set_values_wf (d : dict) (k : string) (v : value) :
  values_wf d = true -> wf_value v = true -> values_wf (dict_set d k v) = true.
Proof.
  unfold values_wf. induction d as [ | [k' v'] d IH ]; intros Hd Hv.
  - cbn. now rewrite Hv.
  - cbn [forallb snd] in Hd. apply andb_true_iff in Hd as [Hv' Hd].
    cbn [dict_set]. destruct (String.eqb k' k); cbn [forallb snd].
    + now rewrite Hv, Hd.
    + now rewrite Hv', IH.
Qed.

Lemma turn_record_wf (save_keys : string) (ex : dict) :
  wf_dict ex = true -> wf_value (VDict (turn_record save_keys ex)) = true.
Proof.
  intros Hex. apply wf_dict_values in Hex. cbn [wf_value].
  apply andb_true_iff. split.
  - apply bool_decide_eq_true. apply make_turn_NoDup.
  - fold (values_wf (turn_record save_keys ex)).
    unfold turn_record, Conversations.make_turn.
    apply dict_set_values_wf; [ | now apply py_get_wf ].
    generalize (@nil (string * value)) (eq_refl : values_wf [] = true).
    induction (split_commas save_keys) as [ | key keys IH ]; intros turn Hturn.
    + exact Hturn.
    + cbn [fold_left]. apply IH. apply dict_set_values_wf; [exact Hturn | ].
      now apply py_get_wf.
Qed.

Lemma episode_record_wf (splitext : string -> string * string)
    (context_ids : list value) (save_keys to_save : string) (ep : list (list dict)) :
  forallb (forallb wf_dict) ep = true ->
  wf_value (episode_record splitext context_ids save_keys to_save ep) = true.
Proof.
  intros Hep.
  assert (Hturn : forall t,
            In t (episode_context context_ids save_keys ep) \/
            (exists new_pair, In new_pair (episode_dialog context_ids save_keys ep) /\
                              In t new_pair) ->
            wf_value (VDict t) = true).
  { intros t Ht. apply written_turn_source in Ht as (ex & Hex & ->).
    apply turn_record_wf. apply in_concat in Hex as (act_pair & Hpair & Hex).
    rewrite forallb_forall in Hep. specialize (Hep act_pair Hpair).
    rewrite forallb_forall in Hep. now apply Hep. }
  unfold episode_record, Conversations.convo_record. cbn [wf_value map fst snd forallb].
  rewrite !andb_true_r. apply andb_true_iff. split; [reflexivity | ].
  apply andb_true_iff. split.
  - apply forallb_forall. intros v Hv. apply in_map_iff in Hv as (new_pair & <- & Hp).
    cbn [wf_value]. apply forallb_forall. intros u Hu.
    apply in_map_iff in Hu as (t & <- & Ht). apply Hturn. right. eauto.
  - apply forallb_forall. intros u Hu. apply in_map_iff in Hu as (t & <- & Ht).
    apply Hturn. now left.
Qed.

Lemma records_written_wf (splitext : string -> string * string)
    (context_ids : list value) (save_keys to_save : string)
    (act_list : list (list (list dict))) :
  wf_act_list act_list = true ->
  Forall (fun r => wf_value r = true)
         (records_written splitext context_ids save_keys to_save act_list).
Proof.
  intros Hwf. unfold records_written. apply Forall_map, Forall_forall.
  intros ep Hep. apply list_elem_of_In, filter_In in Hep as [Hep _].
  apply episode_record_wf. unfold wf_act_list in Hwf.
  rewrite forallb_forall in Hwf. now apply Hwf.
Qed.

(** C4: with a JSON library that reads back what it writes, for every
    act list, loading the conversation file written by
    [save_conversations] returns the written records; their dialog turns
    are, in order, the projections of the non-context turns of the input;
    each non-context turn comes back with the same id and the same values
    for the fields named in [save_keys], and with no other field. *)
Theorem save_then_load_roundtrip {E : Type}
    (splitext : string -> string * string) (dumps : value -> string)
    (loads : string -> E + value)
    (now : string) (act_list : list (list (list dict))) (datapath : string)
    (opt : value) (save_keys context_ids : string) (self_chat : value)
    (kwargs : dict) (w : world) :
  let to_save := Conversations._get_path splitext datapath in
  let ctx := map VStr (split_commas context_ids) in
  let records := records_written splitext ctx save_keys to_save act_list in
  let w' := snd (Conversations.save_conversations (E := E) splitext dumps now
                   act_list datapath opt save_keys context_ids self_chat kwargs w) in
  json_codec dumps loads ->
  wf_act_list act_list = true ->
  Conversations._load_conversations loads to_save w' = (inr records, w')
  /\ concat (map dialog_turns records) =
     map VDict (map (turn_record save_keys)
                    (List.filter (is_dialog ctx) (concat (concat act_list))))
  /\ (forall ex, In ex (concat (concat act_list)) -> is_context ctx ex = false ->
        exists t,
          In (VDict t) (concat (map dialog_turns records))
          /\ dict_get t "id" = Some (turn_id ex)
          /\ (forall k v, In k (split_commas save_keys) ->
                dict_get ex k = Some v -> dict_get t k = Some v)
          /\ (forall k, In k (dict_keys t) ->
                In k (split_commas save_keys) \/ k = "id")).
Proof.
  intros to_save ctx records w' Hcodec Hwf.
  apply save_then_load_records.
  pose proof (records_written_wf splitext ctx save_keys to_save act_list Hwf) as Hrec.
  eapply Forall_impl; [exact Hrec | ].
  intros r Hr. now apply Hcodec.
Qed.

Lemma save_then_load_roundtrip_witness :
  fst (Conversations._load_conversations PyLib.loads "data/x.jsonl"
         (snd (Conversations.save_conversations (E := string) PyLib.splitext
                 PyLib.dumps "2020-01-01 00:00:00" [example_episode; []] "data/x.txt"
                 (VDict []) Conversations.default_save_keys
                 Conversations.default_context_ids (VBool false) [] (World ∅ [])))) =
  inr (records_written PyLib.splitext [VStr "context"] Conversations.default_save_keys
         "data/x.jsonl" [example_episode; []]).
Proof.
  destruct (save_then_load_roundtrip (E := string) PyLib.splitext PyLib.dumps
              PyLib.loads "2020-01-01 00:00:00" [example_episode; []] "data/x.txt"
              (VDict []) Conversations.default_save_keys
              Conversations.default_context_ids (VBool false) [] (World ∅ []))
    as (Hload & _).
  - exact pylib_json_codec.
  - vm_compute. reflexivity.
  - change (Conversations._get_path PyLib.splitext "data/x.txt") with "data/x.jsonl"
      in Hload.
    rewrite Hload. reflexivity.
Defined.

(** * Further properties *)

(** ** Metadata: loading *)

Section metadata_load.
Context {E : Type}.
Variable splitext : string -> string * string.
Variable loads : string -> E + value.

Lemma metadata_load_reads (datapath s : string) (w : world) :
  fs w !! Metadata._get_path splitext datapath = Some s ->
  Metadata._load splitext loads datapath w =
  match loads s with
  | inl e => (inl (JSONDecodeError e), w)
  | inr metadata =>
      (date <- py_subscript metadata "date" ;;
       opt <- py_subscript metadata "opt" ;;
       self_chat <- py_subscript metadata "self_chat" ;;
       speakers <- py_subscript metadata "speakers" ;;
       version_num <- py_subscript metadata "version" ;;
       ret (Metadata.Build (Metadata._get_path splitext datapath) date opt self_chat
              speakers version_num
              (extra_items (match metadata with VDict d => d | _ => [] end)))) w
  end.
Proof.
  intros Hfile. unfold Metadata._load. unfold bind at 1. unfold isfile.
  rewrite Hfile. rewrite bool_decide_true by eauto. cbn [negb].
  unfold bind at 1. unfold read_file. rewrite Hfile. cbn [default from_option id].
  destruct (loads s) as [e | metadata]; reflexivity.
Qed.

Lemma metadata_load_dict (datapath s : string) (d : dict)
    (date opt self_chat speakers version_num : value) (w : world) :
  fs w !! Metadata._get_path splitext datapath = Some s ->
  loads s = inr (VDict d) ->
  dict_get d "date" = Some date -> dict_get d "opt" = Some opt ->
  dict_get d "self_chat" = Some self_chat -> dict_get d "speakers" = Some speakers ->
  dict_get d "version" = Some version_num ->
  Metadata._load splitext loads datapath w =
  (inr (Metadata.Build (Metadata._get_path splitext datapath) date opt self_chat
          speakers version_num (extra_items d)), w).
Proof.
  intros Hfile Hloads Hdate Hopt Hsc Hsp Hver.
  rewrite (metadata_load_reads datapath s w Hfile), Hloads.
  unfold bind, py_subscript. now rewrite Hdate, Hopt, Hsc, Hsp, Hver.
Qed.
End metadata_load.

Lemma extra_items_app (d1 d2 : dict) :
  extra_items (d1 ++ d2) =
  fold_left
    (fun extra kv =>
       if existsb (String.eqb (fst kv)) Metadata.required_keys then extra
       else dict_set extra (fst kv) (snd kv))
    d2 (extra_items d1).
Proof. unfold extra_items. apply fold_left_app. Qed.

Lemma extra_items_keys (d : dict) (k : string) :
  In k (dict_keys (extra_items d)) <->
  In k (dict_keys d) /\ ~ In k Metadata.required_keys.
Proof.
  induction d as [ | [k' v] d IH ] using rev_ind.
  - cbn. tauto.
  - rewrite extra_items_app. cbn [fold_left fst snd].
    unfold dict_keys at 2. rewrite map_app, in_app_iff. cbn [map fst In].
    fold (dict_keys d).
    destruct (existsb (String.eqb k') Metadata.required_keys) eqn:Hreq.
    + apply existsb_eqb_In in Hreq. rewrite IH. split; [tauto | ].
      intros [[H | [-> | []]] Hk]; [tauto | contradiction].
    + rewrite dict_keys_set_In, IH.
      assert (Hk' : ~ In k' Metadata.required_keys).
      { intros Hin. apply existsb_eqb_In in Hin. congruence. }
      split.
      * intros [H | ->]; [tauto | ]. split; [right; now left | exact Hk'].
      * intros [[H | [-> | []]] Hk]; [tauto | now right].
Qed.

Lemma extra_items_fresh (d acc : dict) :
  NoDup (dict_keys acc ++ dict_keys (optional_items d)) ->
  fold_left
    (fun extra kv =>
       if existsb (String.eqb (fst kv)) Metadata.required_keys then extra
       else dict_set extra (fst kv) (snd kv))
    d acc = acc ++ optional_items d.
Proof.
  revert acc. induction d as [ | [k v] d IH ]; intros acc Hnd.
  - cbn. now rewrite app_nil_r.
  - cbn [fold_left fst snd]. unfold optional_items in *. cbn [List.filter fst] in *.
    destruct (existsb (String.eqb k) Metadata.required_keys); cbn [negb] in *.
    + now apply IH.
    + cbn [dict_keys map fst] in Hnd. fold (dict_keys) in Hnd.
      assert (Hfresh : ~ In k (map fst acc)).
      { apply NoDup_app in Hnd as (_ & Hdisj & _). intros Hin.
        apply (Hdisj k); [now apply list_elem_of_In | ]. apply list_elem_of_In. now left. }
      rewrite dict_set_fresh by exact Hfresh. rewrite IH.
      * now rewrite <- app_assoc.
      * unfold dict_keys in *. rewrite map_app, <- app_assoc. exact Hnd.
Qed.

(** On a record with distinct keys, [extra_data] is the record without its
    standard fields, in the record's order. *)
Lemma extra_items_filter (d : dict) :
  NoDup (dict_keys d) -> extra_items d = optional_items d.
Proof.
  intros Hnd. unfold extra_items. rewrite extra_items_fresh; [reflexivity | ].
  cbn [dict_keys map app]. unfold optional_items, dict_keys in *.
  induction d as [ | [k v] d IH ]; [constructor | ].
  cbn [map fst] in Hnd. apply NoDup_cons in Hnd as [Hk Hnd].
  cbn [List.filter fst]. destruct (negb _); [ | now apply IH ].
  cbn [map fst]. apply NoDup_cons. split; [ | now apply IH ].
  intros Hin. apply Hk. apply list_elem_of_In in Hin. apply list_elem_of_In.
  apply in_map_iff in Hin as (kv & Hkv & Hin). apply filter_In in Hin as [Hin _].
  apply in_map_iff. eauto.
Qed.

Lemma read_order_split (present later : list string) (k : string) :
  read_order = present ++ k :: later ->
  (present = [] /\ k = "date")
  \/ (present = ["date"] /\ k = "opt")
  \/ (present = ["date"; "opt"] /\ k = "self_chat")
  \/ (present = ["date"; "opt"; "self_chat"] /\ k = "speakers")
  \/ (present = ["date"; "opt"; "self_chat"; "speakers"] /\ k = "version").
Proof.
  unfold read_order. intros H.
  destruct present as [ | k1 [ | k2 [ | k3 [ | k4 [ | k5 present ] ] ] ] ];
    cbn [app] in H; inversion H; subst; auto 10.
  destruct present; discriminate.
Qed.

(** X1: when the metadata file exists, [Metadata._load] fails in three
    ways, each leaving the world untouched: a document the JSON decoder
    rejects raises the decoder's error; a document that is not an object
    raises [TypeError]; an object lacking one of [date], [opt],
    [self_chat], [speakers], [version] raises [KeyError] for the first of
    them, in that order, that is missing. *)
Theorem metadata_load_failures {E : Type}
    (splitext : string -> string * string) (loads : string -> E + value)
    (datapath s : string) (w : world) :
  fs w !! Metadata._get_path splitext datapath = Some s ->
  (forall e, loads s = inl e ->
     Metadata._load splitext loads datapath w = (inl (JSONDecodeError e), w))
  /\ (forall v, loads s = inr v -> (forall d, v <> VDict d) ->
        Metadata._load splitext loads datapath w = (inl TypeError, w))
  /\ (forall d present k later,
        loads s = inr (VDict d) ->
        read_order = present ++ k :: later ->
        (forall k', In k' present -> dict_get d k' <> None) ->
        dict_get d k = None ->
        Metadata._load splitext loads datapath w = (inl (KeyError k), w)).
Proof.
  intros Hfile. split; [ | split ].
  - intros e He. now rewrite (metadata_load_reads splitext loads datapath s w Hfile), He.
  - intros v Hv Hnot. rewrite (metadata_load_reads splitext loads datapath s w Hfile), Hv.
    destruct v; try reflexivity. now destruct (Hnot d).
  - intros d present k later Hd Horder Hpresent Hk.
    rewrite (metadata_load_reads splitext loads datapath s w Hfile), Hd.
    apply read_order_split in Horder.
    unfold bind, py_subscript.
    destruct Horder as [[-> ->] | [[-> ->] | [[-> ->] | [[-> ->] | [-> ->]]]]];
      repeat match goal with
             | |- context [dict_get d ?key] =>
                 lazymatch key with
                 | k => fail
                 | _ =>
                     let Hv := fresh "Hv" in
                     destruct (dict_get d key) eqn:Hv;
                     [ | exfalso; apply (Hpresent key); [cbn; tauto | exact Hv] ]
                 end
             end;
      rewrite ?Hk; reflexivity.
Qed.

Lemma metadata_load_failures_witness :
  Metadata._load PyLib.splitext PyLib.loads "x.jsonl"
    (World {[ "x.metadata" := PyLib.dumps (VDict [("date", VStr "d"); ("version", VStr "0.1")]) ]} []) =
  (inl (KeyError "opt"),
   World {[ "x.metadata" := PyLib.dumps (VDict [("date", VStr "d"); ("version", VStr "0.1")]) ]} []).
Proof.
  destruct (metadata_load_failures PyLib.splitext PyLib.loads "x.jsonl"
              (PyLib.dumps (VDict [("date", VStr "d"); ("version", VStr "0.1")]))
              (World {[ "x.metadata" := PyLib.dumps (VDict [("date", VStr "d"); ("version", VStr "0.1")]) ]} []))
    as (_ & _ & Hkey).
  - vm_compute. reflexivity.
  - apply (Hkey [("date", VStr "d"); ("version", VStr "0.1")] ["date"] "opt"
                ["self_chat"; "speakers"; "version"]).
    + vm_compute. reflexivity.
    + reflexivity.
    + intros k' [<- | []]. discriminate.
    + reflexivity.
Defined.

(** X2: loading a metadata file whose document is an object with distinct
    keys that holds the five standard fields returns exactly those fields,
    and [extra_data] is the rest of the object: every other entry, in
    file order, and none of the standard ones. *)
Theorem metadata_load_keeps_other_entries {E : Type}
    (splitext : string -> string * string) (loads : string -> E + value)
    (datapath s : string) (d : dict)
    (date opt self_chat speakers version_num : value) (w : world) :
  fs w !! Metadata._get_path splitext datapath = Some s ->
  loads s = inr (VDict d) ->
  NoDup (dict_keys d) ->
  dict_get d "date" = Some date -> dict_get d "opt" = Some opt ->
  dict_get d "self_chat" = Some self_chat -> dict_get d "speakers" = Some speakers ->
  dict_get d "version" = Some version_num ->
  Metadata._load splitext loads datapath w =
    (inr (Metadata.Build (Metadata._get_path splitext datapath) date opt self_chat
            speakers version_num (optional_items d)), w)
  /\ (forall k, In k (dict_keys (optional_items d)) <->
                In k (dict_keys d) /\ ~ In k Metadata.required_keys)
  /\ (forall k v, ~ In k Metadata.required_keys ->
        dict_get d k = Some v -> dict_get (optional_items d) k = Some v).
Proof.
  intros Hfile Hloads Hnd Hdate Hopt Hsc Hsp Hver.
  rewrite <- (extra_items_filter d Hnd). split; [ | split ].
  - now apply metadata_load_dict with (s := s).
  - intros k. apply extra_items_keys.
  - intros k v Hk Hv. rewrite (extra_items_filter d Hnd). clear - Hk Hv.
    unfold optional_items. induction d as [ | [k' v'] d IH ]; [discriminate | ].
    cbn [dict_get] in Hv. cbn [List.filter fst].
    destruct (String.eqb k' k) eqn:Heq.
    + apply String.eqb_eq in Heq. subst k'. injection Hv as ->.
      assert (Hreq : existsb (String.eqb k) Metadata.required_keys = false).
      { destruct (existsb _ _) eqn:Hex; [ | reflexivity ].
        apply existsb_eqb_In in Hex. contradiction. }
      rewrite Hreq. cbn [negb dict_get]. now rewrite String.eqb_refl.
    + destruct (negb _); [cbn [dict_get]; rewrite Heq | ]; now apply IH.
Qed.

Lemma metadata_load_keeps_other_entries_witness :
  Metadata._load PyLib.splitext PyLib.loads "x.jsonl"
    (World {[ "x.metadata" :=
                PyLib.dumps (VDict (standard_fields "d" (VDict []) (VBool false) (VList [])
                                      ++ [("task", VStr "chat")])) ]} []) =
  (inr (Metadata.Build "x.metadata" (VStr "d") (VDict []) (VBool false) (VList [])
          (VStr "0.1") [("task", VStr "chat")]),
   World {[ "x.metadata" :=
                PyLib.dumps (VDict (standard_fields "d" (VDict []) (VBool false) (VList [])
                                      ++ [("task", VStr "chat")])) ]} []).
Proof.
  destruct (metadata_load_keeps_other_entries PyLib.splitext PyLib.loads "x.jsonl"
              (PyLib.dumps (VDict (standard_fields "d" (VDict []) (VBool false) (VList [])
                                     ++ [("task", VStr "chat")])))
              (standard_fields "d" (VDict []) (VBool false) (VList [])
                 ++ [("task", VStr "chat")])
              (VStr "d") (VDict []) (VBool false) (VList []) (VStr "0.1")
              (World {[ "x.metadata" :=
                PyLib.dumps (VDict (standard_fields "d" (VDict []) (VBool false) (VList [])
                                      ++ [("task", VStr "chat")])) ]} []))
    as (Hload & _);
    [ vm_compute; reflexivity | vm_compute; reflexivity
    | apply (bool_decide_unpack _); vm_compute; exact I
    | reflexivity | reflexivity | reflexivity | reflexivity | reflexivity
    | exact Hload ].
Defined.

(** ** Metadata: saving *)

Lemma metadata_record_fold (now : string) (opt self_chat speakers : value)
    (kwargs : dict) :
  Metadata.metadata_record now opt self_chat speakers kwargs =
  fold_left (fun m kv => dict_set m (fst kv) (snd kv)) kwargs
            (standard_fields now opt self_chat speakers).
Proof. reflexivity. Qed.

Lemma fold_set_snoc (kwargs base : dict) (k : string) (v : value) :
  fold_left (fun m kv => dict_set m (fst kv) (snd kv)) (kwargs ++ [(k, v)]) base =
  dict_set (fold_left (fun m kv => dict_set m (fst kv) (snd kv)) kwargs base) k v.
Proof. now rewrite fold_left_app. Qed.

Lemma fold_set_get (kwargs base : dict) (k : string) :
  dict_get (fold_left (fun m kv => dict_set m (fst kv) (snd kv)) kwargs base) k =
  match dict_get (rev kwargs) k with
  | Some v => Some v
  | None => dict_get base k
  end.
Proof.
  induction kwargs as [ | [k' v'] kwargs IH ] using rev_ind; [reflexivity | ].
  rewrite fold_set_snoc, rev_app_distr. cbn [rev app dict_get].
  destruct (String.eqb k' k) eqn:Hk.
  - apply String.eqb_eq in Hk. subst k'. apply dict_get_set_eq.
  - apply String.eqb_neq in Hk. now rewrite dict_get_set_ne.
Qed.

Lemma fold_set_NoDup (kwargs base : dict) :
  NoDup (dict_keys base) ->
  NoDup (dict_keys (fold_left (fun m kv => dict_set m (fst kv) (snd kv)) kwargs base)).
Proof.
  revert base. induction kwargs as [ | kv kwargs IH ]; intros base Hnd; [exact Hnd | ].
  cbn [fold_left]. now apply IH, dict_keys_set_NoDup.
Qed.

Lemma fold_set_keys_prefix (kwargs base : dict) :
  exists more,
    dict_keys (fold_left (fun m kv => dict_set m (fst kv) (snd kv)) kwargs base) =
    dict_keys base ++ more.
Proof.
  revert base. induction kwargs as [ | kv kwargs IH ]; intros base.
  - exists []. now rewrite app_nil_r.
  - cbn [fold_left]. destruct (IH (dict_set base (fst kv) (snd kv))) as [more ->].
    rewrite dict_keys_set. destruct (existsb _ _); [eauto | ].
    rewrite <- app_assoc. eauto.
Qed.

Lemma fold_set_fresh (kwargs base : dict) :
  NoDup (dict_keys base ++ dict_keys kwargs) ->
  fold_left (fun m kv => dict_set m (fst kv) (snd kv)) kwargs base = base ++ kwargs.
Proof.
  revert base. induction kwargs as [ | [k v] kwargs IH ]; intros base Hnd.
  - cbn. now rewrite app_nil_r.
  - cbn [fold_left fst snd]. cbn [dict_keys map fst] in Hnd.
    assert (Hfresh : ~ In k (map fst base)).
    { apply NoDup_app in Hnd as (_ & Hdisj & _). intros Hin.
      apply (Hdisj k); [now apply list_elem_of_In | ]. apply list_elem_of_In. now left. }
    rewrite dict_set_fresh by exact Hfresh. rewrite IH.
    + now rewrite <- app_assoc.
    + unfold dict_keys in *. rewrite map_app, <- app_assoc. exact Hnd.
Qed.

Lemma save_metadata_run {E : Type} (splitext : string -> string * string)
    (dumps : value -> string) (now datapath : string)
    (opt self_chat speakers : value) (kwargs : dict) (w : world) :
  Metadata.save_metadata (E := E) splitext dumps now datapath opt self_chat speakers
    kwargs w =
  (inr tt,
   World (<[Metadata._get_path splitext datapath :=
             dumps (VDict (Metadata.metadata_record now opt self_chat speakers kwargs))]>
            (fs w))
         (stdout w ++ ["[ Writing metadata to file "
                       +:+ Metadata._get_path splitext datapath +:+ " ]"])).
Proof. reflexivity. Qed.

(** X3: the record [save_metadata] writes starts with [date], [opt],
    [self_chat], [speakers], [version] in that order and lists no key
    twice; an extra keyword argument overrides the standard field of the
    same name (so a caller can replace [date] or [version]), and every
    other standard field keeps its value. *)
Theorem save_metadata_extra_fields_override {E : Type}
    (splitext : string -> string * string) (dumps : value -> string)
    (now datapath : string) (opt self_chat speakers : value) (kwargs : dict)
    (w : world) :
  let record := Metadata.metadata_record now opt self_chat speakers kwargs in
  let w' := snd (Metadata.save_metadata (E := E) splitext dumps now datapath opt
                   self_chat speakers kwargs w) in
  fs w' !! Metadata._get_path splitext datapath = Some (dumps (VDict record))
  /\ NoDup (dict_keys record)
  /\ firstn 5 (dict_keys record) = read_order
  /\ (forall k v, dict_get (rev kwargs) k = Some v -> dict_get record k = Some v)
  /\ (forall k, ~ In k (dict_keys kwargs) ->
        dict_get record k = dict_get (standard_fields now opt self_chat speakers) k).
Proof.
  intros record w'. split; [ | split; [ | split; [ | split ] ] ].
  - unfold w'. rewrite save_metadata_run. cbn [snd fs]. apply lookup_insert_eq.
  - unfold record. rewrite metadata_record_fold. apply fold_set_NoDup.
    apply (bool_decide_unpack _). vm_compute. exact I.
  - unfold record. rewrite metadata_record_fold.
    destruct (fold_set_keys_prefix kwargs (standard_fields now opt self_chat speakers))
      as [more ->].
    reflexivity.
  - intros k v Hk. unfold record. now rewrite metadata_record_fold, fold_set_get, Hk.
  - intros k Hk. unfold record. rewrite metadata_record_fold, fold_set_get.
    destruct (dict_get (rev kwargs) k) as [v | ] eqn:Hget; [ | reflexivity ].
    exfalso. apply Hk. clear - Hget. unfold dict_keys.
    rewrite in_rev, <- map_rev.
    induction (rev kwargs) as [ | [k' v'] l IH ]; [discriminate | ].
    cbn [dict_get] in Hget. cbn [map fst In].
    destruct (String.eqb k' k) eqn:Heq; [left; now apply String.eqb_eq | right; auto].
Qed.

Lemma optional_items_all (kwargs : dict) :
  (forall k, In k (dict_keys kwargs) -> ~ In k Metadata.required_keys) ->
  optional_items kwargs = kwargs.
Proof.
  unfold optional_items. induction kwargs as [ | [k v] kwargs IH ]; intros Hkeys;
    [reflexivity | ].
  cbn [List.filter fst].
  assert (Hreq : existsb (String.eqb k) Metadata.required_keys = false).
  { destruct (existsb _ _) eqn:Hex; [ | reflexivity ].
    apply existsb_eqb_In in Hex. exfalso. apply (Hkeys k); [now left | exact Hex]. }
  rewrite Hreq. cbn [negb]. f_equal. apply IH.
  intros k' Hk'. apply Hkeys. now right.
Qed.

Lemma values_wf_app (d1 d2 : dict) :
  values_wf (d1 ++ d2) = values_wf d1 && values_wf d2.
Proof. unfold values_wf. apply forallb_app. Qed.

Section metadata_roundtrip.
Context {E : Type}.
Variable splitext : string -> string * string.
Variable dumps : value -> string.
Variable loads : string -> E + value.
Variables (now : string) (opt self_chat speakers : value) (kwargs : dict).

Hypothesis Hcodec : json_codec dumps loads.
Hypothesis Hopt : wf_value opt = true.
Hypothesis Hself_chat : wf_value self_chat = true.
Hypothesis Hspeakers : wf_value speakers = true.
Hypothesis Hkwargs : values_wf kwargs = true.
Hypothesis Hdistinct : NoDup (dict_keys kwargs).
Hypothesis Hother : forall k, In k (dict_keys kwargs) -> ~ In k Metadata.required_keys.

Lemma metadata_record_app :
  Metadata.metadata_record now opt self_chat speakers kwargs =
  standard_fields now opt self_chat speakers ++ kwargs.
Proof.
  rewrite metadata_record_fold. apply fold_set_fresh.
  apply NoDup_app. split; [ | split; [ | exact Hdistinct ] ].
  - apply (bool_decide_unpack _). vm_compute. exact I.
  - intros k Hstd Hkw. apply list_elem_of_In in Hstd, Hkw.
    apply (Hother k Hkw). cbn in Hstd. cbn. tauto.
Qed.

Lemma metadata_record_wf :
  wf_value (VDict (Metadata.metadata_record now opt self_chat speakers kwargs)) = true.
Proof.
  cbn [wf_value]. apply andb_true_iff. split.
  - apply bool_decide_eq_true. rewrite metadata_record_fold. apply fold_set_NoDup.
    apply (bool_decide_unpack _). vm_compute. exact I.
  - fold (values_wf (Metadata.metadata_record now opt self_chat speakers kwargs)).
    rewrite metadata_record_app, values_wf_app, Hkwargs.
    unfold values_wf, standard_fields. cbn [forallb snd wf_value].
    now rewrite Hopt, Hself_chat, Hspeakers.
Qed.

(** Loading the metadata file once it holds the record of these
    arguments. *)
Lemma metadata_load_of_record (datapath : string) (w : world) :
  fs w !! Metadata._get_path splitext datapath =
    Some (dumps (VDict (Metadata.metadata_record now opt self_chat speakers kwargs))) ->
  Metadata._load splitext loads datapath w =
  (inr (Metadata.Build (Metadata._get_path splitext datapath) (VStr now) opt self_chat
          speakers (VStr Metadata.version) kwargs), w).
Proof.
  intros Hfile.
  destruct (Hcodec _ metadata_record_wf) as [Hloads _].
  rewrite (metadata_load_dict splitext loads datapath _ _ (VStr now) opt self_chat
             speakers (VStr Metadata.version) w Hfile Hloads);
    try (rewrite metadata_record_app; reflexivity).
  do 2 f_equal. f_equal. rewrite extra_items_filter.
  - rewrite metadata_record_app. unfold optional_items.
    rewrite List.filter_app. cbn [List.filter standard_fields fst existsb negb].
    cbn [app]. now apply optional_items_all.
  - rewrite metadata_record_fold. apply fold_set_NoDup.
    apply (bool_decide_unpack _). vm_compute. exact I.
Qed.
End metadata_roundtrip.

(** X4: with a JSON library that reads back what it writes, loading the
    metadata file that [save_metadata] wrote for the same data path
    returns the saved fields: the clock reading as [date], [opt],
    [self_chat], [speakers], version 0.1, and the extra keyword arguments
    as [extra_data], in order; this holds when the extra arguments carry
    none of the five standard names. *)
Theorem metadata_save_then_load {E : Type}
    (splitext : string -> string * string) (dumps : value -> string)
    (loads : string -> E + value)
    (now datapath : string) (opt self_chat speakers : value) (kwargs : dict)
    (w : world) :
  let w' := snd (Metadata.save_metadata (E := E) splitext dumps now datapath opt
                   self_chat speakers kwargs w) in
  json_codec dumps loads ->
  wf_value opt = true -> wf_value self_chat = true -> wf_value speakers = true ->
  values_wf kwargs = true ->
  NoDup (dict_keys kwargs) ->
  (forall k, In k (dict_keys kwargs) -> ~ In k Metadata.required_keys) ->
  Metadata._load splitext loads datapath w' =
  (inr (Metadata.Build (Metadata._get_path splitext datapath) (VStr now) opt self_chat
          speakers (VStr "0.1") kwargs), w').
Proof.
  intros w' Hcodec Hopt Hsc Hsp Hkw Hnd Hother.
  apply (metadata_load_of_record splitext dumps loads now opt self_chat speakers kwargs
           Hcodec Hopt Hsc Hsp Hkw Hnd Hother).
  unfold w'. rewrite save_metadata_run. cbn [snd fs]. apply lookup_insert_eq.
Qed.

Lemma metadata_save_then_load_witness :
  fst (Metadata._load PyLib.splitext PyLib.loads "data/x.jsonl"
         (snd (Metadata.save_metadata (E := string) PyLib.splitext PyLib.dumps
                 "2020-01-01 00:00:00" "data/x.jsonl" (VDict [("task", VStr "chat")])
                 (VBool false) (VList [VStr "speaker_1"]) [("seed", VInt 42)]
                 (World ∅ [])))) =
  inr (Metadata.Build "data/x.metadata" (VStr "2020-01-01 00:00:00")
         (VDict [("task", VStr "chat")]) (VBool false) (VList [VStr "speaker_1"])
         (VStr "0.1") [("seed", VInt 42)]).
Proof.
  rewrite (metadata_save_then_load (E := string) PyLib.splitext PyLib.dumps PyLib.loads
             "2020-01-01 00:00:00" "data/x.jsonl" (VDict [("task", VStr "chat")])
             (VBool false) (VList [VStr "speaker_1"]) [("seed", VInt 42)] (World ∅ []));
    [ reflexivity | exact pylib_json_codec | reflexivity | reflexivity | reflexivity
    | reflexivity | apply (bool_decide_unpack _); vm_compute; exact I | ].
  intros k [<- | []] Hreq. cbn in Hreq.
  repeat (destruct Hreq as [Hreq | Hreq]; [discriminate | ]). exact Hreq.
Defined.

(** ** Conversations: construction *)

Section construction.
Context {E : Type}.
Variable splitext : string -> string * string.
Variable loads : string -> E + value.

Lemma py_subscript_world (v : value) (k : string) (w : world) :
  snd (py_subscript (E := E) v k w) = w.
Proof.
  unfold py_subscript. destruct v; try reflexivity.
  now destruct (dict_get d k).
Qed.

Lemma bind_world {A B : Type} (m : M E A) (k : A -> M E B) (w : world) :
  snd (m w) = w -> (forall a, snd (k a w) = w) -> snd (bind m k w) = w.
Proof.
  intros Hm Hk. unfold bind. destruct (m w) as [[e | a] w1]; cbn [snd] in *; subst w1;
    [reflexivity | apply Hk].
Qed.

(** [Metadata._load] only reads. *)
Lemma metadata_load_world (datapath : string) (w : world) :
  snd (Metadata._load splitext loads datapath w) = w.
Proof.
  unfold Metadata._load. apply bind_world; [reflexivity | intros b].
  destruct (negb b); [reflexivity | ].
  apply bind_world; [reflexivity | intros s].
  destruct (loads s) as [e | metadata]; [reflexivity | ].
  apply bind_world; [apply py_subscript_world | intros v1].
  apply bind_world; [apply py_subscript_world | intros v2].
  apply bind_world; [apply py_subscript_world | intros v3].
  apply bind_world; [apply py_subscript_world | intros v4].
  apply bind_world; [apply py_subscript_world | intros v5].
  reflexivity.
Qed.


Lemma parse_lines_inv (lines : list string) (acc convs : list value) (w w' : world) :
  Conversations.parse_lines loads lines acc w = (inr convs, w') ->
  exists cs, parses loads lines cs /\ convs = acc ++ cs /\ w' = w.
Proof.
  revert acc. induction lines as [ | line lines IH ]; intros acc Hrun.
  - cbn in Hrun. injection Hrun as <- <-. exists []. split; [constructor | ].
    now rewrite app_nil_r.
  - cbn [Conversations.parse_lines] in Hrun.
    destruct (loads line) as [e | c] eqn:Hline; [discriminate | ].
    destruct (IH _ Hrun) as (cs & Hcs & -> & ->).
    exists (c :: cs). split; [now constructor | ]. now rewrite <- app_assoc.
Qed.

Lemma load_metadata_result (datapath : string) (w : world) :
  (exists m, Metadata._load splitext loads datapath w = (inr m, w) /\
             Conversations._load_metadata splitext loads datapath w = (inr (Some m), w))
  \/ (exists msg, Metadata._load splitext loads datapath w = (inl (RuntimeError msg), w) /\
        Conversations._load_metadata splitext loads datapath w =
        (inr None,
         World (fs w)
               (stdout w ++ ["Metadata does not exist. Please double check your datapath."])))
  \/ (exists e, (forall msg, e <> RuntimeError msg) /\
        Metadata._load splitext loads datapath w = (inl e, w) /\
        Conversations._load_metadata splitext loads datapath w = (inl e, w)).
Proof.
  pose proof (metadata_load_world datapath w) as Hw.
  unfold Conversations._load_metadata, catch_RuntimeError, bind.
  destruct (Metadata._load splitext loads datapath w) as [[e | m] w1].
  - cbn [snd] in Hw. subst w1. destruct e as [msg | e | k | | ].
    + right. left. exists msg. split; reflexivity.
    + right. right. exists (JSONDecodeError e).
      split; [intros msg [=] | split; reflexivity].
    + right. right. exists (KeyError k). split; [intros msg [=] | split; reflexivity].
    + right. right. exists TypeError. split; [intros msg [=] | split; reflexivity].
    + right. right. exists IndexError. split; [intros msg [=] | split; reflexivity].
  - cbn [snd] in Hw. subst w1. left. exists m. split; reflexivity.
Qed.
End construction.

Lemma parses_nth_error {E : Type} (loads : string -> E + value)
    (lines : list string) (convs : list value) (i : nat) (line : string) :
  parses loads lines convs -> nth_error lines i = Some line ->
  exists c, nth_error convs i = Some c /\ loads line = inr c.
Proof.
  intros Hp. revert i. induction Hp as [ | l c lines convs Hl _ IH ]; intros i Hi.
  - destruct i; discriminate.
  - destruct i as [ | i ]; cbn in Hi.
    + injection Hi as ->. exists c. split; [reflexivity | exact Hl].
    + apply IH, Hi.
Qed.

Lemma parses_length {E : Type} (loads : string -> E + value)
    (lines : list string) (convs : list value) :
  parses loads lines convs -> length convs = length lines.
Proof. intros Hp. symmetry. exact (Forall2_length _ _ _ Hp). Qed.

(** X5: when the constructor returns over an existing file, the archive
    holds one conversation per line of the file, in file order: the count
    is the number of lines, indexing at [i] gives the parse of line [i],
    the cursor is at 0, and no file was changed. *)
Theorem init_holds_one_conversation_per_line {E : Type}
    (splitext : string -> string * string) (loads : string -> E + value)
    (datapath content : string) (self : Conversations.t) (w w' : world) :
  fs w !! datapath = Some content ->
  Conversations.__init__ splitext loads datapath w = (inr self, w') ->
  parses loads (splitlines content) (Conversations.conversations self)
  /\ Conversations.num_conversations self = Z.of_nat (length (splitlines content))
  /\ Conversations.iterator_idx self = 0%Z
  /\ fs w' = fs w
  /\ (forall i line, nth_error (splitlines content) i = Some line ->
        exists c, loads line = inr c /\
                  Conversations.__getitem__ (E := E) self (Z.of_nat i) w' = (inr c, w')).
Proof.
  intros Hfile Hinit. unfold Conversations.__init__ in Hinit.
  unfold bind at 1 in Hinit.
  rewrite (load_conversations_reads loads datapath content w Hfile) in Hinit.
  destruct (Conversations.parse_lines loads (splitlines content) [] w)
    as [[e | convs] w1] eqn:Hparse; [discriminate | ].
  apply parse_lines_inv in Hparse as (cs & Hcs & -> & ->). cbn [app] in Hinit.
  unfold bind at 1 in Hinit.
  assert (Hself : Conversations.conversations self = cs /\
                  Conversations.iterator_idx self = 0%Z /\ fs w' = fs w).
  { destruct (load_metadata_result splitext loads datapath w)
      as [(m & _ & Hm) | [(msg & _ & Hm) | (e & _ & _ & Hm)]];
      rewrite Hm in Hinit; [ | | discriminate ];
      cbv [ret] in Hinit; injection Hinit as <- <-; repeat split. }
  destruct Hself as (Hconvs & Hidx & Hfs). rewrite <- Hconvs in Hcs.
  split; [exact Hcs | ]. split.
  { unfold Conversations.num_conversations. now rewrite (parses_length loads _ _ Hcs). }
  split; [exact Hidx | ]. split; [exact Hfs | ].
  intros i line Hline.
  destruct (parses_nth_error loads _ _ i line Hcs Hline) as (c & Hc & Hload).
  exists c. split; [exact Hload | ].
  unfold Conversations.__getitem__. rewrite py_index_nonneg by lia.
  now rewrite Nat2Z.id, Hc.
Qed.

Lemma init_holds_one_conversation_per_line_witness :
  Conversations.num_conversations
    (Conversations.Build [VDict []; VList [VInt 1]] None 0) = 2%Z.
Proof.
  destruct (init_holds_one_conversation_per_line PyLib.splitext PyLib.loads "x.jsonl"
              ("{}" +:+ String "010" "[1]")
              (Conversations.Build [VDict []; VList [VInt 1]] None 0)
              (World {[ "x.jsonl" := "{}" +:+ String "010" "[1]" ]} [])
              (World {[ "x.jsonl" := "{}" +:+ String "010" "[1]" ]}
                     ["Metadata does not exist. Please double check your datapath."]))
    as (_ & Hnum & _).
  - vm_compute. reflexivity.
  - vm_compute. reflexivity.
  - rewrite Hnum. reflexivity.
Defined.



(** ** Conversations: the cursor over many calls *)

Lemma next_n_add {E : Type} (a b : nat) (self : Conversations.t) (w : world) :
  next_n (E := E) (a + b) self w =
  match next_n (E := E) a self w with
  | (inr (vs, self'), w1) =>
      match next_n (E := E) b self' w1 with
      | (inr (vs', self''), w2) => (inr (vs ++ vs', self''), w2)
      | (inl e, w2) => (inl e, w2)
      end
  | (inl e, w1) => (inl e, w1)
  end.
Proof.
  revert self w. induction a as [ | a IH ]; intros self w.
  - cbn [Nat.add next_n ret].
    destruct (next_n b self w) as [[e | [vs' self'']] w2]; reflexivity.
  - cbn [Nat.add]. rewrite !next_n_S. unfold bind at 1 3.
    destruct (Conversations.__next__ self w) as [[e | r] w1]; [reflexivity | ].
    unfold bind at 1 2. rewrite IH.
    destruct (next_n a (snd r) w1) as [[e | [vs self']] w2]; [reflexivity | ].
    cbv [ret]. cbn [fst snd].
    destruct (next_n b self' w2) as [[e | [vs' self'']] w3]; reflexivity.
Qed.

Section cycles.
Context {E : Type}.
Variable convs : list value.
Variable md : option Metadata.t.

Let start := Conversations.Build convs md 0.
Let cycle := convs ++ [VNone].

Lemma next_n_cycle (w : world) :
  next_n (E := E) (S (length convs)) start w =
  (inr (cycle, start), World (fs w) (stdout w ++ [end_notice])).
Proof.
  assert (Hfirst : next_n (E := E) (length convs) start w =
                   (inr (convs, Conversations.Build convs md (Z.of_nat (length convs))), w)).
  { unfold start. change 0%Z with (Z.of_nat 0).
    rewrite next_n_in_range by (cbn; lia). cbn [skipn Nat.add]. now rewrite firstn_all. }
  rewrite (next_n_snoc _ _ _ _ _ _ Hfirst).
  rewrite next_at_end by lia. reflexivity.
Qed.

Lemma next_n_cycles (q : nat) (w : world) :
  next_n (E := E) (q * S (length convs)) start w =
  (inr (concat (repeat cycle q), start),
   World (fs w) (stdout w ++ repeat end_notice q)).
Proof.
  revert w. induction q as [ | q IH ]; intros w.
  - cbn. rewrite app_nil_r. now destruct w.
  - cbn [Nat.mul]. rewrite next_n_add, next_n_cycle, IH. cbn [fs stdout repeat concat].
    now rewrite <- app_assoc.
Qed.
End cycles.

(** X7: iteration is periodic.  From a cursor at 0, [q] full rounds of
    [n + 1] calls followed by [r <= n] calls return, in order, [q] times
    the conversations followed by [None], then the first [r]
    conversations; they leave the cursor at [r] and print the
    end-of-conversations notice exactly [q] times. *)
Theorem next_is_periodic {E : Type} (convs : list value) (md : option Metadata.t)
    (q r : nat) (w : world) :
  r <= length convs ->
  next_n (E := E) (q * S (length convs) + r) (Conversations.Build convs md 0) w =
  (inr (concat (repeat (convs ++ [VNone]) q) ++ firstn r convs,
        Conversations.Build convs md (Z.of_nat r)),
   World (fs w) (stdout w ++ repeat end_notice q)).
Proof.
  intros Hr. rewrite next_n_add, next_n_cycles.
  change 0%Z with (Z.of_nat 0). rewrite next_n_in_range by (cbn; lia).
  reflexivity.
Qed.

Lemma next_is_periodic_witness :
  next_n (E := string) 7 (Conversations.Build [VInt 10; VInt 20] None 0) (World ∅ []) =
  (inr ([VInt 10; VInt 20; VNone; VInt 10; VInt 20; VNone; VInt 10],
        Conversations.Build [VInt 10; VInt 20] None 1),
   World ∅ [end_notice; end_notice]).
Proof.
  apply (next_is_periodic (E := string) [VInt 10; VInt 20] None 2 1 (World ∅ [])).
  cbn. lia.
Defined.

(** ** Conversations: what the save loops keep *)

Lemma filter_partition_length {A : Type} (f : A -> bool) (l : list A) :
  length (List.filter f l) + length (List.filter (fun x => negb (f x)) l) = length l.
Proof.
  induction l as [ | x l IH ]; [reflexivity | ].
  cbn [List.filter]. destruct (f x); cbn [negb length]; lia.
Qed.

(** X8: the loop over the pairs of an episode puts every turn in exactly
    one place, in input order: the dialog pairs, concatenated, are the
    records of the turns that are not context turns, the context list is
    the records of the context turns, so that their sizes add up to the
    number of turns of the episode; and no pair of the dialog is empty. *)
Theorem save_pair_loop_places_every_turn_once (context_ids : list value)
    (save_keys : string) (ep : list (list dict)) (speakers : list value) :
  let dialog := episode_dialog context_ids save_keys ep in
  let context := episode_context context_ids save_keys ep in
  fold_left (Conversations.save_pair context_ids save_keys) ep (speakers, [], []) =
    (fold_left see (speaker_ids context_ids (concat ep)) speakers, dialog, context)
  /\ concat dialog =
     map (turn_record save_keys) (List.filter (is_dialog context_ids) (concat ep))
  /\ context =
     map (turn_record save_keys) (List.filter (is_context context_ids) (concat ep))
  /\ length (concat dialog) + length context = length (concat ep)
  /\ Forall (fun new_pair => new_pair <> []) dialog
  /\ length dialog <= length ep.
Proof.
  intros dialog context. split; [ | split; [ | split; [ | split; [ | split ] ] ] ].
  - now rewrite fold_save_pair.
  - apply episode_dialog_turns.
  - reflexivity.
  - unfold dialog, context. rewrite episode_dialog_turns. unfold episode_context.
    rewrite !length_map. unfold is_dialog.
    pose proof (filter_partition_length (is_context context_ids) (concat ep)). lia.
  - unfold dialog, episode_dialog. apply Forall_forall. intros p Hp.
    apply list_elem_of_In, filter_In in Hp as [_ Hp]. now destruct p.
  - unfold dialog, episode_dialog.
    rewrite <- (length_map (pair_dialog context_ids save_keys) ep).
    apply List.filter_length_le.
Qed.


(** X10: [save_conversations] touches two files only.  Every path other
    than the conversation file and its metadata file holds after the call
    what it held before, and what the call prints starts with the notice
    naming the conversation file. *)
Theorem save_touches_only_its_two_files {E : Type}
    (splitext : string -> string * string) (dumps : value -> string)
    (now : string) (act_list : list (list (list dict))) (datapath : string)
    (opt : value) (save_keys context_ids : string) (self_chat : value)
    (kwargs : dict) (w : world) :
  let to_save := Conversations._get_path splitext datapath in
  let metadata_path := Metadata._get_path splitext to_save in
  let w' := snd (Conversations.save_conversations (E := E) splitext dumps now
                   act_list datapath opt save_keys context_ids self_chat kwargs w) in
  (forall p, p <> to_save -> p <> metadata_path -> fs w' !! p = fs w !! p)
  /\ (exists more,
        stdout w' =
        stdout w ++ (" [ Conversations saved to file: " +:+ to_save +:+ " ]") :: more).
Proof.
  intros to_save metadata_path w'. unfold w'.
  destruct (existsb (String.eqb "speakers") (dict_keys kwargs)) eqn:Hclash.
  - rewrite save_conversations_clash by exact Hclash. cbn [snd fs stdout]. split.
    + intros p Hp _. apply lookup_insert_ne. intros Heq. apply Hp. symmetry. exact Heq.
    + exists []. reflexivity.
  - rewrite save_conversations_run by exact Hclash. cbn [snd fs stdout]. split.
    + intros p Hp Hm.
      rewrite lookup_insert_ne by (intros Heq; apply Hm; symmetry; exact Heq).
      apply lookup_insert_ne. intros Heq. apply Hp. symmetry. exact Heq.
    + eexists. rewrite <- app_assoc. reflexivity.
Qed.

(** X11: an extra keyword argument named [speakers] collides with the one
    [save_conversations] passes itself: the call raises [TypeError] once
    the conversation file is written and announced, and the metadata file
    is left as it was. *)
Theorem save_with_speakers_argument_fails_late {E : Type}
    (splitext : string -> string * string) (dumps : value -> string)
    (now : string) (act_list : list (list (list dict))) (datapath : string)
    (opt : value) (save_keys context_ids : string) (self_chat : value)
    (kwargs : dict) (w : world) :
  let to_save := Conversations._get_path splitext datapath in
  let metadata_path := Metadata._get_path splitext to_save in
  let ctx := map VStr (split_commas context_ids) in
  let run := Conversations.save_conversations (E := E) splitext dumps now
               act_list datapath opt save_keys context_ids self_chat kwargs w in
  In "speakers" (dict_keys kwargs) ->
  fst run = inl TypeError
  /\ fs (snd run) !! to_save =
     Some (file_of_lines (map dumps (records_written splitext ctx save_keys to_save act_list)))
  /\ fs (snd run) !! metadata_path = fs w !! metadata_path
  /\ stdout (snd run) = stdout w ++ [" [ Conversations saved to file: " +:+ to_save +:+ " ]"].
Proof.
  intros to_save metadata_path ctx run Hin. apply existsb_eqb_In in Hin.
  unfold run. rewrite save_conversations_clash by exact Hin. cbn [fst snd fs stdout].
  split; [reflexivity | ]. split; [ | split; [ | reflexivity ] ].
  - rewrite lookup_insert_eq. now rewrite text_written_eq.
  - apply lookup_insert_ne. unfold metadata_path, to_save, Metadata._get_path,
      Conversations._get_path. intros Heq. revert Heq. apply jsonl_ne_metadata.
Qed.

Lemma save_with_speakers_argument_fails_late_witness :
  fst (Conversations.save_conversations (E := string) PyLib.splitext PyLib.dumps
         "2020-01-01 00:00:00" [example_episode] "data/x.txt" (VDict [])
         Conversations.default_save_keys Conversations.default_context_ids
         (VBool false) [("speakers", VList [])] (World ∅ [])) = inl TypeError.
Proof.
  apply (save_with_speakers_argument_fails_late (E := string) PyLib.splitext PyLib.dumps
           "2020-01-01 00:00:00" [example_episode] "data/x.txt" (VDict [])
           Conversations.default_save_keys Conversations.default_context_ids
           (VBool false) [("speakers", VList [])] (World ∅ [])).
  cbn. now left.
Defined.

(** ** Conversations: saving, then constructing *)

Lemma speakers_passed_wf (splitext : string -> string * string)
    (dumps : value -> string) (context_ids : list value) (save_keys to_save : string)
    (act_list : list (list (list dict))) :
  wf_act_list act_list = true ->
  wf_value (VList (speakers_passed splitext dumps context_ids save_keys to_save act_list))
  = true.
Proof.
  intros Hwf. cbn [wf_value]. apply forallb_forall. intros s Hs.
  rewrite speakers_passed_eq in Hs. apply In_fold_see in Hs as [[] | Hs].
  apply In_speaker_ids in Hs as (ex & Hex & _ & <-).
  apply In_concat_concat in Hex as (ep & act_pair & Hep & Hpair & Hex).
  unfold wf_act_list in Hwf. rewrite forallb_forall in Hwf.
  specialize (Hwf ep Hep). rewrite forallb_forall in Hwf.
  specialize (Hwf act_pair Hpair). rewrite forallb_forall in Hwf.
  specialize (Hwf ex Hex). unfold turn_id.
  apply py_get_wf; [now apply wf_dict_values | reflexivity].
Qed.

(** The constructor, from what its two loads return. *)
Lemma init_of_loads {E : Type} (splitext : string -> string * string)
    (loads : string -> E + value) (datapath : string)
    (convs : list value) (m : Metadata.t) (w : world) :
  Conversations._load_conversations loads datapath w = (inr convs, w) ->
  Metadata._load splitext loads datapath w = (inr m, w) ->
  Conversations.__init__ splitext loads datapath w =
  (inr (Conversations.Build convs (Some m) 0), w).
Proof.
  intros Hconvs Hmeta. unfold Conversations.__init__. unfold bind at 1.
  rewrite Hconvs. unfold bind at 1, Conversations._load_metadata, catch_RuntimeError.
  unfold bind at 1. now rewrite Hmeta.
Qed.

(** The metadata file that [save_conversations] leaves is read back by
    [Metadata._load] on the conversation path. *)
Lemma save_then_load_metadata {E : Type}
    (splitext : string -> string * string) (dumps : value -> string)
    (loads : string -> E + value)
    (now : string) (act_list : list (list (list dict))) (datapath : string)
    (opt : value) (save_keys context_ids : string) (self_chat : value)
    (kwargs : dict) (w : world) :
  let to_save := Conversations._get_path splitext datapath in
  let ctx := map VStr (split_commas context_ids) in
  let run := Conversations.save_conversations (E := E) splitext dumps now
               act_list datapath opt save_keys context_ids self_chat kwargs w in
  json_codec dumps loads ->
  wf_act_list act_list = true ->
  wf_value opt = true -> wf_value self_chat = true ->
  values_wf kwargs = true ->
  NoDup (dict_keys kwargs) ->
  (forall k, In k (dict_keys kwargs) -> ~ In k Metadata.required_keys) ->
  fst run = inr tt
  /\ Metadata._load splitext loads to_save (snd run) =
     (inr (Metadata.Build (Metadata._get_path splitext to_save) (VStr now)
             opt self_chat
             (VList (speakers_passed splitext dumps ctx save_keys to_save act_list))
             (VStr "0.1") kwargs),
      snd run).
Proof.
  intros to_save ctx run Hcodec Hwf Hopt Hsc Hkw Hnd Hother.
  assert (Hclash : existsb (String.eqb "speakers") (dict_keys kwargs) = false).
  { destruct (existsb (String.eqb "speakers") (dict_keys kwargs)) eqn:Hc;
      [ | reflexivity ].
    apply existsb_eqb_In in Hc. exfalso. apply (Hother "speakers" Hc).
    cbn. tauto. }
  assert (Hrun : run =
            (inr tt,
             World (<[Metadata._get_path splitext to_save :=
                       dumps (VDict (Metadata.metadata_record now opt self_chat
                                       (VList (speakers_passed splitext dumps ctx save_keys
                                                               to_save act_list))
                                       kwargs))]>
                      (<[to_save := text_written splitext dumps ctx save_keys to_save
                                                  act_list]> (fs w)))
                   ((stdout w ++ [" [ Conversations saved to file: " +:+ to_save +:+ " ]"]) ++
                    ["[ Writing metadata to file " +:+ Metadata._get_path splitext to_save
                     +:+ " ]"]))).
  { unfold run. now rewrite save_conversations_run by exact Hclash. }
  split; [now rewrite Hrun | ].
  apply (metadata_load_of_record splitext dumps loads now opt self_chat
           (VList (speakers_passed splitext dumps ctx save_keys to_save act_list))
           kwargs Hcodec Hopt Hsc
           (speakers_passed_wf splitext dumps ctx save_keys to_save act_list Hwf)
           Hkw Hnd Hother to_save (snd run)).
  rewrite Hrun. cbn [snd fs]. apply lookup_insert_eq.
Qed.

(** X12: saving and constructing compose.  With a JSON library that reads
    back what it writes, and extra keyword arguments carrying none of the
    five standard metadata names, [save_conversations] returns normally
    and the constructor called on the path it wrote gives an archive that
    holds the written records in order, the metadata that was saved
    (clock reading, [opt], [self_chat], the speakers in first-seen order,
    version 0.1, the extra arguments) and a cursor at 0; it prints no
    warning and changes no file. *)
Theorem save_then_construct {E : Type}
    (splitext : string -> string * string) (dumps : value -> string)
    (loads : string -> E + value)
    (now : string) (act_list : list (list (list dict))) (datapath : string)
    (opt : value) (save_keys context_ids : string) (self_chat : value)
    (kwargs : dict) (w : world) :
  let to_save := Conversations._get_path splitext datapath in
  let ctx := map VStr (split_commas context_ids) in
  let run := Conversations.save_conversations (E := E) splitext dumps now
               act_list datapath opt save_keys context_ids self_chat kwargs w in
  json_codec dumps loads ->
  wf_act_list act_list = true ->
  wf_value opt = true -> wf_value self_chat = true ->
  values_wf kwargs = true ->
  NoDup (dict_keys kwargs) ->
  (forall k, In k (dict_keys kwargs) -> ~ In k Metadata.required_keys) ->
  fst run = inr tt
  /\ Conversations.__init__ splitext loads to_save (snd run) =
     (inr (Conversations.Build
             (records_written splitext ctx save_keys to_save act_list)
             (Some (Metadata.Build (Metadata._get_path splitext to_save) (VStr now)
                      opt self_chat
                      (VList (speakers_passed splitext dumps ctx save_keys to_save
                                              act_list))
                      (VStr "0.1") kwargs))
             0),
      snd run).
Proof.
  intros to_save ctx run Hcodec Hwf Hopt Hsc Hkw Hnd Hother.
  destruct (save_then_load_metadata splitext dumps loads now act_list datapath opt
              save_keys context_ids self_chat kwargs w Hcodec Hwf Hopt Hsc Hkw Hnd Hother)
    as [Hreturns Hmeta].
  split; [exact Hreturns | ].
  apply init_of_loads; [ | exact Hmeta ].
  apply (save_then_load_records splitext dumps loads now act_list datapath opt
           save_keys context_ids self_chat kwargs w).
  pose proof (records_written_wf splitext ctx save_keys to_save act_list Hwf) as Hrec.
  eapply Forall_impl; [exact Hrec | ]. intros r Hr. now apply Hcodec.
Qed.

Lemma save_then_construct_witness :
  fst (Conversations.__init__ PyLib.splitext PyLib.loads "data/x.jsonl"
         (snd (Conversations.save_conversations (E := string) PyLib.splitext
                 PyLib.dumps "2020-01-01 00:00:00" [example_episode; []] "data/x.txt"
                 (VDict [("task", VStr "chat")]) Conversations.default_save_keys
                 Conversations.default_context_ids (VBool false) [("seed", VInt 42)]
                 (World ∅ [])))) =
  inr (Conversations.Build
         (records_written PyLib.splitext [VStr "context"] Conversations.default_save_keys
            "data/x.jsonl" [example_episode; []])
         (Some (Metadata.Build "data/x.metadata" (VStr "2020-01-01 00:00:00")
                  (VDict [("task", VStr "chat")]) (VBool false)
                  (VList [VStr "speaker_1"; VStr "speaker_2"]) (VStr "0.1")
                  [("seed", VInt 42)]))
         0).
Proof.
  destruct (save_then_construct (E := string) PyLib.splitext PyLib.dumps
              PyLib.loads "2020-01-01 00:00:00" [example_episode; []] "data/x.txt"
              (VDict [("task", VStr "chat")]) Conversations.default_save_keys
              Conversations.default_context_ids (VBool false) [("seed", VInt 42)]
              (World ∅ []))
    as (_ & Hinit).
  - exact pylib_json_codec.
  - vm_compute. reflexivity.
  - reflexivity.
  - reflexivity.
  - reflexivity.
  - apply (bool_decide_unpack _). vm_compute. exact I.
  - intros k [<- | []] Hreq. cbn in Hreq.
    repeat (destruct Hreq as [Hreq | Hreq]; [discriminate | ]). exact Hreq.
  - change (Conversations._get_path PyLib.splitext "data/x.txt") with "data/x.jsonl"
      in Hinit.
    rewrite Hinit. reflexivity.
Defined.

(** ** The display methods *)

Lemma dict_get_is_Some (d : dict) (k : string) :
  In k (dict_keys d) <-> exists v, dict_get d k = Some v.
Proof.
  unfold dict_keys. induction d as [ | [k' v'] d IH ]; cbn [map fst In dict_get].
  - split; [intros [] | intros (v & [=])].
  - destruct (String.eqb k' k) eqn:Hk.
    + apply String.eqb_eq in Hk. split; [now exists v' | now left].
    + apply String.eqb_neq in Hk. rewrite <- IH. tauto.
Qed.

Section display_loops.
Context {A : Type}.
Variable body : A -> Display.D unit.

Lemma for_each_prints (f : A -> list string) (l : list A) (w : world) :
  (forall x, In x l -> forall w0,
      body x w0 = (inr tt, World (fs w0) (stdout w0 ++ f x))) ->
  Display.for_each body l w =
  (inr tt, World (fs w) (stdout w ++ concat (map f l))).
Proof.
  revert w. induction l as [ | x l IH ]; intros w Hbody.
  - cbn. rewrite app_nil_r. now destruct w.
  - cbn [Display.for_each map concat]. unfold Display.bind.
    rewrite (Hbody x) by now left. rewrite IH by (intros y Hy; apply Hbody; now right).
    cbn [fs stdout]. now rewrite <- app_assoc.
Qed.

Lemma for_each_fails_first (x : A) (l : list A) (e : Display.exn) (w w' : world) :
  body x w = (inl e, w') -> Display.for_each body (x :: l) w = (inl e, w').
Proof. intros Hx. cbn [Display.for_each]. unfold Display.bind. now rewrite Hx. Qed.
End display_loops.

Section display_saved.
Variable py_format : value -> string.
Variable splitext : string -> string * string.
Variable context_ids : list value.
Variables save_keys to_save : string.

Let line (ex : dict) : string :=
  py_format (turn_id ex) +:+ ": " +:+ py_format (py_get ex "text" (VStr "")).

Lemma read_turn_saved (ex : dict) (w : world) :
  In "text" (split_commas save_keys) ->
  Display.read_turn py_format (VDict (turn_record save_keys ex)) w =
  (inr tt, World (fs w) (stdout w ++ [line ex])).
Proof.
  intros Htext. unfold Display.read_turn, Display.bind, Display.subscript, turn_record.
  rewrite make_turn_id. cbv [Display.ret].
  rewrite make_turn_key by (exact Htext || discriminate).
  reflexivity.
Qed.

Lemma read_turn_without_text (ex : dict) (w : world) :
  ~ In "text" (split_commas save_keys) ->
  Display.read_turn py_format (VDict (turn_record save_keys ex)) w =
  (inl (Display.KeyError "text"), w).
Proof.
  intros Htext. unfold Display.read_turn, Display.bind, Display.subscript, turn_record.
  rewrite make_turn_id. cbv [Display.ret].
  destruct (dict_get (Conversations.make_turn save_keys ex (turn_id ex)) "text")
    as [v | ] eqn:Hget; [ | reflexivity ].
  exfalso. apply Htext.
  assert (Hin : In "text" (dict_keys (Conversations.make_turn save_keys ex (turn_id ex)))).
  { apply dict_get_is_Some. now exists v. }
  apply make_turn_keys in Hin as [Hin | Hin]; [exact Hin | discriminate].
Qed.

Lemma read_pair_saved (turns : list dict) (w : world) :
  In "text" (split_commas save_keys) ->
  Display.read_pair py_format (VList (map VDict (map (turn_record save_keys) turns))) w =
  (inr tt, World (fs w) (stdout w ++ map line turns)).
Proof.
  intros Htext. unfold Display.read_pair, Display.bind. cbn [Display.py_iter Display.ret].
  rewrite (for_each_prints (Display.read_turn py_format)
             (fun t => match t with
                       | VDict d => [py_format (default VNone (dict_get d "id")) +:+ ": " +:+
                                     py_format (default VNone (dict_get d "text"))]
                       | _ => []
                       end)).
  - do 3 f_equal. induction turns as [ | ex turns IH ]; [reflexivity | ].
    cbn [map concat app]. rewrite IH. f_equal. unfold turn_record.
    rewrite make_turn_id, make_turn_key by (exact Htext || discriminate). reflexivity.
  - intros t Ht w0. apply in_map_iff in Ht as (d & <- & Hd).
    apply in_map_iff in Hd as (ex & <- & _). rewrite read_turn_saved by exact Htext.
    unfold turn_record.
    rewrite make_turn_id, make_turn_key by (exact Htext || discriminate). reflexivity.
Qed.

Lemma read_dialog_saved (ep : list (list dict)) (w : world) :
  In "text" (split_commas save_keys) ->
  Display.for_each (Display.read_pair py_format)
    (map (fun pair => VList (map VDict pair)) (episode_dialog context_ids save_keys ep)) w =
  (inr tt,
   World (fs w) (stdout w ++ map line (List.filter (is_dialog context_ids) (concat ep)))).
Proof.
  intros Htext. revert w. induction ep as [ | act_pair ep IH ]; intros w.
  - cbn. rewrite app_nil_r. now destruct w.
  - unfold episode_dialog. cbn [map List.filter concat].
    rewrite List.filter_app, map_app.
    unfold episode_dialog in IH.
    destruct (nonempty (pair_dialog context_ids save_keys act_pair)) eqn:Hne.
    + cbn [map Display.for_each]. unfold Display.bind at 1. unfold pair_dialog at 1.
      rewrite read_pair_saved by exact Htext. rewrite IH. cbn [fs stdout].
      now rewrite <- app_assoc.
    + rewrite IH. unfold pair_dialog in Hne.
      destruct (List.filter (is_dialog context_ids) act_pair); [reflexivity | discriminate].
Qed.

Lemma read_dialog_without_text (ep : list (list dict)) (w : world) :
  ~ In "text" (split_commas save_keys) ->
  List.filter (is_dialog context_ids) (concat ep) <> [] ->
  Display.for_each (Display.read_pair py_format)
    (map (fun pair => VList (map VDict pair)) (episode_dialog context_ids save_keys ep)) w =
  (inl (Display.KeyError "text"), w).
Proof.
  intros Htext Hturns.
  destruct (episode_dialog context_ids save_keys ep) as [ | new_pair dialog ] eqn:Hdialog.
  - exfalso. apply Hturns.
    pose proof (episode_dialog_turns context_ids save_keys ep) as Hcat.
    rewrite Hdialog in Hcat. cbn in Hcat. symmetry in Hcat.
    now apply map_eq_nil in Hcat.
  - assert (Hin : In new_pair (episode_dialog context_ids save_keys ep))
      by (rewrite Hdialog; now left).
    unfold episode_dialog in Hin. apply filter_In in Hin as [Hin Hne].
    apply in_map_iff in Hin as (act_pair & <- & _). unfold pair_dialog in *.
    destruct (List.filter (is_dialog context_ids) act_pair) as [ | ex turns ];
      [discriminate | ].
    cbn [map]. apply for_each_fails_first.
    unfold Display.read_pair, Display.bind. cbn [Display.py_iter Display.ret].
    apply for_each_fails_first. now apply read_turn_without_text.
Qed.

Lemma read_conv_idx_saved_header (ep : list (list dict)) (self : Conversations.t)
    (idx : Z) (w : world) :
  py_index (Conversations.conversations self) idx =
    Some (episode_record splitext context_ids save_keys to_save ep) ->
  Display.read_conv_idx py_format self idx w =
  Display.bind
    (Display.for_each (Display.read_pair py_format)
       (map (fun pair => VList (map VDict pair)) (episode_dialog context_ids save_keys ep)))
    (fun _ => Display.print Display.BAR)
    (World (fs w)
       (stdout w ++
        [Display.BAR;
         "context: " +:+
           py_format (VList (map VDict (episode_context context_ids save_keys ep)));
         "metadata_path: " +:+ py_format (VStr (Metadata._get_path splitext to_save));
         Display.SMALL_BAR])).
Proof.
  intros Hidx. unfold Display.read_conv_idx. unfold Display.bind at 1.
  unfold Display.index. rewrite Hidx. cbv [Display.ret].
  unfold Display.bind at 1. unfold Display.print at 1.
  unfold episode_record, Conversations.convo_record.
  unfold Display.bind at 1. cbn [Display.py_keys Display.ret dict_keys map fst].
  cbn [List.filter String.eqb Ascii.eqb Bool.eqb negb].
  unfold Display.bind at 1. unfold Display.bind at 1.
  cbn [Display.for_each]. cbv [Display.bind Display.subscript Display.print Display.ret
                                 dict_get String.eqb Ascii.eqb Bool.eqb fs stdout
                                 Display.py_iter].
  cbn [fs stdout]. rewrite <- !app_assoc. reflexivity.
Qed.
End display_saved.

(** X13: [read_conv_idx] on a conversation that [save_conversations]
    wrote with [text] among the saved keys returns normally and prints,
    between two bars, the two conversation-level entries ([context] and
    [metadata_path]), a small bar, and one line [id: text] per dialog turn
    of the episode, in the order of the turns; context turns get no line
    of their own and no file changes. *)
Theorem read_saved_conversation (py_format : value -> string)
    (splitext : string -> string * string) (context_ids : list value)
    (save_keys to_save : string) (ep : list (list dict)) (self : Conversations.t)
    (idx : Z) (w : world) :
  py_index (Conversations.conversations self) idx =
    Some (episode_record splitext context_ids save_keys to_save ep) ->
  In "text" (split_commas save_keys) ->
  Display.read_conv_idx py_format self idx w =
  (inr tt,
   World (fs w)
     (stdout w ++
      [Display.BAR;
       "context: " +:+
         py_format (VList (map VDict (episode_context context_ids save_keys ep)));
       "metadata_path: " +:+ py_format (VStr (Metadata._get_path splitext to_save));
       Display.SMALL_BAR] ++
      map (fun ex => py_format (turn_id ex) +:+ ": " +:+
                     py_format (py_get ex "text" (VStr "")))
          (List.filter (is_dialog context_ids) (concat ep)) ++
      [Display.BAR])).
Proof.
  intros Hidx Htext.
  rewrite (read_conv_idx_saved_header py_format splitext context_ids save_keys to_save
             ep self idx w Hidx).
  unfold Display.bind. rewrite read_dialog_saved by exact Htext.
  unfold Display.print. cbn [fs stdout]. now rewrite <- !app_assoc.
Qed.

Lemma read_saved_conversation_witness :
  stdout (snd (Display.read_conv_idx
                 (fun v => match v with VStr s => s | _ => PyLib.dumps v end)
                 (Conversations.Build
                    [episode_record PyLib.splitext [VStr "context"]
                       Conversations.default_save_keys "data/x.jsonl" example_episode]
                    None 0)
                 0 (World ∅ []))) =
  [Display.BAR;
   "context: " +:+
     PyLib.dumps (VList (map VDict (episode_context [VStr "context"]
                                      Conversations.default_save_keys example_episode)));
   "metadata_path: data/x.metadata";
   Display.SMALL_BAR;
   "speaker_1: hi";
   "speaker_2: hello";
   Display.BAR].
Proof.
  rewrite (read_saved_conversation
             (fun v => match v with VStr s => s | _ => PyLib.dumps v end)
             PyLib.splitext [VStr "context"] Conversations.default_save_keys
             "data/x.jsonl" example_episode).
  - reflexivity.
  - reflexivity.
  - cbn. tauto.
Defined.

(** X14: when [text] is not among the saved keys, [read_conv_idx] cannot
    display what [save_conversations] wrote: on a saved conversation with
    at least one dialog turn it raises [KeyError] for [text] after
    printing the bar, the two conversation-level entries and the small
    bar, and before printing any turn. *)
Theorem read_saved_conversation_needs_text (py_format : value -> string)
    (splitext : string -> string * string) (context_ids : list value)
    (save_keys to_save : string) (ep : list (list dict)) (self : Conversations.t)
    (idx : Z) (w : world) :
  py_index (Conversations.conversations self) idx =
    Some (episode_record splitext context_ids save_keys to_save ep) ->
  ~ In "text" (split_commas save_keys) ->
  List.filter (is_dialog context_ids) (concat ep) <> [] ->
  Display.read_conv_idx py_format self idx w =
  (inl (Display.KeyError "text"),
   World (fs w)
     (stdout w ++
      [Display.BAR;
       "context: " +:+
         py_format (VList (map VDict (episode_context context_ids save_keys ep)));
       "metadata_path: " +:+ py_format (VStr (Metadata._get_path splitext to_save));
       Display.SMALL_BAR])).
Proof.
  intros Hidx Htext Hturns.
  rewrite (read_conv_idx_saved_header py_format splitext context_ids save_keys to_save
             ep self idx w Hidx).
  unfold Display.bind. now rewrite read_dialog_without_text.
Qed.

Lemma read_saved_conversation_needs_text_witness :
  fst (Display.read_conv_idx PyLib.dumps
         (Conversations.Build
            [episode_record PyLib.splitext [VStr "context"] "labels" "data/x.jsonl"
               example_episode]
            None 0)
         0 (World ∅ [])) = inl (Display.KeyError "text").
Proof.
  rewrite (read_saved_conversation_needs_text PyLib.dumps PyLib.splitext
             [VStr "context"] "labels" "data/x.jsonl" example_episode).
  - reflexivity.
  - reflexivity.
  - cbn. intros [H | []]. discriminate.
  - vm_compute. discriminate.
Defined.

(** ** The display methods: what they never do *)

Lemma only_prints_ret {A : Type} (a : A) : only_prints (Display.ret a).
Proof. intros w. split; [reflexivity | ]. exists []. cbn. now rewrite app_nil_r. Qed.

Lemma only_prints_raise {A : Type} (e : Display.exn) :
  only_prints (Display.raise (A := A) e).
Proof. intros w. split; [reflexivity | ]. exists []. cbn. now rewrite app_nil_r. Qed.

Lemma only_prints_print (s : string) : only_prints (Display.print s).
Proof. intros w. split; [reflexivity | ]. now exists [s]. Qed.

Lemma only_prints_bind {A B : Type} (m : Display.D A) (k : A -> Display.D B) :
  only_prints m -> (forall a, only_prints (k a)) -> only_prints (Display.bind m k).
Proof.
  intros Hm Hk w. unfold Display.bind. destruct (Hm w) as (Hfs & out & Hout).
  destruct (m w) as [[e | a] w1]; cbn [snd] in *.
  - split; [exact Hfs | now exists out].
  - destruct (Hk a w1) as (Hfs' & out' & Hout'). split; [congruence | ].
    exists (out ++ out'). rewrite Hout', Hout. now rewrite app_assoc.
Qed.

Lemma only_prints_for_each {A : Type} (body : A -> Display.D unit) (l : list A) :
  (forall x, only_prints (body x)) -> only_prints (Display.for_each body l).
Proof.
  intros Hbody. induction l as [ | x l IH ]; cbn [Display.for_each].
  - apply only_prints_ret.
  - apply only_prints_bind; [apply Hbody | intros _; exact IH].
Qed.

Lemma only_prints_subscript (v : value) (k : string) :
  only_prints (Display.subscript v k).
Proof.
  unfold Display.subscript. destruct v; try apply only_prints_raise.
  destruct (dict_get d k); [apply only_prints_ret | apply only_prints_raise].
Qed.

Lemma only_prints_py_iter (v : value) : only_prints (Display.py_iter v).
Proof. destruct v; cbn; (apply only_prints_ret || apply only_prints_raise). Qed.

Lemma only_prints_read_pair (py_format : value -> string) (act_pair : value) :
  only_prints (Display.read_pair py_format act_pair).
Proof.
  unfold Display.read_pair. apply only_prints_bind; [apply only_prints_py_iter | ].
  intros turns. apply only_prints_for_each. intros turn. unfold Display.read_turn.
  apply only_prints_bind; [apply only_prints_subscript | intros turn_id ].
  apply only_prints_bind; [apply only_prints_subscript | intros text ].
  apply only_prints_print.
Qed.

Lemma only_prints_read_conv_idx (py_format : value -> string)
    (self : Conversations.t) (idx : Z) :
  only_prints (Display.read_conv_idx py_format self idx).
Proof.
  unfold Display.read_conv_idx.
  apply only_prints_bind.
  { unfold Display.index. destruct (py_index _ idx);
      [apply only_prints_ret | apply only_prints_raise]. }
  intros convo. apply only_prints_bind; [apply only_prints_print | intros _ ].
  apply only_prints_bind.
  { destruct convo; cbn; (apply only_prints_ret || apply only_prints_raise). }
  intros keys. apply only_prints_bind.
  { destruct (List.filter _ keys); [apply only_prints_ret | ].
    apply only_prints_bind; [ | intros _; apply only_prints_print ].
    apply only_prints_for_each. intros key.
    apply only_prints_bind; [apply only_prints_subscript | intros v ].
    apply only_prints_print. }
  intros _. apply only_prints_bind; [apply only_prints_subscript | intros dialog ].
  apply only_prints_bind; [apply only_prints_py_iter | intros pairs ].
  apply only_prints_bind; [ | intros _; apply only_prints_print ].
  apply only_prints_for_each. intros act_pair. apply only_prints_read_pair.
Qed.

Lemma raises_only_bind {A B : Type} (P : Display.exn -> Prop)
    (m : Display.D A) (k : A -> Display.D B) :
  raises_only P m -> (forall a, raises_only P (k a)) -> raises_only P (Display.bind m k).
Proof.
  intros Hm Hk w e. unfold Display.bind. specialize (Hm w).
  destruct (m w) as [[e' | a] w1]; cbn [fst] in *.
  - intros [= ->]. now apply Hm.
  - apply Hk.
Qed.

Lemma raises_only_for_each {A : Type} (P : Display.exn -> Prop)
    (body : A -> Display.D unit) (l : list A) :
  (forall x, raises_only P (body x)) -> raises_only P (Display.for_each body l).
Proof.
  intros Hbody. induction l as [ | x l IH ]; cbn [Display.for_each].
  - intros w e [=].
  - apply raises_only_bind; [apply Hbody | intros _; exact IH].
Qed.

Lemma raises_only_read_pair (py_format : value -> string) (act_pair : value) :
  raises_only turn_error (Display.read_pair py_format act_pair).
Proof.
  unfold Display.read_pair. apply raises_only_bind.
  { destruct act_pair; intros w e [=]; now left. }
  intros turns. apply raises_only_for_each. intros turn. unfold Display.read_turn.
  apply raises_only_bind.
  { unfold Display.subscript. destruct turn; try (intros w e [= <-]; now left).
    destruct (dict_get d "id"); intros w e [=]. right. now left. }
  intros turn_id. apply raises_only_bind.
  { unfold Display.subscript. destruct turn; try (intros w e [= <-]; now left).
    destruct (dict_get d "text"); intros w e [=]. right. now right. }
  intros text w e [=].
Qed.

(** The loop over the conversation-level keys never fails: each key it
    subscripts comes from the dict itself. *)
Lemma read_high_level (py_format : value -> string) (d : dict)
    (keys : list string) (w : world) :
  (forall k, In k keys -> In k (dict_keys d)) ->
  Display.for_each
    (fun key => Display.bind (Display.subscript (VDict d) key)
                  (fun v => Display.print (key +:+ ": " +:+ py_format v)))
    keys w =
  (inr tt,
   World (fs w)
     (stdout w ++ map (fun key => key +:+ ": " +:+ py_format (py_get d key VNone)) keys)).
Proof.
  intros Hkeys.
  rewrite (for_each_prints _ (fun key => [key +:+ ": " +:+ py_format (py_get d key VNone)])).
  - do 3 f_equal. induction keys as [ | k keys IH ]; [reflexivity | ].
    cbn [map concat app]. f_equal. apply IH. intros k' Hk'. apply Hkeys. now right.
  - intros key Hkey w0. apply Hkeys, dict_get_is_Some in Hkey as (v & Hv).
    unfold Display.bind, Display.subscript, py_get. now rewrite Hv.
Qed.

Lemma read_conv_idx_dict (py_format : value -> string) (self : Conversations.t)
    (idx : Z) (d : dict) (w : world) :
  py_index (Conversations.conversations self) idx = Some (VDict d) ->
  exists header,
    Display.read_conv_idx py_format self idx w =
    Display.bind (Display.subscript (VDict d) "dialog")
      (fun dialog =>
         Display.bind (Display.py_iter dialog)
           (fun pairs =>
              Display.bind (Display.for_each (Display.read_pair py_format) pairs)
                (fun _ => Display.print Display.BAR)))
      (World (fs w) (stdout w ++ Display.BAR :: header)).
Proof.
  intros Hidx. unfold Display.read_conv_idx. unfold Display.bind at 1.
  unfold Display.index. rewrite Hidx. cbv [Display.ret].
  unfold Display.bind at 1. unfold Display.print at 1.
  unfold Display.bind at 1. cbn [Display.py_keys Display.ret].
  unfold Display.bind at 1.
  pose proof (fun k => proj1 (filter_In (fun k => negb (String.eqb k "dialog"))
                                        k (dict_keys d))) as Hsub.
  destruct (List.filter (fun k => negb (String.eqb k "dialog")) (dict_keys d))
    as [ | key high_level ].
  - exists []. reflexivity.
  - unfold Display.bind at 1.
    rewrite read_high_level by (intros k Hk; now apply Hsub).
    unfold Display.print at 1. cbn [fs stdout]. eexists.
    rewrite <- !app_assoc. cbn [app]. reflexivity.
Qed.

Lemma read_conv_idx_out (py_format : value -> string) (self : Conversations.t)
    (idx : Z) (w : world) :
  py_index (Conversations.conversations self) idx = None ->
  Display.read_conv_idx py_format self idx w = (inl Display.IndexError, w).
Proof.
  intros Hidx. unfold Display.read_conv_idx, Display.bind, Display.index.
  now rewrite Hidx.
Qed.

Lemma read_conv_idx_not_dict (py_format : value -> string) (self : Conversations.t)
    (idx : Z) (c : value) (w : world) :
  py_index (Conversations.conversations self) idx = Some c ->
  (forall d, c <> VDict d) ->
  Display.read_conv_idx py_format self idx w =
  (inl Display.AttributeError, World (fs w) (stdout w ++ [Display.BAR])).
Proof.
  intros Hidx Hc. unfold Display.read_conv_idx, Display.bind, Display.index.
  rewrite Hidx. destruct c; try reflexivity. now destruct (Hc d).
Qed.

(** On a dict, the only errors are the missing [dialog] key and those of
    the loop over the turns. *)
Lemma read_conv_idx_dict_errors (py_format : value -> string)
    (self : Conversations.t) (idx : Z) (d : dict) (w : world) :
  py_index (Conversations.conversations self) idx = Some (VDict d) ->
  match dict_get d "dialog" with
  | None => fst (Display.read_conv_idx py_format self idx w) =
            inl (Display.KeyError "dialog")
  | Some _ => forall e, fst (Display.read_conv_idx py_format self idx w) = inl e ->
                        turn_error e
  end.
Proof.
  intros Hidx.
  destruct (read_conv_idx_dict py_format self idx d w Hidx) as (header & Hrun).
  rewrite Hrun. unfold Display.bind at 1, Display.subscript.
  destruct (dict_get d "dialog") as [dialog | ]; [ | reflexivity ].
  cbv [Display.ret]. intros e.
  apply (raises_only_bind turn_error).
  - destruct dialog; intros w0 e0 [=]; now left.
  - intros pairs. apply raises_only_bind.
    + apply raises_only_for_each. intros act_pair. apply raises_only_read_pair.
    + intros _ w0 e0 [=].
Qed.

Lemma read_conv_idx_in_range (py_format : value -> string) (self : Conversations.t)
    (idx : Z) (c : value) (w : world) :
  py_index (Conversations.conversations self) idx = Some c ->
  fst (Display.read_conv_idx py_format self idx w) <> inl Display.IndexError.
Proof.
  intros Hidx Herr.
  assert (Hdict : (exists d, c = VDict d) \/ forall d, c <> VDict d).
  { destruct c; try (right; intros d' [=]; fail). left. now exists d. }
  destruct Hdict as [[d ->] | Hc].
  - pose proof (read_conv_idx_dict_errors py_format self idx d w Hidx) as Hcases.
    destruct (dict_get d "dialog"); [ | congruence ].
    destruct (Hcases _ Herr) as [[=] | [[=] | [=]]].
  - rewrite (read_conv_idx_not_dict py_format self idx c w Hidx Hc) in Herr.
    discriminate.
Qed.

(** X15: how [read_conv_idx] fails.  It raises [IndexError] exactly when
    the index is out of range, and then prints nothing; [AttributeError]
    exactly when the conversation at the index is not a dict, after
    printing the bar alone; [KeyError] for [dialog] exactly when the
    conversation is a dict without that key; any other [KeyError] is for
    [id] or [text].  Whatever happens, no file changes and what was
    printed before stays. *)
Theorem read_conv_idx_failures (py_format : value -> string)
    (self : Conversations.t) (idx : Z) (w : world) :
  let conv := py_index (Conversations.conversations self) idx in
  let r := Display.read_conv_idx py_format self idx w in
  fs (snd r) = fs w
  /\ (exists out, stdout (snd r) = stdout w ++ out)
  /\ (fst r = inl Display.IndexError <-> conv = None)
  /\ (conv = None -> snd r = w)
  /\ (fst r = inl Display.AttributeError <->
      exists c, conv = Some c /\ forall d, c <> VDict d)
  /\ (fst r = inl Display.AttributeError ->
      snd r = World (fs w) (stdout w ++ [Display.BAR]))
  /\ (fst r = inl (Display.KeyError "dialog") <->
      exists d, conv = Some (VDict d) /\ dict_get d "dialog" = None)
  /\ (forall k, fst r = inl (Display.KeyError k) ->
        k = "dialog" \/ k = "id" \/ k = "text").
Proof.
  intros conv r.
  destruct (only_prints_read_conv_idx py_format self idx w) as [Hfs Hout].
  split; [exact Hfs | ]. split; [exact Hout | ]. clear Hfs Hout.
  destruct conv as [c | ] eqn:Hconv; unfold conv in Hconv.
  - pose proof (read_conv_idx_in_range py_format self idx c w Hconv) as Hin.
    fold r in Hin.
    split; [split; [intros Herr; now destruct Hin | intros [=]] | ].
    split; [intros [=] | ].
    assert (Hdict : (exists d, c = VDict d) \/ forall d, c <> VDict d).
    { destruct c; try (right; intros d' [=]; fail). left. now exists d. }
    destruct Hdict as [[d ->] | Hc].
    + pose proof (read_conv_idx_dict_errors py_format self idx d w Hconv) as Hcases.
      fold r in Hcases.
      destruct (dict_get d "dialog") as [dialog | ] eqn:Hdialog.
      * split; [ | split; [ | split ] ].
        -- split.
           ++ intros He. destruct (Hcases _ He) as [[=] | [[=] | [=]]].
           ++ intros (c & [= <-] & Hc). now destruct (Hc d).
        -- intros He. destruct (Hcases _ He) as [[=] | [[=] | [=]]].
        -- split.
           ++ intros He. destruct (Hcases _ He) as [[=] | [[=] | [=]]].
           ++ intros (d' & [= <-] & Hd'). congruence.
        -- intros k He. destruct (Hcases _ He) as [[=] | [[= ->] | [= ->]]]; auto.
      * rewrite Hcases. split; [ | split; [ | split ] ].
        -- split; [intros [=] | ]. intros (c & [= <-] & Hc). now destruct (Hc d).
        -- intros [=].
        -- split; [ | reflexivity ]. intros _. now exists d.
        -- intros k [= <-]. now left.
    + pose proof (read_conv_idx_not_dict py_format self idx c w Hconv Hc) as Hrun.
      fold r in Hrun. rewrite Hrun. cbn [fst snd].
      split; [ | split; [ | split ] ].
      * split; [ | reflexivity ]. intros _. now exists c.
      * reflexivity.
      * split; [intros [=] | ]. intros (d & [= ->] & _). now destruct (Hc d).
      * intros k [=].
  - pose proof (read_conv_idx_out py_format self idx w Hconv) as Hrun.
    fold r in Hrun. rewrite Hrun. cbn [fst snd].
    split; [ split; reflexivity | ].
    split; [ reflexivity | ].
    split; [ split; [intros [=] | intros (c & [=] & _)] | ].
    split; [ intros [=] | ].
    split; [ split; [intros [=] | intros (d & [=] & _)] | intros k [=] ].
Qed.

(** [Metadata.read], by cases on [opt]. *)
Lemma metadata_read_run (py_format : value -> string) (m : Metadata.t) (w : world) :
  let head :=
    ["Metadata version " +:+ py_format (Metadata.version_num m);
     "Saved at: " +:+ py_format (Metadata.datetime m);
     "Self chat: " +:+ py_format (Metadata.self_chat m);
     "Speakers: " +:+ py_format (Metadata.speakers m);
     "Opt:"] in
  match Metadata.opt m with
  | VDict opt =>
      Display.read py_format m w =
      (inr tt,
       World (fs w)
         (stdout w ++ head ++
          map (fun kv => String "009" (fst kv +:+ ": " +:+ py_format (snd kv))) opt ++
          map (fun kv => fst kv +:+ ": " +:+ py_format (snd kv))
              (Metadata.extra_data m)))
  | _ =>
      Display.read py_format m w =
      (inl Display.AttributeError, World (fs w) (stdout w ++ head))
  end.
Proof.
  assert (Hsingle : forall (f : string * value -> string) (l : dict),
             concat (map (fun kv => [f kv]) l) = map f l).
  { intros f l. induction l as [ | kv l IH ]; [reflexivity | ].
    cbn [map concat app]. now rewrite IH. }
  assert (Hhead : forall k : unit -> Display.D unit,
            Display.bind (Display.print ("Metadata version " +:+
                                         py_format (Metadata.version_num m)))
              (fun _ => Display.bind (Display.print ("Saved at: " +:+
                                                     py_format (Metadata.datetime m)))
              (fun _ => Display.bind (Display.print ("Self chat: " +:+
                                                     py_format (Metadata.self_chat m)))
              (fun _ => Display.bind (Display.print ("Speakers: " +:+
                                                     py_format (Metadata.speakers m)))
              (fun _ => Display.bind (Display.print "Opt:") k)))) w =
            k tt (World (fs w)
                    (stdout w ++
                     ["Metadata version " +:+ py_format (Metadata.version_num m);
                      "Saved at: " +:+ py_format (Metadata.datetime m);
                      "Self chat: " +:+ py_format (Metadata.self_chat m);
                      "Speakers: " +:+ py_format (Metadata.speakers m);
                      "Opt:"]))).
  { intros k. cbv [Display.bind Display.print fs stdout].
    now rewrite <- !app_assoc. }
  cbv zeta. unfold Display.read. rewrite Hhead.
  destruct (Metadata.opt m) as [ | b | n | s | l | opt ]; try reflexivity.
  unfold Display.bind at 1. cbn [Display.py_items Display.ret].
  unfold Display.bind.
  rewrite (for_each_prints _
             (fun kv => [String "009" (fst kv +:+ ": " +:+ py_format (snd kv))]))
    by reflexivity.
  rewrite (for_each_prints _ (fun kv => [fst kv +:+ ": " +:+ py_format (snd kv)]))
    by reflexivity.
  cbn [fs stdout]. rewrite !Hsingle. now rewrite <- !app_assoc.
Qed.

(** X16: what [read_metadata] prints.  Without metadata it prints
    nothing.  With metadata it prints the version, date, self-chat and
    speakers lines and [Opt:]; then, when [opt] is a dict, one
    tab-indented line per entry of [opt] followed by one line per extra
    entry, in their order; when [opt] is anything else it raises
    [AttributeError] with those five lines printed and no extra entry
    shown.  No file changes. *)
Theorem read_metadata_prints (py_format : value -> string)
    (self : Conversations.t) (w : world) :
  match Conversations.metadata self with
  | None => Display.read_metadata py_format self w = (inr tt, w)
  | Some m =>
      let head :=
        ["Metadata version " +:+ py_format (Metadata.version_num m);
         "Saved at: " +:+ py_format (Metadata.datetime m);
         "Self chat: " +:+ py_format (Metadata.self_chat m);
         "Speakers: " +:+ py_format (Metadata.speakers m);
         "Opt:"] in
      match Metadata.opt m with
      | VDict opt =>
          Display.read_metadata py_format self w =
          (inr tt,
           World (fs w)
             (stdout w ++ head ++
              map (fun kv => String "009" (fst kv +:+ ": " +:+ py_format (snd kv))) opt ++
              map (fun kv => fst kv +:+ ": " +:+ py_format (snd kv))
                  (Metadata.extra_data m)))
      | _ =>
          Display.read_metadata py_format self w =
          (inl Display.AttributeError, World (fs w) (stdout w ++ head))
      end
  end.
Proof.
  unfold Display.read_metadata.
  destruct (Conversations.metadata self) as [m | ]; [ | reflexivity ].
  exact (metadata_read_run py_format m w).
Qed.

(** X17: what was saved is what is shown.  With a JSON library that
    reads back what it writes, an [opt] that is a dict and extra keyword
    arguments carrying none of the five standard names, the archive
    constructed on the path that [save_conversations] wrote displays, on
    [read_metadata], version 0.1, the clock reading of the save,
    [self_chat], the speakers in first-seen order, every entry of [opt]
    and every extra argument, in the order they were given. *)
Theorem saved_metadata_is_displayed {E : Type} (py_format : value -> string)
    (splitext : string -> string * string) (dumps : value -> string)
    (loads : string -> E + value)
    (now : string) (act_list : list (list (list dict))) (datapath : string)
    (opt : dict) (save_keys context_ids : string) (self_chat : value)
    (kwargs : dict) (w w1 : world) (self : Conversations.t) :
  let to_save := Conversations._get_path splitext datapath in
  let ctx := map VStr (split_commas context_ids) in
  let run := Conversations.save_conversations (E := E) splitext dumps now
               act_list datapath (VDict opt) save_keys context_ids self_chat kwargs w in
  json_codec dumps loads ->
  wf_act_list act_list = true ->
  wf_value (VDict opt) = true -> wf_value self_chat = true ->
  values_wf kwargs = true ->
  NoDup (dict_keys kwargs) ->
  (forall k, In k (dict_keys kwargs) -> ~ In k Metadata.required_keys) ->
  Conversations.__init__ splitext loads to_save (snd run) = (inr self, w1) ->
  Display.read_metadata py_format self w1 =
  (inr tt,
   World (fs w1)
     (stdout w1 ++
      ["Metadata version " +:+ py_format (VStr "0.1");
       "Saved at: " +:+ py_format (VStr now);
       "Self chat: " +:+ py_format self_chat;
       "Speakers: " +:+
         py_format (VList (fold_left see (speaker_ids ctx (concat (concat act_list))) []));
       "Opt:"] ++
      map (fun kv => String "009" (fst kv +:+ ": " +:+ py_format (snd kv))) opt ++
      map (fun kv => fst kv +:+ ": " +:+ py_format (snd kv)) kwargs)).
Proof.
  intros to_save ctx run Hcodec Hwf Hopt Hsc Hkw Hnd Hother Hinit.
  destruct (save_then_load_metadata splitext dumps loads now act_list datapath (VDict opt)
              save_keys context_ids self_chat kwargs w Hcodec Hwf Hopt Hsc Hkw Hnd Hother)
    as [_ Hmeta].
  destruct (save_then_load_records splitext dumps loads now act_list datapath (VDict opt)
              save_keys context_ids self_chat kwargs w) as [Hconvs _].
  { pose proof (records_written_wf splitext ctx save_keys to_save act_list Hwf) as Hrec.
    eapply Forall_impl; [exact Hrec | ]. intros r Hr. now apply Hcodec. }
  fold to_save ctx run in Hmeta, Hconvs.
  rewrite (init_of_loads splitext loads to_save _ _ _ Hconvs Hmeta) in Hinit.
  injection Hinit as <- <-.
  pose proof (metadata_read_run py_format
                (Metadata.Build (Metadata._get_path splitext to_save) (VStr now)
                   (VDict opt) self_chat
                   (VList (speakers_passed splitext dumps ctx save_keys to_save act_list))
                   (VStr "0.1") kwargs)
                (snd run)) as Hread.
  cbn [Metadata.opt Metadata.version_num Metadata.datetime
       Metadata.self_chat Metadata.speakers Metadata.extra_data] in Hread.
  cbv zeta in Hread.
  rewrite <- (speakers_passed_eq splitext dumps ctx save_keys to_save act_list).
  unfold Display.read_metadata. cbn [Conversations.metadata]. exact Hread.
Qed.

Lemma saved_metadata_is_displayed_witness :
  stdout (snd (Display.read_metadata
                 (fun v => match v with VStr s => s | _ => PyLib.dumps v end)
                 (Conversations.Build
                    (records_written PyLib.splitext [VStr "context"]
                       Conversations.default_save_keys "data/x.jsonl" [example_episode])
                    (Some (Metadata.Build "data/x.metadata" (VStr "2020-01-01 00:00:00")
                             (VDict [("task", VStr "chat")]) (VBool false)
                             (VList [VStr "speaker_1"; VStr "speaker_2"]) (VStr "0.1")
                             [("seed", VInt 42)]))
                    0)
                 (snd (Conversations.save_conversations (E := string) PyLib.splitext
                         PyLib.dumps "2020-01-01 00:00:00" [example_episode] "data/x.txt"
                         (VDict [("task", VStr "chat")]) Conversations.default_save_keys
                         Conversations.default_context_ids (VBool false)
                         [("seed", VInt 42)] (World ∅ []))))) =
  [" [ Conversations saved to file: data/x.jsonl ]";
   "[ Writing metadata to file data/x.metadata ]";
   "Metadata version 0.1"; "Saved at: 2020-01-01 00:00:00"; "Self chat: false";
   "Speakers: [" +:+ String "034" ("speaker_1" +:+ String "034" (", " +:+
      String "034" ("speaker_2" +:+ String "034" "]")));
   "Opt:"; String "009" "task: chat"; "seed: 42"].
Proof.
  pose proof (saved_metadata_is_displayed (E := string)
                (fun v => match v with VStr s => s | _ => PyLib.dumps v end)
                PyLib.splitext PyLib.dumps PyLib.loads "2020-01-01 00:00:00"
                [example_episode] "data/x.txt" [("task", VStr "chat")]
                Conversations.default_save_keys Conversations.default_context_ids
                (VBool false) [("seed", VInt 42)] (World ∅ [])
                (snd (Conversations.save_conversations (E := string) PyLib.splitext
                        PyLib.dumps "2020-01-01 00:00:00" [example_episode] "data/x.txt"
                        (VDict [("task", VStr "chat")]) Conversations.default_save_keys
                        Conversations.default_context_ids (VBool false)
                        [("seed", VInt 42)] (World ∅ [])))
                (Conversations.Build
                   (records_written PyLib.splitext [VStr "context"]
                      Conversations.default_save_keys "data/x.jsonl" [example_episode])
                   (Some (Metadata.Build "data/x.metadata" (VStr "2020-01-01 00:00:00")
                            (VDict [("task", VStr "chat")]) (VBool false)
                            (VList [VStr "speaker_1"; VStr "speaker_2"]) (VStr "0.1")
                            [("seed", VInt 42)]))
                   0)) as Hshown.
  cbv zeta in Hshown. rewrite Hshown.
  - vm_compute. reflexivity.
  - exact pylib_json_codec.
  - vm_compute. reflexivity.
  - reflexivity.
  - reflexivity.
  - reflexivity.
  - apply (bool_decide_unpack _). vm_compute. exact I.
  - intros k [<- | []] Hreq. cbn in Hreq.
    repeat (destruct Hreq as [Hreq | Hreq]; [discriminate | ]). exact Hreq.
  - vm_compute. reflexivity.
Defined.

(** X18: [read_rand_conv] needs a conversation to draw.  On an archive
    without conversations it raises [IndexError] and prints nothing,
    whatever the draw; on any other archive, with the draw in
    [range(num_conversations)], it is [read_conv_idx] at the drawn index
    and does not raise [IndexError]. *)
Theorem read_rand_conv_needs_a_conversation (py_format : value -> string)
    (self : Conversations.t) (choice : Z) (w : world) :
  (Conversations.conversations self = [] ->
   Display.read_rand_conv py_format self choice w = (inl Display.IndexError, w))
  /\ ((0 <= choice < Conversations.num_conversations self)%Z ->
      Display.read_rand_conv py_format self choice w =
        Display.read_conv_idx py_format self choice w
      /\ fst (Display.read_rand_conv py_format self choice w) <> inl Display.IndexError).
Proof.
  unfold Display.read_rand_conv, Conversations.num_conversations. split.
  - intros ->. reflexivity.
  - intros [Hlo Hhi].
    destruct (Z.eqb_spec (Z.of_nat (length (Conversations.conversations self))) 0)
      as [Hz | _]; [lia | ].
    unfold Display.bind at 1 2. cbv [Display.ret]. split; [reflexivity | ].
    destruct (py_index (Conversations.conversations self) choice) as [c | ] eqn:Hidx.
    + now apply (read_conv_idx_in_range py_format self choice c w).
    + rewrite py_index_nonneg in Hidx by exact Hlo.
      apply nth_error_None in Hidx. lia.
Qed.

(** ** Conversations: more on saving *)

Lemma all_empty {A : Type} (l : list (list A)) :
  Forall (fun x => x = []) l -> List.filter nonempty l = [] /\ concat l = [].
Proof.
  induction 1 as [ | x l -> _ [IHf IHc] ]; [split; reflexivity | ].
  cbn. now rewrite IHc.
Qed.

(** X19: nothing to save is not an error.  When every episode of
    [act_list] is empty (or there is none), [save_conversations] writes an
    empty conversation file and hands an empty speaker list to the
    metadata, and [_load_conversations] reads that file back as zero
    conversations without consulting the JSON decoder. *)
Theorem save_of_empty_episodes {E : Type}
    (splitext : string -> string * string) (dumps : value -> string)
    (loads : string -> E + value)
    (now : string) (act_list : list (list (list dict))) (datapath : string)
    (opt : value) (save_keys context_ids : string) (self_chat : value)
    (kwargs : dict) (w : world) :
  let to_save := Conversations._get_path splitext datapath in
  let ctx := map VStr (split_commas context_ids) in
  let w' := snd (Conversations.save_conversations (E := E) splitext dumps now
                   act_list datapath opt save_keys context_ids self_chat kwargs w) in
  Forall (fun ep => ep = []) act_list ->
  fs w' !! to_save = Some EmptyString
  /\ speakers_passed splitext dumps ctx save_keys to_save act_list = []
  /\ Conversations._load_conversations loads to_save w' = (inr [], w').
Proof.
  intros to_save ctx w' Hempty.
  apply all_empty in Hempty as [Hfilter Hcat].
  assert (Hrec : records_written splitext ctx save_keys to_save act_list = []).
  { unfold records_written. now rewrite Hfilter. }
  assert (Hturns : concat (concat act_list) = []) by now rewrite Hcat.
  split; [ | split ].
  - unfold w', to_save. rewrite save_conversations_file, text_written_eq.
    fold to_save ctx. now rewrite Hrec.
  - now rewrite speakers_passed_eq, Hturns.
  - destruct (save_then_load_records splitext dumps loads now act_list datapath opt
                save_keys context_ids self_chat kwargs w) as [Hload _].
    + fold to_save ctx. rewrite Hrec. constructor.
    + fold to_save ctx w' in Hload. now rewrite Hrec in Hload.
Qed.

Lemma save_of_empty_episodes_witness :
  fs (snd (Conversations.save_conversations (E := string) PyLib.splitext PyLib.dumps
             "2020-01-01 00:00:00" [[]; []] "data/x.txt" (VDict [])
             Conversations.default_save_keys Conversations.default_context_ids
             (VBool false) [] (World ∅ []))) !! "data/x.jsonl" = Some EmptyString.
Proof.
  apply (save_of_empty_episodes (E := string) PyLib.splitext PyLib.dumps PyLib.loads
           "2020-01-01 00:00:00" [[]; []] "data/x.txt" (VDict [])
           Conversations.default_save_keys Conversations.default_context_ids
           (VBool false) [] (World ∅ [])).
  repeat constructor.
Defined.

Lemma fold_project_fresh (ex : dict) (keys : list string) :
  NoDup keys ->
  fold_left (fun turn key => dict_set turn key (py_get ex key (VStr ""))) keys [] =
  map (fun key => (key, py_get ex key (VStr ""))) keys.
Proof.
  intros Hnd.
  change (map (fun key => (key, py_get ex key (VStr ""))) keys)
    with ([] ++ map (fun key => (key, py_get ex key (VStr ""))) keys).
  rewrite <- fold_set_fresh.
  - clear Hnd. generalize (@nil (string * value)).
    induction keys as [ | key keys IH ]; intros turn; [reflexivity | ].
    cbn [fold_left map fst snd]. apply IH.
  - cbn [dict_keys map app]. unfold dict_keys. rewrite List.map_map. cbn [fst].
    now rewrite map_id.
Qed.

(** X20: the layout of a written turn.  When the names in [save_keys] are
    distinct and none is [id], a turn record is written with exactly
    those fields in the order [save_keys] names them, each holding the
    turn's value or the empty string, followed by [id]. *)
Theorem written_turn_in_key_order (save_keys : string) (ex : dict) :
  NoDup (split_commas save_keys) ->
  ~ In "id" (split_commas save_keys) ->
  turn_record save_keys ex =
  map (fun key => (key, py_get ex key (VStr ""))) (split_commas save_keys)
  ++ [("id", turn_id ex)].
Proof.
  intros Hnd Hid. unfold turn_record, Conversations.make_turn.
  rewrite fold_project_fresh by exact Hnd.
  apply dict_set_fresh. rewrite List.map_map. cbn [fst]. now rewrite map_id.
Qed.

Lemma written_turn_in_key_order_witness :
  turn_record Conversations.default_save_keys
    [("id", VStr "speaker_1"); ("text", VStr "hi"); ("episode_done", VBool false)] =
  [("text", VStr "hi"); ("labels", VStr ""); ("eval_labels", VStr "");
   ("id", VStr "speaker_1")].
Proof.
  rewrite (written_turn_in_key_order Conversations.default_save_keys
             [("id", VStr "speaker_1"); ("text", VStr "hi"); ("episode_done", VBool false)]).
  - reflexivity.
  - apply (bool_decide_unpack _). vm_compute. exact I.
  - cbn. intros [H | [H | [H | []]]]; discriminate.
Defined.

(** ** Paths: where saving writes and where constructing reads *)

Lemma append_inj_l (a b c : string) : a +:+ b = a +:+ c -> b = c.
Proof.
  induction a as [ | x a IH ]; [now rewrite !append_nil_l | ].
  rewrite !append_cons. intros [= H]. now apply IH.
Qed.

Lemma substring_split (p : string) (n : nat) :
  n <= String.length p ->
  substring 0 n p +:+ substring n (String.length p - n) p = p.
Proof.
  revert n. induction p as [ | x p IH ]; intros n Hn.
  - cbn in Hn. assert (n = 0) as -> by lia. reflexivity.
  - destruct n as [ | n ].
    + cbn [substring]. rewrite append_nil_l. cbn [String.length Nat.sub].
      f_equal. clear. induction p as [ | y p IH ]; [reflexivity | ].
      cbn [String.length substring]. now rewrite IH.
    + cbn [substring String.length Nat.sub]. rewrite append_cons. f_equal.
      apply IH. cbn in Hn. lia.
Qed.

Lemma rfind_from_bound (c : ascii) (s : string) (i : Z) :
  (PyLib.rfind_from c s i = -1 \/
   i <= PyLib.rfind_from c s i < i + Z.of_nat (String.length s))%Z.
Proof.
  revert i. induction s as [ | a s IH ]; intros i; [now left | ].
  cbn [PyLib.rfind_from String.length]. destruct (IH (i + 1)%Z) as [Hr | Hr].
  - rewrite Hr. cbn. destruct (Ascii.eqb a c); [right; lia | now left].
  - destruct (Z.leb_spec 0 (PyLib.rfind_from c s (i + 1))) as [Hpos | Hneg].
    + right. lia.
    + destruct (Ascii.eqb a c); [right; lia | now left].
Qed.

(** [posixpath.splitext] cuts the path in two: [root + ext == path]. *)
Lemma pylib_splitext_join (p : string) :
  fst (PyLib.splitext p) +:+ snd (PyLib.splitext p) = p.
Proof.
  unfold PyLib.splitext.
  destruct ((PyLib.rfind "/" p <? PyLib.rfind "." p)%Z &&
            PyLib.has_non_dot p (PyLib.rfind "/" p + 1) (PyLib.rfind "." p)) eqn:Hcut;
    cbn [fst snd]; [ | apply append_nil_r ].
  apply andb_true_iff in Hcut as [Hlt _]. apply Z.ltb_lt in Hlt.
  unfold PyLib.rfind in *.
  destruct (rfind_from_bound "/" p 0) as [Hsep | Hsep];
    destruct (rfind_from_bound "." p 0) as [Hdot | Hdot]; try lia.
  all: unfold PyLib.slice; rewrite Z.sub_0_r; change (Z.to_nat 0) with 0.
  all: replace (Z.to_nat (Z.of_nat (String.length p) - PyLib.rfind_from "." p 0))
         with (String.length p - Z.to_nat (PyLib.rfind_from "." p 0)) by lia.
  all: apply substring_split; lia.
Qed.

(** X21: saving writes to the root of [datapath] followed by [.jsonl],
    while the constructor reads [datapath] as it is given.  With a
    [splitext] that cuts a path in two, [save_conversations] writes
    [datapath] itself exactly when its extension is [.jsonl]; when it is
    not, and [datapath] neither exists beforehand nor is the metadata
    path, constructing on the same [datapath] right after saving raises
    the not-found [RuntimeError]. *)
Theorem construct_reads_datapath_as_given {E : Type}
    (splitext : string -> string * string) (dumps : value -> string)
    (loads : string -> E + value)
    (now : string) (act_list : list (list (list dict))) (datapath : string)
    (opt : value) (save_keys context_ids : string) (self_chat : value)
    (kwargs : dict) (w : world) :
  let to_save := Conversations._get_path splitext datapath in
  let run := Conversations.save_conversations (E := E) splitext dumps now
               act_list datapath opt save_keys context_ids self_chat kwargs w in
  (forall p, fst (splitext p) +:+ snd (splitext p) = p) ->
  (to_save = datapath <-> snd (splitext datapath) = ".jsonl")
  /\ (snd (splitext datapath) <> ".jsonl" ->
      datapath <> Metadata._get_path splitext to_save ->
      fs w !! datapath = None ->
      Conversations.__init__ splitext loads datapath (snd run) =
      (inl (RuntimeError ("Conversations at path " +:+ datapath +:+ " not found. "
                          +:+ "Double check your path.")),
       snd run)).
Proof.
  intros to_save run Hjoin.
  assert (Hiff : to_save = datapath <-> snd (splitext datapath) = ".jsonl").
  { unfold to_save, Conversations._get_path. split.
    - intros Heq. rewrite <- (Hjoin datapath) in Heq at 2.
      apply append_inj_l in Heq. now symmetry.
    - intros Hext. rewrite <- (Hjoin datapath) at 2. now rewrite Hext. }
  split; [exact Hiff | ].
  intros Hext Hmeta Hnone.
  assert (Hne : datapath <> to_save) by (intros Heq; apply Hext, Hiff; now symmetry).
  assert (Hframe : fs (snd run) !! datapath = None).
  { unfold run.
    destruct (existsb (String.eqb "speakers") (dict_keys kwargs)) eqn:Hclash.
    - rewrite save_conversations_clash by exact Hclash. cbn [snd fs].
      rewrite lookup_insert_ne; [exact Hnone | ].
      intros Heq. apply Hne. symmetry. exact Heq.
    - rewrite save_conversations_run by exact Hclash. cbn [snd fs].
      rewrite lookup_insert_ne by (intros Heq; apply Hmeta; symmetry; exact Heq).
      rewrite lookup_insert_ne; [exact Hnone | ].
      intros Heq. apply Hne. symmetry. exact Heq. }
  unfold Conversations.__init__, Conversations._load_conversations, bind, isfile.
  rewrite Hframe. rewrite bool_decide_false by (intros [x Hx]; discriminate).
  reflexivity.
Qed.

Lemma construct_reads_datapath_as_given_witness :
  fst (Conversations.__init__ PyLib.splitext PyLib.loads "data/x.txt"
         (snd (Conversations.save_conversations (E := string) PyLib.splitext
                 PyLib.dumps "2020-01-01 00:00:00" [example_episode] "data/x.txt"
                 (VDict []) Conversations.default_save_keys
                 Conversations.default_context_ids (VBool false) [] (World ∅ [])))) =
  inl (RuntimeError
         "Conversations at path data/x.txt not found. Double check your path.").
Proof.
  destruct (construct_reads_datapath_as_given (E := string) PyLib.splitext PyLib.dumps
              PyLib.loads "2020-01-01 00:00:00" [example_episode] "data/x.txt"
              (VDict []) Conversations.default_save_keys
              Conversations.default_context_ids (VBool false) [] (World ∅ [])
              pylib_splitext_join) as [_ Hfail].
  rewrite Hfail.
  - reflexivity.
  - vm_compute. discriminate.
  - vm_compute. discriminate.
  - reflexivity.
Defined.
